(** * VPN monitoring agent and central task queue: a shallow embedding

    The development follows the two programs of the repository:

    - [vpn_server/vpn_agent.py]: the agent loop (counter sampling, rate
      estimation, latency probe, task pull, proxy configuration mutation,
      acknowledgment);
    - [central_server/web/handlers/api.py] and [keys.py]: the control
      plane's heartbeat ingestion and its task queue.

    Python values are modelled as the code uses them: [int] as [Z], [str]
    as [string] (code points below 256), [float] quantities by a rational
    value in [Q] (the results of float arithmetic rounded to binary64,
    numbers read from text by their decimal value),
    JSON objects as association lists, exceptions as an explicit [result]
    type.  Part I holds the definitions, Part II the
    theorems. *)

From Stdlib Require Import ZArith QArith Qround Qabs Qpower List String Ascii Bool Lia.
From Stdlib Require Import DecimalString Permutation Sorted Lqa.
Import ListNotations.

Close Scope Q_scope.
Open Scope string_scope.
Open Scope list_scope.
Open Scope Z_scope.

(* ================================================================== *)
(** * Part I: definitions *)
(* ================================================================== *)

(** ** The fragment of Python's built-ins used by the two programs *)
Module Py.

(** Exceptions that the modelled code raises or catches. [HTTPException]
    carries the status code; like every other constructor here it is an
    instance of Python's [Exception]. *)
Inductive exn : Type :=
| FileNotFoundError
| PermissionError
| ValueError
| IndexError
| AttributeError
| MultipleResultsFound
| SQLAlchemyError
| HTTPException (status_code : Z).

Inductive result (A : Type) : Type :=
| Ok (a : A)
| Raise (e : exn).
Arguments Ok {A} a.
Arguments Raise {A} e.

Definition bind {A B : Type} (m : result A) (k : A -> result B) : result B :=
  match m with
  | Ok a => k a
  | Raise e => Raise e
  end.

Notation "x <- m ;; k" := (bind m (fun x => k))
  (at level 61, m at next level, right associativity).

(** [list(map(f, xs))] for an [f] that may raise: the first failure wins. *)
Fixpoint map_result {A B : Type} (f : A -> result B) (xs : list A) : result (list B) :=
  match xs with
  | [] => Ok []
  | x :: xs' => y <- f x ;; ys <- map_result f xs' ;; Ok (y :: ys)
  end.

(** [xs[i]] for a non-negative literal index [i]. *)
Definition index {A : Type} (xs : list A) (i : nat) : result A :=
  match nth_error xs i with
  | Some x => Ok x
  | None => Raise IndexError
  end.

(** [str.isspace] on one character (code points below 256). *)
Definition isspace (c : ascii) : bool :=
  let n := nat_of_ascii c in
  ((9 <=? n) && (n <=? 13))%nat || ((28 <=? n) && (n <=? 32))%nat
  || (n =? 133)%nat || (n =? 160)%nat.

Definition isdigit (c : ascii) : bool :=
  let n := nat_of_ascii c in ((48 <=? n) && (n <=? 57))%nat.

Definition digit_value (c : ascii) : Z := Z.of_nat (nat_of_ascii c) - 48.

Fixpoint lstrip (s : string) : string :=
  match s with
  | EmptyString => EmptyString
  | String c s' => if isspace c then lstrip s' else s
  end.

Fixpoint rstrip (s : string) : string :=
  match s with
  | EmptyString => EmptyString
  | String c s' =>
      match rstrip s' with
      | EmptyString => if isspace c then EmptyString else String c EmptyString
      | r => String c r
      end
  end.

(** [s.strip()] *)
Definition strip (s : string) : string := rstrip (lstrip s).

(** [str.lower] on one character: ASCII and Latin-1 capitals. *)
Definition lower_char (c : ascii) : ascii :=
  let n := nat_of_ascii c in
  if ((65 <=? n) && (n <=? 90))%nat then ascii_of_nat (n + 32)
  else if ((192 <=? n) && (n <=? 222) && negb (n =? 215))%nat then ascii_of_nat (n + 32)
  else c.

Fixpoint lower (s : string) : string :=
  match s with
  | EmptyString => EmptyString
  | String c s' => String (lower_char c) (lower s')
  end.

(** [s.startswith(p)] *)
Fixpoint startswith (p s : string) : bool :=
  match p, s with
  | EmptyString, _ => true
  | String a p', String b s' => Ascii.eqb a b && startswith p' s'
  | String _ _, EmptyString => false
  end.

(** The rest of [s] after the literal prefix [p], when [s] starts with it. *)
Fixpoint after_prefix (p s : string) : option string :=
  match p, s with
  | EmptyString, _ => Some s
  | String a p', String b s' => if Ascii.eqb a b then after_prefix p' s' else None
  | String _ _, EmptyString => None
  end.

(** Longest prefix of characters satisfying [f], and the rest. *)
Fixpoint span (f : ascii -> bool) (s : string) : string * string :=
  match s with
  | EmptyString => (EmptyString, EmptyString)
  | String c s' =>
      if f c then let (a, b) := span f s' in (String c a, b)
      else (EmptyString, s)
  end.

(** [s.split()]: the maximal runs of non-space characters. *)
Fixpoint split_ws_aux (cur : string) (s : string) : list string :=
  match s with
  | EmptyString => if (String.length cur =? 0)%nat then [] else [cur]
  | String c s' =>
      if isspace c
      then (if (String.length cur =? 0)%nat then split_ws_aux EmptyString s'
            else cur :: split_ws_aux EmptyString s')
      else split_ws_aux (cur ++ String c EmptyString)%string s'
  end.

Definition split (s : string) : list string := split_ws_aux EmptyString s.

(** [re.split(sep+, s)] for a one-character class [sep]: the pieces between
    maximal runs of separators; a leading or trailing run leaves an empty
    piece, and the result is never the empty list. *)
Fixpoint re_split_aux (sep : ascii -> bool) (cur : string) (in_sep : bool) (s : string)
  : list string :=
  match s with
  | EmptyString => [cur]
  | String c s' =>
      if sep c
      then (if in_sep then re_split_aux sep cur true s'
            else cur :: re_split_aux sep EmptyString true s')
      else re_split_aux sep (cur ++ String c EmptyString)%string false s'
  end.

Definition re_split (sep : ascii -> bool) (s : string) : list string :=
  re_split_aux sep EmptyString false s.

(** Line boundaries of [str.splitlines] (code points below 256). *)
Definition is_linebreak (c : ascii) : bool :=
  let n := nat_of_ascii c in
  ((10 <=? n) && (n <=? 13))%nat || ((28 <=? n) && (n <=? 30))%nat || (n =? 133)%nat.

(** [s.splitlines()]: CR LF counts as one boundary and a final boundary
    opens no further line. *)
Fixpoint splitlines_aux (cur : string) (pending : bool) (s : string) : list string :=
  match s with
  | EmptyString => if pending then [cur] else []
  | String c s' =>
      if is_linebreak c then
        match s' with
        | String c' s'' =>
            if ((nat_of_ascii c =? 13) && (nat_of_ascii c' =? 10))%nat
            then cur :: splitlines_aux EmptyString false s''
            else cur :: splitlines_aux EmptyString false s'
        | EmptyString => [cur]
        end
      else splitlines_aux (cur ++ String c EmptyString)%string true s'
  end.

Definition splitlines (s : string) : list string := splitlines_aux EmptyString false s.

(** Value of a run of decimal digits, most significant first. *)
Fixpoint digits_value (acc : Z) (s : string) : Z :=
  match s with
  | EmptyString => acc
  | String c s' => digits_value (10 * acc + digit_value c) s'
  end.

(** The digit groups of an [int] literal: digits, single underscores only
    between digits. Returns the digits with the underscores removed. *)
Fixpoint int_digits (prev_digit : bool) (s : string) : option string :=
  match s with
  | EmptyString => if prev_digit then Some EmptyString else None
  | String c s' =>
      if isdigit c then
        match int_digits true s' with
        | Some r => Some (String c r)
        | None => None
        end
      else if (nat_of_ascii c =? 95)%nat then
        (if prev_digit then
           match s' with
           | String c' _ => if isdigit c' then int_digits false s' else None
           | EmptyString => None
           end
         else None)
      else None
  end.

(** [int(s)] for a string: surrounding whitespace, an optional sign,
    decimal digits. Anything else raises [ValueError]. *)
Definition int_of_str (s : string) : result Z :=
  let t := strip s in
  let (neg, body) :=
    match t with
    | String c t' =>
        if (nat_of_ascii c =? 45)%nat then (true, t')
        else if (nat_of_ascii c =? 43)%nat then (false, t')
        else (false, t)
    | EmptyString => (false, t)
    end in
  match int_digits false body with
  | Some ds => Ok (if neg then - digits_value 0 ds else digits_value 0 ds)
  | None => Raise ValueError
  end.

(** [float(s)] for the texts matched by [\d+\.?\d* ]: integer digits, an
    optional dot, fraction digits; the exact decimal value. *)
Definition decimal_value (s : string) : Q :=
  let (ip, rest) := span isdigit s in
  let fp := match rest with
            | String _ r => fst (span isdigit r)
            | EmptyString => EmptyString
            end in
  Qmake (digits_value 0 (ip ++ fp)%string) (Z.to_pos (10 ^ Z.of_nat (String.length fp))).

(** [re.search(pattern, s)] for a pattern given by its matcher at a
    fixed start: the leftmost position at which it matches. *)
Fixpoint re_search {A : Type} (m : string -> option A) (s : string) : option A :=
  match m s with
  | Some a => Some a
  | None =>
      match s with
      | EmptyString => None
      | String _ s' => re_search m s'
      end
  end.

(** The group [\d+\.?\d* ] (digits, an optional dot, digits) at the
    start of [s], with what follows it. The pieces are greedy; when a
    literal that starts with neither a digit nor a dot follows the group,
    no shorter choice can match, so this is the only candidate. *)
Definition decimal_group (s : string) : option (string * string) :=
  let (ip, rest) := span isdigit s in
  if (String.length ip =? 0)%nat then None
  else match rest with
       | String c r =>
           if (nat_of_ascii c =? 46)%nat
           then let (fp, rest') := span isdigit r in
                Some ((ip ++ String c fp)%string, rest')
           else Some (ip, rest)
       | EmptyString => Some (ip, rest)
       end.

(** The pattern [literal\s+(\d+)] at the start of [s]: the digits. *)
Definition labelled_digits (label : string) (s : string) : option string :=
  match after_prefix label s with
  | Some r =>
      let (ws, r') := span isspace r in
      let (ds, _) := span isdigit r' in
      if ((String.length ws =? 0) || (String.length ds =? 0))%nat then None else Some ds
  | None => None
  end.

(** [float(s)] on decimal literals: surrounding whitespace, an optional
    sign, digits with an optional fraction. Python's other spellings
    (exponents, underscores, [inf], [nan]) are outside this model and
    raise here. *)
Definition float_of_str (s : string) : result Q :=
  let t := strip s in
  let (neg, body) :=
    match t with
    | String c t' =>
        if (nat_of_ascii c =? 45)%nat then (true, t')
        else if (nat_of_ascii c =? 43)%nat then (false, t')
        else (false, t)
    | EmptyString => (false, t)
    end in
  match decimal_group body with
  | Some (g, EmptyString) => Ok (if neg then Qopp (decimal_value g) else decimal_value g)
  | _ => Raise ValueError
  end.

(** [int(x)] of a float: truncation toward zero. *)
Definition int_of_float (x : Q) : Z := Z.quot (Qnum x) (Zpos (Qden x)).

(** [all(f(c) for c in s)] *)
Fixpoint string_all (f : ascii -> bool) (s : string) : bool :=
  match s with
  | EmptyString => true
  | String c s' => f c && string_all f s'
  end.

(** [s.rstrip(ch)] for one character [ch]. *)
Fixpoint rstrip_char (ch : ascii) (s : string) : string :=
  match s with
  | EmptyString => EmptyString
  | String c s' =>
      match rstrip_char ch s' with
      | EmptyString => if Ascii.eqb c ch then EmptyString else String c EmptyString
      | r => String c r
      end
  end.

(** [s.split(ch, 1)] when [ch in s]: the text before the first [ch] and
    the text after it; [None] when [ch] does not occur. *)
Fixpoint split_first (ch : ascii) (s : string) : option (string * string) :=
  match s with
  | EmptyString => None
  | String c s' =>
      if Ascii.eqb c ch then Some (EmptyString, s')
      else match split_first ch s' with
           | Some (a, b) => Some (String c a, b)
           | None => None
           end
  end.

(** [s.split(ch)]: every piece between occurrences of [ch]. *)
Fixpoint split_char (ch : ascii) (s : string) : list string :=
  match s with
  | EmptyString => [EmptyString]
  | String c s' =>
      if Ascii.eqb c ch then EmptyString :: split_char ch s'
      else match split_char ch s' with
           | piece :: rest => String c piece :: rest
           | [] => [String c EmptyString]
           end
  end.

(** [s[n:]] *)
Fixpoint drop (n : nat) (s : string) : string :=
  match n, s with
  | O, _ => s
  | S n', String _ s' => drop n' s'
  | S _, EmptyString => EmptyString
  end.

(** The lines a text file yields when iterated (universal newlines: LF,
    CR and CR LF end a line), without their terminators. *)
Fixpoint file_lines_aux (cur : string) (pending : bool) (s : string) : list string :=
  match s with
  | EmptyString => if pending then [cur] else []
  | String c s' =>
      if (nat_of_ascii c =? 10)%nat then cur :: file_lines_aux EmptyString false s'
      else if (nat_of_ascii c =? 13)%nat then
        match s' with
        | String c' s'' =>
            if (nat_of_ascii c' =? 10)%nat
            then cur :: file_lines_aux EmptyString false s''
            else cur :: file_lines_aux EmptyString false s'
        | EmptyString => [cur]
        end
      else file_lines_aux (cur ++ String c EmptyString)%string true s'
  end.

Definition file_lines (s : string) : list string := file_lines_aux EmptyString false s.

(** Scalar JSON values as Python sees them after [json.load] (none of the
    fields read by the modelled code holds a floating-point number). *)
Inductive value : Type :=
| VNone
| VBool (b : bool)
| VInt (z : Z)
| VStr (s : string).

(** A JSON object with scalar fields: keys in insertion order, every key
    at most once. *)
Definition dict : Type := list (string * value).

(** [d.get(k)] *)
Fixpoint dict_get (d : dict) (k : string) : option value :=
  match d with
  | [] => None
  | (k', v) :: d' => if String.eqb k' k then Some v else dict_get d' k
  end.

(** [d.get(k, default)] *)
Definition dict_get_default (d : dict) (k : string) (default : value) : value :=
  match dict_get d k with
  | Some v => v
  | None => default
  end.

(** [str(v)] *)
Definition str (v : value) : string :=
  match v with
  | VNone => "None"
  | VBool true => "True"
  | VBool false => "False"
  | VInt z => NilZero.string_of_int (Z.to_int z)
  | VStr s => s
  end.

(** Truth value of [v] in a condition. *)
Definition truthy (v : value) : bool :=
  match v with
  | VNone => false
  | VBool b => b
  | VInt z => negb (z =? 0)
  | VStr s => negb (String.length s =? 0)%nat
  end.

(** [v == s] for a string [s]: only an equal string compares equal. *)
Definition eq_str (v : option value) (s : string) : bool :=
  match v with
  | Some (VStr t) => String.eqb t s
  | _ => false
  end.

(** [round(x)]: the nearest integer, a tie going to the even one. *)
Definition round_half_even (x : Q) : Z :=
  let f := Qfloor x in
  let r := Qminus x (inject_Z f) in
  match Qcompare r (1 # 2) with
  | Lt => f
  | Gt => f + 1
  | Eq => if Z.even f then f else f + 1
  end.

(** [round(x, 2)] of the float whose value is [x]: the multiple of 0.01
    nearest to that value, a tie going to the even one. The decimal
    stands for the float nearest to it, which is what Python returns and
    prints as this decimal. *)
Definition round2 (x : Q) : Q := Qmake (round_half_even (Qmult x (100 # 1))) 100.

(** [round(x, 1)], likewise. *)
Definition round1 (x : Q) : Q := Qmake (round_half_even (Qmult x (10 # 1))) 10.

(** Binary floating point. [pow2 e] is 2 to the power [e], [log2_floor q]
    the exponent of a positive [q] (the greatest [L] with [2^L <= q]). *)
Definition pow2 (e : Z) : Q := Qpower (2 # 1) e.

Definition log2_floor (q : Q) : Z :=
  let k := Z.log2 (Qnum q) - Z.log2 (Zpos (Qden q)) in
  if Qle_bool (pow2 k) q then k else k - 1.

(** The IEEE 754 binary64 number nearest to [q], ties to the even
    significand: 53 significant bits, the unit in the last place never
    below 2^-1074 (subnormal numbers). This is the value of a correctly
    rounded operation whose exact result is [q], as long as it is below
    2^1024 in magnitude; beyond that Python raises [OverflowError] or
    yields an infinity, which this function does not model. *)
Definition binary64 (q : Q) : Q :=
  if Qeq_bool q 0 then (0 # 1)%Q
  else
    let e := Z.max (log2_floor (Qabs q) - 52) (-1074) in
    Qmult (inject_Z (round_half_even (Qmult q (pow2 (- e))))) (pow2 e).

End Py.

(** ** The agent: [vpn_server/vpn_agent.py] *)
Module Agent.
Import Py.

(** *** Subprocesses *)

(** How a subprocess started by [run_cmd] ends: it exits within the
    timeout, it is killed at the timeout, or it cannot be started. *)
Inductive process_outcome : Type :=
| Exited (returncode : Z) (stdout stderr : string)
| TimedOut
| SpawnFailed (reason : string).

(** [run_cmd(cmd, timeout)]: [(returncode, stdout, stderr)]. *)
Definition run_cmd (o : process_outcome) : Z * string * string :=
  match o with
  | Exited returncode stdout stderr => (returncode, stdout, stderr)
  | TimedOut => (1, "", "timeout")
  | SpawnFailed reason => (1, "", reason)
  end.

(** *** CounterSampler: the kernel's text files *)

(** A path of the filesystem at one instant: absent, present but not
    readable by the agent, or readable with its text. *)
Inductive file : Type :=
| Missing
| Denied
| Content (text : string).

Definition filesystem : Type := string -> file.

(** [read_proc(path)]: only [FileNotFoundError] is caught. *)
Definition read_proc (fs : filesystem) (path : string) : result string :=
  match fs path with
  | Content text => Ok text
  | Missing => Ok ""
  | Denied => Raise PermissionError
  end.

(** The separator class of [re.split(r"[:\s]+", ...)]. *)
Definition dev_sep (c : ascii) : bool := isspace c || (nat_of_ascii c =? 58)%nat.

Definition dev_counters : Type := Z * Z * Z * Z * Z * Z * Z * Z.

(** The loop of [read_dev_counters] over [data[2:]]. *)
Fixpoint find_iface (iface : string) (lines : list string) : result dev_counters :=
  match lines with
  | [] => Ok (0, 0, 0, 0, 0, 0, 0, 0)
  | line :: rest =>
      match re_split dev_sep (strip line) with
      | [] => find_iface iface rest
      | p0 :: ps =>
          if String.eqb p0 iface then
            nums <- map_result int_of_str ps ;;
            n0 <- index nums 0 ;; n1 <- index nums 1 ;;
            n2 <- index nums 2 ;; n3 <- index nums 3 ;;
            n8 <- index nums 8 ;; n9 <- index nums 9 ;;
            n10 <- index nums 10 ;; n11 <- index nums 11 ;;
            Ok (n0, n1, n2, n3, n8, n9, n10, n11)
          else find_iface iface rest
      end
  end.

(** [read_dev_counters(iface)]: rx bytes, packets, errs, drop, then tx
    bytes, packets, errs, drop. *)
Definition read_dev_counters (fs : filesystem) (iface : string) : result dev_counters :=
  data <- read_proc fs "/proc/net/dev" ;;
  find_iface iface (skipn 2 (splitlines data)).

(** [read_cpu()] inside [cpu_sample]: the tick buckets of the first line
    of [/proc/stat]. *)
Definition read_cpu (fs : filesystem) : result (list Z) :=
  data <- read_proc fs "/proc/stat" ;;
  line <- index (splitlines data) 0 ;;
  map_result int_of_str (tl (split line)).

Definition sum (xs : list Z) : Z := fold_left Z.add xs 0.

(** [round(part * 100.0 / total, 1)]: the two integers become floats, and
    the product and the quotient are each rounded to binary64. [total] is
    positive wherever this is used. *)
Definition percent (part total : Z) : Q :=
  round1 (binary64 (Qdiv (binary64 (Qmult (binary64 (inject_Z part)) (100 # 1)))
                         (binary64 (inject_Z total)))).

(** [cpu_sample()]: the two reads are 0.2 s apart, so each has its own
    view of the filesystem. Returns [(cpu_total_pct, softirq_pct)]. *)
Definition cpu_sample (fs_a fs_b : filesystem) : result (Q * Q) :=
  a <- read_cpu fs_a ;;
  b <- read_cpu fs_b ;;
  a3 <- index a 3 ;; a4 <- index a 4 ;;
  b3 <- index b 3 ;; b4 <- index b 4 ;;
  let idle_a := a3 + a4 in
  let idle_b := b3 + b4 in
  let total_a := sum a in
  let total_b := sum b in
  let total := Z.max 1 (total_b - total_a) in
  let busy := total - (idle_b - idle_a) in
  b6 <- index b 6 ;; a6 <- index a 6 ;;
  let softirq_delta := b6 - a6 in
  Ok (percent busy total, percent softirq_delta total).

(** [headers.index(key)] when [key in headers]. *)
Fixpoint list_index (key : string) (xs : list string) : option nat :=
  match xs with
  | [] => None
  | x :: xs' => if String.eqb x key then Some O
                else match list_index key xs' with
                     | Some i => Some (S i)
                     | None => None
                     end
  end.

(** The loop of [tcp_ext_value] over the line pairs (0,1), (2,3), ... *)
Fixpoint tcp_ext_pairs (key : string) (data : list string) : Z :=
  match data with
  | h :: v :: rest =>
      if startswith "TcpExt:" h && startswith "TcpExt:" v then
        match list_index key (tl (split h)) with
        | Some idx =>
            match nth_error (tl (split v)) idx with
            | Some text => match int_of_str text with
                           | Ok z => z
                           | Raise _ => 0
                           end
            | None => 0
            end
        | None => tcp_ext_pairs key rest
        end
      else tcp_ext_pairs key rest
  | _ => 0
  end.

(** [tcp_ext_value(key)] *)
Definition tcp_ext_value (fs : filesystem) (key : string) : result Z :=
  data <- read_proc fs "/proc/net/netstat" ;;
  Ok (tcp_ext_pairs key (splitlines data)).

(** *** LatencyProbe *)

(** [re.search(r"(\d+\.?\d* )% packet loss", out)], the group as a number. *)
Definition search_loss (out : string) : option Q :=
  re_search (fun s => match decimal_group s with
                      | Some (g, rest) =>
                          if startswith "% packet loss" rest then Some (decimal_value g) else None
                      | None => None
                      end) out.

(** [re.search(r"time=(\d+\.?\d* ) ms", line)], the group as a number. *)
Definition search_time (line : string) : option Q :=
  re_search (fun s => match after_prefix "time=" s with
                      | Some r =>
                          match decimal_group r with
                          | Some (g, rest) =>
                              if startswith " ms" rest then Some (decimal_value g) else None
                          | None => None
                          end
                      | None => None
                      end) line.

(** The round-trip times of the output, one per line that shows one. *)
Definition parse_times (out : string) : list Q :=
  flat_map (fun line => match search_time line with
                        | Some t => [t]
                        | None => []
                        end) (splitlines out).

(** The loss percentage of the output; 100 when none is shown. *)
Definition parse_loss (out : string) : Q :=
  match search_loss out with
  | Some l => l
  | None => (100 # 1)%Q
  end.

(** [times.sort()]: ascending and stable. *)
Fixpoint insert_sorted (x : Q) (l : list Q) : list Q :=
  match l with
  | [] => [x]
  | y :: l' => if Qle_bool y x then y :: insert_sorted x l' else x :: l
  end.

Definition sort (l : list Q) : list Q := fold_left (fun acc x => insert_sorted x acc) l [].

(** [pct(p)] over the sorted [times]. *)
Definition pct (times : list Q) (p : Q) : Q :=
  match times with
  | [] => (0 # 1)%Q
  | _ =>
      let n := Z.of_nat (List.length times) in
      let idx := round_half_even (Qmult (inject_Z (n - 1)) p) in
      nth (Z.to_nat (Z.min (Z.max idx 0) (n - 1))) times (0 # 1)%Q
  end.

(** [measure_ping], given how the [ping] subprocess ended. Returns
    [(p50_ms, p95_ms, loss_pct)]. *)
Definition measure_ping (o : process_outcome) : Q * Q * Q :=
  let '(rc, out, _) := run_cmd o in
  if negb (rc =? 0) then ((0 # 1)%Q, (0 # 1)%Q, (100 # 1)%Q)
  else
    let loss_pct := parse_loss out in
    let times := parse_times out in
    match times with
    | [] => ((0 # 1)%Q, (0 # 1)%Q, loss_pct)
    | _ => let times := sort times in
           (pct times (1 # 2)%Q, pct times (95 # 100)%Q, loss_pct)
    end.

(** *** The proxy configuration file

    The xray configuration as [apply_tasks] reads it: an object with an
    optional ["inbounds"] array; each inbound has an optional ["protocol"],
    an optional ["settings"] object, whose optional ["clients"] array holds
    the user entries (objects with scalar fields). Keys that [apply_tasks]
    never reads are carried along as text. A file of another shape (a
    ["settings"] that is no object, an entry that is no object) makes
    [apply_tasks] raise an [AttributeError] it does not catch; such files
    are outside this model. *)
Record settings_t : Type := mkSettings {
  clients : option (list dict);
  settings_other : list (string * string)
}.

Record inbound : Type := mkInbound {
  protocol : option value;
  settings : option settings_t;
  inbound_other : list (string * string)
}.

Record config : Type := mkConfig {
  inbounds : option (list inbound);
  config_other : list (string * string)
}.

(** What [apply_tasks] meets outside the process: the configuration file
    ([None]: [read_json] raises, the file is missing or is not JSON),
    whether [write_json_atomic] succeeds, and the exit status of
    [systemctl reload xray] ([None]: [subprocess.call] itself raises). *)
Record world : Type := mkWorld {
  config_file : option config;
  write_ok : bool;
  reload_rc : option Z
}.

(** The heartbeat record as [run_loop] assembles it. *)
Record heartbeat : Type := mkHeartbeat {
  hb_server_id : string;
  generated_at : string;
  ready_at : string;
  iface : string;
  ping_target : string;
  uptime_s : Z;
  load1 : string;
  mem_total_mb : Z;
  mem_free_mb : Z;
  cpu_total_pct : Q;
  softirq_pct : Q;
  bw_rx_mbps : Q;
  bw_tx_mbps : Q;
  bw_total_mbps : Q;
  pps_rx : Z;
  pps_tx : Z;
  pps_total : Z;
  conn_est_rate_s : Z;
  active_conns : Z;
  conntrack_usage_pct : Q;
  rx_dropped : Z;
  tx_dropped : Z;
  latency_p50_ms : Q;
  latency_p95_ms : Q;
  packet_loss_pct : Q
}.

(** The effects of one agent step, in program order. *)
Inductive event : Type :=
| WriteConfig (cfg : config) (ok : bool)
| Systemctl (verb : string)
| HttpGet (url : string)
| HttpPost (url : string) (payload : dict)
| PostHeartbeat (url : string) (payload : heartbeat).

(** [c.get("id") == user_id] *)
Definition client_has_id (user_id : string) (c : dict) : bool :=
  eq_str (dict_get c "id") user_id.

(** The entry built for [add_key]; ["email"] is set only when truthy. *)
Definition new_client (user_id : string) (email : value) : dict :=
  [("id", VStr user_id); ("flow", VStr "xtls-rprx-vision")]
    ++ (if truthy email then [("email", email)] else []).

(** [inbound.setdefault("settings", {}).setdefault("clients", [])]: the
    inbound as the call leaves it, and the list it returns. *)
Definition setdefault_clients (b : inbound) : inbound * list dict :=
  let st := match settings b with
            | Some s => s
            | None => mkSettings None []
            end in
  let cl := match clients st with
            | Some l => l
            | None => []
            end in
  (mkInbound (protocol b) (Some (mkSettings (Some cl) (settings_other st))) (inbound_other b), cl).

(** [inbound["settings"]["clients"] = cl], after [setdefault_clients]. *)
Definition set_clients (b : inbound) (cl : list dict) : inbound :=
  match settings b with
  | Some s => mkInbound (protocol b) (Some (mkSettings (Some cl) (settings_other s))) (inbound_other b)
  | None => mkInbound (protocol b) (Some (mkSettings (Some cl) [])) (inbound_other b)
  end.

(** The body of the inner loop of [apply_tasks] for one listener. *)
Definition apply_to_inbound (action user_id : string) (email : value)
  (b : inbound) (changed : bool) : inbound * bool :=
  let (b1, cl) := setdefault_clients b in
  if String.eqb action "add_key" then
    if negb (existsb (client_has_id user_id) cl)
    then (set_clients b1 (cl ++ [new_client user_id email]), true)
    else (b1, changed)
  else if String.eqb action "del_key" then
    let new_clients := filter (fun c => negb (client_has_id user_id c)) cl in
    if negb (List.length new_clients =? List.length cl)%nat
    then (set_clients b1 new_clients, true)
    else (b1, changed)
  else (b1, changed).

(** [b.get("protocol") == "vless"] *)
Definition is_vless (b : inbound) : bool := eq_str (protocol b) "vless".

(** [for inbound in vless_inbounds: ...]: the listeners are the objects of
    [cfg["inbounds"]] themselves, so the loop updates that array in place;
    the other inbounds are left as they are. *)
Fixpoint for_inbounds (action user_id : string) (email : value)
  (bs : list inbound) (changed : bool) : list inbound * bool :=
  match bs with
  | [] => ([], changed)
  | b :: bs' =>
      let (b', ch) := if is_vless b
                      then apply_to_inbound action user_id email b changed
                      else (b, changed) in
      let (bs'', ch') := for_inbounds action user_id email bs' ch in
      (b' :: bs'', ch')
  end.

Definition task_action (task : dict) : string :=
  strip (str (dict_get_default task "type" (VStr ""))).

Definition task_user_id (task : dict) : string :=
  strip (str (dict_get_default task "id" (VStr ""))).

Definition task_email (task : dict) : value :=
  dict_get_default task "email" VNone.

(** One round of [for task in tasks]; a task whose id is empty after
    trimming is skipped. *)
Definition apply_task (task : dict) (st : list inbound * bool) : list inbound * bool :=
  if (String.length (task_user_id task) =? 0)%nat then st
  else for_inbounds (task_action task) (task_user_id task) (task_email task) (fst st) (snd st).

(** The in-memory part of [apply_tasks]: the configuration after the loop
    and the [changed] flag. Without an ["inbounds"] key the default list of
    [cfg.get] belongs to no object and nothing is touched. *)
Definition mutate (tasks : list dict) (cfg : config) : config * bool :=
  match inbounds cfg with
  | None => (cfg, false)
  | Some bs =>
      let (bs', ch) := fold_left (fun st t => apply_task t st) tasks (bs, false) in
      (mkConfig (Some bs') (config_other cfg), ch)
  end.

(** [apply_tasks(tasks, xray_config_path)] *)
Definition apply_tasks (tasks : list dict) (w : world) : world * list event :=
  match config_file w with
  | None => (w, [])
  | Some cfg =>
      let (cfg', changed) := mutate tasks cfg in
      if changed then
        if write_ok w then
          let w' := mkWorld (Some cfg') (write_ok w) (reload_rc w) in
          match reload_rc w with
          | Some rc =>
              if negb (rc =? 0)
              then (w', [WriteConfig cfg' true; Systemctl "reload"; Systemctl "restart"])
              else (w', [WriteConfig cfg' true; Systemctl "reload"])
          | None => (w', [WriteConfig cfg' true; Systemctl "reload"])
          end
        else (w, [WriteConfig cfg' false])
      else (w, [])
  end.

(** The answer of [http_get_json]: a JSON array of task objects, or any
    other JSON value. A transport failure is the empty array. *)
Inductive response : Type :=
| RespList (tasks : list dict)
| RespOther.

(** [[int(t.get("task_id")) for t in tasks if isinstance(t.get("task_id"), int)]];
    a JSON boolean is an [int] for [isinstance]. *)
Definition done_ids (tasks : list dict) : list Z :=
  flat_map (fun t => match dict_get t "task_id" with
                     | Some (VInt z) => [z]
                     | Some (VBool b) => [if b then 1 else 0]
                     | _ => []
                     end) tasks.

(** [f"{central}/tasks/{tid}/ack"] *)
Definition ack_url (central : string) (tid : Z) : string :=
  (central ++ "/tasks/" ++ str (VInt tid) ++ "/ack")%string.

(** [ack_tasks(central, token, task_ids, status)]: one POST per id. *)
Definition ack_tasks (central : string) (task_ids : list Z) (status : string) : list event :=
  map (fun tid => HttpPost (ack_url central tid) [("status", VStr status)]) task_ids.

Definition is_post (e : event) : bool :=
  match e with
  | HttpPost _ _ => true
  | PostHeartbeat _ _ => true
  | _ => false
  end.

(** The task step of one loop iteration ([# tasks] in [run_loop]). *)
Definition pull_step (central token server_id : string) (resp : response) (w : world)
  : world * list event :=
  if negb (String.length central =? 0)%nat && negb (String.length token =? 0)%nat then
    let get := HttpGet (central ++ "/tasks?server_id=" ++ server_id)%string in
    match resp with
    | RespList (t :: ts) =>
        let tasks := t :: ts in
        let (w', evs) := apply_tasks tasks w in
        let ids := done_ids tasks in
        (w', get :: evs ++ (match ids with
                            | [] => []
                            | _ => ack_tasks central ids "done"
                            end))
    | _ => (w, [get])
    end
  else (w, []).

(** *** RateEstimator and the loop body *)

(** The counters kept from the previous iteration. *)
Record loop_state : Type := mkState {
  last_ts : Z;
  last_rx_bytes : Z;
  last_tx_bytes : Z;
  last_rx_pkts : Z;
  last_tx_pkts : Z;
  last_active_opens : Z;
  last_passive_opens : Z
}.

(** The state [run_loop] starts from. *)
Definition initial_state : loop_state := mkState 0 0 0 0 0 0 0.

Record rates : Type := mkRates {
  r_bw_rx_mbps : Q;
  r_bw_tx_mbps : Q;
  r_pps_rx : Z;
  r_pps_tx : Z;
  r_conn_est_rate : Z
}.

(** [round(((cur - last) * 8.0) / (dt * 1_000_000), 2)]: the two integers
    become floats, and the product and the quotient are each rounded to
    binary64. [dt] is positive. *)
Definition mbps (cur last dt : Z) : Q :=
  round2 (binary64 (Qdiv (binary64 (Qmult (binary64 (inject_Z (cur - last))) (8 # 1)))
                         (binary64 (inject_Z (dt * 1000000))))).

(** [max(0, int(delta / dt))]: [/] between two [int]s is the true
    division, whose result is the binary64 number nearest to the exact
    quotient, and [int] truncates it toward zero. [dt] is a [max(1, ...)],
    so the divisor is never 0. *)
Definition per_second (delta dt : Z) : Z :=
  Z.max 0 (int_of_float (binary64 (Qdiv (inject_Z delta) (inject_Z dt)))).

(** The rate block of [run_loop] (from [now = int(time.time())] to
    [conn_est_rate]). *)
Definition estimate_rates (st : loop_state) (now : Z) (net_iface : string)
  (rx_bytes tx_bytes rx_pkts tx_pkts active_opens passive_opens : Z) : rates :=
  let elapsed := (0 <? last_ts st) && (last_ts st <? now) in
  let dt := Z.max 1 (now - last_ts st) in
  let with_iface := elapsed && negb (String.length net_iface =? 0)%nat in
  mkRates
    (if with_iface then mbps rx_bytes (last_rx_bytes st) dt else (0 # 1)%Q)
    (if with_iface then mbps tx_bytes (last_tx_bytes st) dt else (0 # 1)%Q)
    (if with_iface then per_second (rx_pkts - last_rx_pkts st) dt else 0)
    (if with_iface then per_second (tx_pkts - last_tx_pkts st) dt else 0)
    (if elapsed
     then per_second ((active_opens - last_active_opens st)
                      + (passive_opens - last_passive_opens st)) dt
     else 0).

(** The agent's settings read from its environment file. *)
Record settings_env : Type := mkEnv {
  central : string;
  token : string;
  server_id : string;
  env_ping_target : string;
  net_iface : string
}.

(** What one iteration observes: the two timestamps, the filesystem
    (taken not to change within the iteration, the second read of
    [cpu_sample] apart), the clock, how the [ss] and [ping] subprocesses
    end, and the answer to the task pull. *)
Record observation : Type := mkObs {
  loop_start : string;
  loop_ready : string;
  fs : filesystem;
  fs_after_sleep : filesystem;
  now : Z;
  ss : process_outcome;
  ping : process_outcome;
  pulled : response
}.

(** [uptime_s] *)
Definition read_uptime (fs : filesystem) : result Z :=
  text <- read_proc fs "/proc/uptime" ;;
  if (String.length text =? 0)%nat then Ok 0
  else tok <- index (split text) 0 ;;
       x <- float_of_str tok ;;
       Ok (int_of_float x).

(** [load1] *)
Definition read_load1 (fs : filesystem) : result string :=
  text <- read_proc fs "/proc/loadavg" ;;
  if (String.length text =? 0)%nat then Ok "0.00"
  else index (split text) 0.

(** [int(int(m.group(1)) / 1024)] for the first match of the label, else 0. *)
Definition meminfo_mb (label : string) (meminfo : string) : Z :=
  match re_search (labelled_digits label) meminfo with
  | Some ds => Z.quot (digits_value 0 ds) 1024
  | None => 0
  end.

(** [int(text.strip() or 0)] *)
Definition int_or_zero (text : string) : result Z :=
  let t := strip text in
  if (String.length t =? 0)%nat then Ok 0 else int_of_str t.

(** The conntrack block: any exception keeps what was assigned so far. *)
Definition read_conntrack (fs : filesystem) : Z * Z :=
  match (text <- read_proc fs "/proc/sys/net/netfilter/nf_conntrack_count" ;; int_or_zero text) with
  | Raise _ => (0, 0)
  | Ok ct_count =>
      match (text <- read_proc fs "/proc/sys/net/netfilter/nf_conntrack_max" ;; int_or_zero text) with
      | Raise _ => (ct_count, 0)
      | Ok ct_max => (ct_count, ct_max)
      end
  end.

(** [active_conns] from the outcome of [ss]. *)
Definition count_active_conns (o : process_outcome) : Z :=
  let '(rc, out_ss, _) := run_cmd o in
  if rc =? 0 then
    let lines := filter (fun ln => negb (String.length (strip ln) =? 0)%nat) (splitlines out_ss) in
    if (1 <? List.length lines)%nat then Z.max 0 (Z.of_nat (List.length lines) - 1) else 0
  else 0.

(** One iteration of the [while True] loop of [run_loop], the final sleep
    apart. No statement of the body outside the conntrack block stands in
    a [try], so an exception raised by a step ends the iteration, and the
    loop with it, before the steps that follow. *)
Definition run_loop_body (env : settings_env) (obs : observation) (st : loop_state) (w : world)
  : result (loop_state * world * list event) :=
  uptime <- read_uptime (fs obs) ;;
  load <- read_load1 (fs obs) ;;
  meminfo <- read_proc (fs obs) "/proc/meminfo" ;;
  let mem_total := meminfo_mb "MemTotal:" meminfo in
  let mem_free := meminfo_mb "MemAvailable:" meminfo in
  cpu <- cpu_sample (fs obs) (fs_after_sleep obs) ;;
  dev <- (if negb (String.length (net_iface env) =? 0)%nat
          then read_dev_counters (fs obs) (net_iface env)
          else Ok (0, 0, 0, 0, 0, 0, 0, 0)) ;;
  let '(rx_bytes, rx_pkts, _, rx_drop, tx_bytes, tx_pkts, _, tx_drop) := dev in
  active_opens <- tcp_ext_value (fs obs) "ActiveOpens" ;;
  passive_opens <- tcp_ext_value (fs obs) "PassiveOpens" ;;
  let r := estimate_rates st (now obs) (net_iface env)
                          rx_bytes tx_bytes rx_pkts tx_pkts active_opens passive_opens in
  let conns := count_active_conns (ss obs) in
  let (ct_count, ct_max) := read_conntrack (fs obs) in
  let usage := if 0 <? ct_max
               then percent ct_count ct_max else (0 # 1)%Q in
  let '(p50, p95, loss) := measure_ping (ping obs) in
  let configured := negb (String.length (central env) =? 0)%nat
                    && negb (String.length (token env) =? 0)%nat in
  let payload :=
    mkHeartbeat (server_id env) (loop_start obs) (loop_ready obs) (net_iface env)
                (env_ping_target env) uptime load mem_total mem_free (fst cpu) (snd cpu)
                (r_bw_rx_mbps r) (r_bw_tx_mbps r)
                (round2 (binary64 (Qplus (binary64 (r_bw_rx_mbps r))
                                         (binary64 (r_bw_tx_mbps r)))))
                (r_pps_rx r) (r_pps_tx r) (r_pps_rx r + r_pps_tx r) (r_conn_est_rate r)
                conns usage rx_drop tx_drop p50 p95 loss in
  let beat := if configured
              then [PostHeartbeat (central env ++ "/heartbeat")%string payload] else [] in
  let (w', evs) := pull_step (central env) (token env) (server_id env) (pulled obs) w in
  Ok (mkState (now obs) rx_bytes tx_bytes rx_pkts tx_pkts active_opens passive_opens,
      w', beat ++ evs).

(** *** Startup: the environment file and the settings *)

(** The dictionary [load_env] builds: keys in insertion order, every key
    at most once. *)
Definition env_t : Type := list (string * string).

(** [env.get(k)] *)
Fixpoint env_get (env : env_t) (k : string) : option string :=
  match env with
  | [] => None
  | (k', v) :: env' => if String.eqb k' k then Some v else env_get env' k
  end.

(** [env[k] = v] *)
Fixpoint env_set (k v : string) (env : env_t) : env_t :=
  match env with
  | [] => [(k, v)]
  | (k', v') :: env' =>
      if String.eqb k' k then (k, v) :: env' else (k', v') :: env_set k v env'
  end.

(** The body of the loop of [load_env] for one line. *)
Definition load_env_line (env : env_t) (line : string) : env_t :=
  let line := strip line in
  if (String.length line =? 0)%nat || startswith "#" line then env
  else match split_first "=" line with
       | Some (k, v) => env_set (strip k) (strip v) env
       | None => env
       end.

Definition load_env_lines (lines : list string) : env_t :=
  fold_left load_env_line lines [].

(** [load_env(path)]: an absent file is the empty dictionary; a file that
    cannot be opened raises. *)
Definition load_env (f : file) : result env_t :=
  match f with
  | Missing => Ok []
  | Denied => Raise PermissionError
  | Content text => Ok (load_env_lines (file_lines text))
  end.

(** [default_iface()], given how [ip route get 1.1.1.1] ended: the group
    of the first match of [ dev (\S+)], else the empty string. *)
Definition default_iface (o : process_outcome) : string :=
  let '(rc, out, _) := run_cmd o in
  if rc =? 0 then
    match re_search (fun s => match after_prefix " dev " s with
                              | Some r =>
                                  let (name, _) := span (fun c => negb (isspace c)) r in
                                  if (String.length name =? 0)%nat then None else Some name
                              | None => None
                              end) out with
    | Some name => name
    | None => ""
    end
  else "".

(** What [run_loop] computes before its loop. *)
Record startup : Type := mkStartup {
  env_settings : settings_env;
  heartbeat_interval : Z;
  xray_port : Z;
  xray_config : string;
  listen_host : string;
  listen_port : Z
}.

(** [env.get(k, default)] *)
Definition env_get_default (env : env_t) (k default : string) : string :=
  match env_get env k with
  | Some v => v
  | None => default
  end.

(** [int(text or default)] *)
Definition int_or (text : string) (default : Z) : result Z :=
  if (String.length text =? 0)%nat then Ok default else int_of_str text.

(** [host, port = agent_listen.split(':') if ':' in agent_listen else
    (agent_listen, '8081')]: unpacking anything but two pieces raises. *)
Definition split_listen (agent_listen : string) : result (string * string) :=
  match split_char ":" agent_listen with
  | [_] => Ok (agent_listen, "8081")
  | [host; port] => Ok (host, port)
  | _ => Raise ValueError
  end.

(** The prologue of [run_loop]: from the environment dictionary, the host
    name and the outcome of the [ip] command (consulted when [NET_IFACE] is
    unset or empty) to the settings and the listening address. *)
Definition read_settings (env : env_t) (nodename : string) (ip_route : process_outcome)
  : result startup :=
  let central := rstrip_char "/" (env_get_default env "CENTRAL_API_BASE" "") in
  let token := env_get_default env "SERVER_TOKEN" "" in
  let server_id := env_get_default env "SERVER_ID" nodename in
  interval <- int_or (env_get_default env "HEARTBEAT_INTERVAL" "30") 30 ;;
  port <- int_or (env_get_default env "XRAY_PORT" "443") 443 ;;
  let ping_target := env_get_default env "PING_TARGET" "1.1.1.1" in
  let config_path := env_get_default env "XRAY_CONFIG" "/etc/xray/config.json" in
  let iface := let v := env_get_default env "NET_IFACE" "" in
               if (String.length v =? 0)%nat then default_iface ip_route else v in
  let agent_listen := match env_get env "AGENT_LISTEN" with
                      | Some v => if (String.length v =? 0)%nat then "127.0.0.1:8081" else v
                      | None => "127.0.0.1:8081"
                      end in
  hp <- split_listen agent_listen ;;
  lport <- int_of_str (snd hp) ;;
  Ok (mkStartup (mkEnv central token server_id ping_target iface)
                interval port config_path (fst hp) lport).

(** [asyncio.sleep(max(1, heartbeat_interval))]: the seconds slept. *)
Definition sleep_seconds (interval : Z) : Z := Z.max 1 interval.

(** The headers of [http_post_json] and [http_get_json]: the value of
    [Authorization], absent for an empty token. *)
Definition authorization_header (token : string) : option string :=
  if (String.length token =? 0)%nat then None else Some ("Bearer " ++ token)%string.

(** *** The push listener *)

(** An item of a JSON array as the listener meets it: an object (with
    scalar fields), or a value of another kind (number, string, boolean,
    null, array), on which [task.get] raises [AttributeError]. *)
Inductive json_item : Type :=
| Object (fields : dict)
| NotObject.

(** What [await request.json()] gives [handle_command]: no JSON at all, an
    object, an array, or another JSON value. For an object the ["tasks"]
    key is absent, holds an array, or holds something that is no array;
    [fields] are its scalar fields. *)
Inductive tasks_field : Type :=
| NoTasks
| TasksList (ts : list json_item)
| TasksNotList.

Inductive push_body : Type :=
| InvalidJson
| JsonObject (tasks_key : tasks_field) (fields : dict)
| JsonArray (items : list json_item)
| JsonScalar (v : value).

(** The JSON answer of the listener: status, the ["ok"] flag, the error. *)
Record push_response : Type := mkPushResponse {
  push_status : Z;
  push_ok : bool;
  push_error : option string
}.

(** The batch when every item is an object. *)
Fixpoint objects (items : list json_item) : option (list dict) :=
  match items with
  | [] => Some []
  | Object t :: rest => match objects rest with
                        | Some ts => Some (t :: ts)
                        | None => None
                        end
  | NotObject :: _ => None
  end.

(** [apply_tasks] on a batch whose items need not be objects. An
    unreadable file ends the call before the loop. Otherwise the loop
    calls [task.get] on every item in turn, so the first item that is no
    object raises [AttributeError], outside any [try]: the tasks before
    it have altered the configuration in memory only, and nothing is
    written. *)
Definition apply_tasks_json (items : list json_item) (w : world)
  : result (world * list event) :=
  match config_file w with
  | None => Ok (w, [])
  | Some _ =>
      match objects items with
      | Some tasks => Ok (apply_tasks tasks w)
      | None => Raise AttributeError
      end
  end.

(** The [tasks] that [handle_command] takes from a JSON body; [None] when
    it answers "invalid payload". *)
Definition push_tasks (body : push_body) : option (list json_item) :=
  match body with
  | JsonObject (TasksList ts) _ => Some ts
  | JsonObject _ fields => Some [Object fields]
  | JsonArray items => Some items
  | JsonScalar _ => None
  | InvalidJson => None
  end.

(** [handle_command(request)]. An exception that leaves it is answered by
    the web framework, not by this function. *)
Definition handle_command (body : push_body) (w : world)
  : result (world * list event * push_response) :=
  match body with
  | InvalidJson => Ok (w, [], mkPushResponse 400 false (Some "invalid json"))
  | _ =>
      match push_tasks body with
      | None => Ok (w, [], mkPushResponse 400 false (Some "invalid payload"))
      | Some tasks =>
          r <- apply_tasks_json tasks w ;;
          Ok (fst r, snd r, mkPushResponse 200 true None)
      end
  end.

(** *** Reading the configuration back *)

(** The user entries of a listener. *)
Definition clients_of (b : inbound) : list dict :=
  match settings b with
  | Some s => match clients s with
              | Some l => l
              | None => []
              end
  | None => []
  end.

Definition inbounds_of (cfg : config) : list inbound :=
  match inbounds cfg with
  | Some l => l
  | None => []
  end.

(** The user lists of the vless listeners, in file order. *)
Definition vless_clients (cfg : config) : list (list dict) :=
  map clients_of (filter is_vless (inbounds_of cfg)).

(** Number of entries with id [k] in a user list. *)
Definition count_id (k : string) (l : list dict) : nat :=
  List.length (filter (client_has_id k) l).

(** What one task does to the user list of one listener: the list-level
    reading of [apply_to_inbound], proved below to agree with it. *)
Definition step_list (action user_id : string) (email : value) (l : list dict) : list dict :=
  if String.eqb action "add_key" then
    if existsb (client_has_id user_id) l then l else l ++ [new_client user_id email]
  else if String.eqb action "del_key" then
    filter (fun c => negb (client_has_id user_id c)) l
  else l.

(** Whether that step alters the list. *)
Definition step_changes (action user_id : string) (l : list dict) : bool :=
  if String.eqb action "add_key" then negb (existsb (client_has_id user_id) l)
  else if String.eqb action "del_key" then
    negb (List.length (filter (fun c => negb (client_has_id user_id c)) l) =? List.length l)%nat
  else false.

(** The [settings] keys other than ["clients"], as the inbound has them. *)
Definition settings_other_of (b : inbound) : list (string * string) :=
  match settings b with
  | Some st => settings_other st
  | None => []
  end.

(** What [apply_tasks] may do to one inbound: nothing at all when it is not
    a vless listener, and never more than replace its user list. *)
Definition kept (b b' : inbound) : Prop :=
  protocol b' = protocol b
  /\ inbound_other b' = inbound_other b
  /\ settings_other_of b' = settings_other_of b
  /\ (is_vless b = false -> b' = b).

(** An effect that leaves the machine: a request to the control plane. *)
Definition is_network (e : event) : bool :=
  match e with
  | HttpGet _ | HttpPost _ _ | PostHeartbeat _ _ => true
  | WriteConfig _ _ | Systemctl _ => false
  end.

Definition is_heartbeat (e : event) : bool :=
  match e with
  | PostHeartbeat _ _ => true
  | _ => false
  end.

(** One task on one user list, the skip of an empty id included. *)
Definition task_step (task : dict) (l : list dict) : list dict :=
  if (String.length (task_user_id task) =? 0)%nat then l
  else step_list (task_action task) (task_user_id task) (task_email task) l.

(** Whether one task alters one user list. *)
Definition task_changes (task : dict) (l : list dict) : bool :=
  if (String.length (task_user_id task) =? 0)%nat then false
  else step_changes (task_action task) (task_user_id task) l.

(** An entry that some [del_key] task of the batch names: it has a string
    id equal to the trimmed, non-empty id of the task. *)
Definition deleted_by (tasks : list dict) (c : dict) : bool :=
  existsb (fun t => negb (String.length (task_user_id t) =? 0)%nat
                    && String.eqb (task_action t) "del_key"
                    && client_has_id (task_user_id t) c) tasks.

(** An entry that some task of the batch names, whatever its kind. *)
Definition named_by (tasks : list dict) (c : dict) : bool :=
  existsb (fun t => client_has_id (task_user_id t) c) tasks.

(** An entry as some [add_key] task of the batch builds it. *)
Definition added_by (tasks : list dict) (c : dict) : Prop :=
  exists t, In t tasks /\ task_action t = "add_key" /\ task_user_id t <> ""
            /\ c = new_client (task_user_id t) (task_email t).

(** A batch is a no-op on a configuration when every task, applied in
    delivery order, leaves the user list of every vless listener as it
    found it. *)
Fixpoint noop_batch (tasks : list dict) (cfg : config) : Prop :=
  match tasks with
  | [] => True
  | t :: ts =>
      vless_clients (fst (mutate [t] cfg)) = vless_clients cfg
      /\ noop_batch ts (fst (mutate [t] cfg))
  end.

End Agent.

(** ** The control plane: [central_server/web/handlers] and [db/models.py] *)
Module Central.
Import Py.

(** [ServerTask]: a row of the task queue ([created_at] and the unused
    [payload] column apart). [status] is the text column the handlers
    write: pending, delivered, done or failed. *)
Record ServerTask : Type := mkTask {
  id : Z;
  server_id : string;
  type : string;
  key_id : string;
  email : option string;
  status : string
}.

(** [VpnServer]: the columns the handlers read. *)
Record VpnServer : Type := mkServer {
  vs_server_id : string;
  is_active : bool
}.

(** [ServerHeartbeat]: identity, the two parsed timestamps, and the metric
    columns as received. The type of parsed timestamps is a parameter. *)
Record ServerHeartbeat (datetime : Type) : Type := mkHeartbeatRow {
  hb_id : Z;
  hb_server_id : string;
  hb_generated_at : datetime;
  hb_ready_at : datetime;
  hb_metrics : list (string * string)
}.
Arguments mkHeartbeatRow {datetime}.
Arguments hb_id {datetime}.
Arguments hb_server_id {datetime}.

Record database (datetime : Type) : Type := mkDb {
  servers : list VpnServer;
  heartbeats : list (ServerHeartbeat datetime);
  tasks : list ServerTask
}.
Arguments mkDb {datetime}.
Arguments servers {datetime}.
Arguments heartbeats {datetime}.
Arguments tasks {datetime}.

(** [result.scalar_one_or_none()] over the selected rows. *)
Definition scalar_one_or_none {A : Type} (rows : list A) : result (option A) :=
  match rows with
  | [] => Ok None
  | [row] => Ok (Some row)
  | _ => Raise MultipleResultsFound
  end.

(** The id an autoincrement primary key gives the next row. *)
Definition next_id (ids : list Z) : Z := 1 + fold_left Z.max ids 0.

(** The status code FastAPI answers with: the code of an [HTTPException],
    500 from [global_exception_handler] for any other exception. *)
Definition http_status {A : Type} (r : result A) : Z :=
  match r with
  | Ok _ => 200
  | Raise (HTTPException code) => code
  | Raise _ => 500
  end.

(** *** Authorization: [web/utils/auth.py] *)

(** [verify_token(authorization)] against the configured secret. *)
Definition verify_token (SECRET_TOKEN : string) (authorization : option string)
  : result string :=
  match authorization with
  | None => Raise (HTTPException 401)
  | Some header =>
      if (String.length header =? 0)%nat then Raise (HTTPException 401)
      else if negb (startswith "Bearer " header) then Raise (HTTPException 401)
      else
        let token := drop 7 header in
        if negb (String.eqb token SECRET_TOKEN) then Raise (HTTPException 401)
        else Ok token
  end.

(** *** Heartbeat ingestion *)

(** [timestamp_str.replace('Z', '+00:00')] *)
Fixpoint replace_Z (s : string) : string :=
  match s with
  | EmptyString => EmptyString
  | String c s' =>
      if (nat_of_ascii c =? 90)%nat then ("+00:00" ++ replace_Z s')%string
      else String c (replace_Z s')
  end.

(** [HeartbeatRequest]: the fields [receive_heartbeat] looks at, the
    metrics as received. *)
Record HeartbeatRequest : Type := mkHeartbeatRequest {
  req_server_id : string;
  req_generated_at : string;
  req_ready_at : string;
  req_metrics : list (string * string)
}.

(** [HeartbeatResponse] *)
Record HeartbeatResponse : Type := mkHeartbeatResponse {
  success : bool;
  message : string;
  heartbeat_id : option Z
}.

Section Heartbeat.

(** [datetime.fromisoformat] of the Python library, [None] standing for its
    [ValueError]. *)
Variable datetime : Type.
Variable fromisoformat : string -> option datetime.

(** [parse_timestamp(timestamp_str)] *)
Definition parse_timestamp (timestamp_str : string) : result datetime :=
  match fromisoformat (replace_Z timestamp_str) with
  | Some d => Ok d
  | None => Raise ValueError
  end.

(** [update_server_last_heartbeat]: registers an unknown server as active;
    for a known one only timestamps change. Its own failure is swallowed. *)
Definition update_server_last_heartbeat (commit_ok : bool) (db : database datetime)
  (sid : string) : database datetime :=
  match scalar_one_or_none (filter (fun v => String.eqb (vs_server_id v) sid) (servers db)) with
  | Ok None =>
      if commit_ok
      then mkDb (servers db ++ [mkServer sid true]) (heartbeats db) (tasks db)
      else db
  | _ => db
  end.

(** The statements inside the outer [try] of [receive_heartbeat]. *)
Definition receive_heartbeat_body (commit_ok server_commit_ok : bool)
  (heartbeat_data : HeartbeatRequest) (db : database datetime)
  : database datetime * result HeartbeatResponse :=
  let stamps :=
    match (g <- parse_timestamp (req_generated_at heartbeat_data) ;;
           r <- parse_timestamp (req_ready_at heartbeat_data) ;;
           Ok (g, r)) with
    | Raise ValueError => Raise (HTTPException 400)
    | other => other
    end in
  match stamps with
  | Raise e => (db, Raise e)
  | Ok (g, r) =>
      if commit_ok then
        let row := mkHeartbeatRow (next_id (map hb_id (heartbeats db)))
                                  (req_server_id heartbeat_data) g r
                                  (req_metrics heartbeat_data) in
        let db1 := mkDb (servers db) (heartbeats db ++ [row]) (tasks db) in
        (update_server_last_heartbeat server_commit_ok db1 (req_server_id heartbeat_data),
         Ok (mkHeartbeatResponse true "Heartbeat received successfully" (Some (hb_id row))))
      else (db, Raise SQLAlchemyError)
  end.

(** [receive_heartbeat]: the outer handler is [except Exception], and an
    [HTTPException] is an [Exception]. *)
Definition receive_heartbeat (commit_ok server_commit_ok : bool)
  (heartbeat_data : HeartbeatRequest) (db : database datetime)
  : database datetime * result HeartbeatResponse :=
  match receive_heartbeat_body commit_ok server_commit_ok heartbeat_data db with
  | (db', Ok response) => (db', Ok response)
  | (_, Raise _) => (db, Raise (HTTPException 500))
  end.

End Heartbeat.

(** *** The task queue *)

(** A task that counts as already queued for [(sid, key, kind)]. *)
Definition open_task (sid key kind : string) (t : ServerTask) : bool :=
  String.eqb (server_id t) sid && String.eqb (key_id t) key && String.eqb (type t) kind
  && (String.eqb (status t) "pending" || String.eqb (status t) "delivered").

(** The answer of the two creation endpoints. *)
Record TaskCreated : Type := mkCreated {
  created_task_id : Z;
  created_key_id : string
}.

(** The wrapper both creation endpoints share: [except HTTPException: raise]
    comes first, any other exception rolls back and becomes a 500. *)
Definition reraise_http {datetime A : Type} (db : database datetime)
  (r : database datetime * result A) : database datetime * result A :=
  match r with
  | (db', Ok a) => (db', Ok a)
  | (_, Raise (HTTPException code)) => (db, Raise (HTTPException code))
  | (_, Raise _) => (db, Raise (HTTPException 500))
  end.

(** [custom_key_id.strip() if custom_key_id and custom_key_id.strip() else
    str(uuid.uuid4())] *)
Definition chosen_key (custom_key_id : option string) (fresh_uuid : string) : string :=
  match custom_key_id with
  | Some c => if negb (String.length c =? 0)%nat && negb (String.length (strip c) =? 0)%nat
              then strip c else fresh_uuid
  | None => fresh_uuid
  end.

Section Keys.

Variable datetime : Type.

(** [uuid.UUID(key_id)] of the Python library succeeds. *)
Variable uuid_valid : string -> bool.

(** The uniqueness check and the insertion, common to both endpoints. *)
Definition create_task (commit_ok : bool) (sid key kind : string) (mail : option string)
  (db : database datetime) : database datetime * result TaskCreated :=
  match scalar_one_or_none (filter (open_task sid key kind) (tasks db)) with
  | Raise e => (db, Raise e)
  | Ok (Some _) => (db, Raise (HTTPException 409))
  | Ok None =>
      if commit_ok then
        let task := mkTask (next_id (map id (tasks db))) sid kind key mail "pending" in
        (mkDb (servers db) (heartbeats db) (tasks db ++ [task]),
         Ok (mkCreated (id task) key))
      else (db, Raise SQLAlchemyError)
  end.

(** [add_key]; [fresh_uuid] is what [str(uuid.uuid4())] would return. *)
Definition add_key (commit_ok : bool) (fresh_uuid : string)
  (sid user_email : string) (custom_key_id : option string)
  (db : database datetime) : database datetime * result TaskCreated :=
  reraise_http db
    match scalar_one_or_none (filter (fun v => String.eqb (vs_server_id v) sid) (servers db)) with
    | Raise e => (db, Raise e)
    | Ok None => (db, Raise (HTTPException 404))
    | Ok (Some server) =>
        if negb (is_active server) then (db, Raise (HTTPException 400))
        else
          let key := chosen_key custom_key_id fresh_uuid in
          if negb (uuid_valid key) then (db, Raise (HTTPException 400))
          else create_task commit_ok sid key "add_key" (Some (strip user_email)) db
    end.

(** [remove_key] *)
Definition remove_key (commit_ok : bool) (sid key : string)
  (db : database datetime) : database datetime * result TaskCreated :=
  reraise_http db
    match scalar_one_or_none (filter (fun v => String.eqb (vs_server_id v) sid) (servers db)) with
    | Raise e => (db, Raise e)
    | Ok None => (db, Raise (HTTPException 404))
    | Ok (Some _) =>
        if negb (uuid_valid key) then (db, Raise (HTTPException 400))
        else create_task commit_ok sid key "del_key" None db
    end.

(** [.order_by(ServerTask.id.asc())] *)
Fixpoint insert_by_id (t : ServerTask) (l : list ServerTask) : list ServerTask :=
  match l with
  | [] => [t]
  | u :: l' => if id u <=? id t then u :: insert_by_id t l' else t :: l
  end.

Definition order_by_id (l : list ServerTask) : list ServerTask :=
  fold_left (fun acc t => insert_by_id t acc) l [].

(** The object [get_tasks] returns for one task. *)
Definition task_json (t : ServerTask) : dict :=
  [("type", VStr (type t)); ("id", VStr (key_id t));
   ("email", match email t with
             | Some e => VStr e
             | None => VNone
             end);
   ("payload", VNone); ("task_id", VInt (id t))].

Definition set_status (s : string) (t : ServerTask) : ServerTask :=
  mkTask (id t) (server_id t) (type t) (key_id t) (email t) s.

(** [get_tasks]: the pull. The selected tasks become delivered when the
    commit goes through; a failed commit leaves the queue as it was and
    the exception reaches the caller. *)
Definition get_tasks (commit_ok : bool) (sid : option string)
  (db : database datetime) : database datetime * result (list dict) :=
  match sid with
  | None => (db, Ok [])
  | Some sid =>
      if (String.length sid =? 0)%nat then (db, Ok [])
      else
        let selected t := String.eqb (server_id t) sid && String.eqb (status t) "pending" in
        if commit_ok then
          (mkDb (servers db) (heartbeats db)
                (map (fun t => if selected t then set_status "delivered" t else t) (tasks db)),
           Ok (map task_json (order_by_id (filter selected (tasks db)))))
        else (db, Raise SQLAlchemyError)
  end.

(** [ack_task] *)
Definition ack_task (commit_ok : bool) (task_id : Z) (status_arg : string)
  (db : database datetime) : database datetime * result unit :=
  let s := lower status_arg in
  if negb (String.eqb s "done" || String.eqb s "failed")
  then (db, Raise (HTTPException 400))
  else
    match scalar_one_or_none (filter (fun t => id t =? task_id) (tasks db)) with
    | Raise e => (db, Raise e)
    | Ok None => (db, Raise (HTTPException 404))
    | Ok (Some _) =>
        if commit_ok then
          (mkDb (servers db) (heartbeats db)
                (map (fun t => if id t =? task_id then set_status s t else t) (tasks db)),
           Ok tt)
        else (db, Raise SQLAlchemyError)
    end.

(** The requests that touch the task queue, each with what the handler
    meets outside its arguments. *)
Inductive request : Type :=
| AddKey (commit_ok : bool) (fresh_uuid sid user_email : string) (custom_key_id : option string)
| RemoveKey (commit_ok : bool) (sid key : string)
| GetTasks (commit_ok : bool) (sid : option string)
| AckTask (commit_ok : bool) (task_id : Z) (status_arg : string).

(** The queue after a request. *)
Definition handle (r : request) (db : database datetime) : database datetime :=
  match r with
  | AddKey ok fresh sid mail custom => fst (add_key ok fresh sid mail custom db)
  | RemoveKey ok sid key => fst (remove_key ok sid key db)
  | GetTasks ok sid => fst (get_tasks ok sid db)
  | AckTask ok tid s => fst (ack_task ok tid s db)
  end.

(** *** Reading the queue *)

(** [t'] is the row [t] up to its status. *)
Definition same_task (t t' : ServerTask) : Prop :=
  id t' = id t /\ server_id t' = server_id t /\ type t' = type t
  /\ key_id t' = key_id t /\ email t' = email t.

(** What a request may do to a row of the queue: leave its status, deliver
    it when it is pending and the request is a pull for its server, or
    overwrite its status with the done or failed that an acknowledgment
    for its id names. *)
Definition allowed_transition (r : request) (t t' : ServerTask) : Prop :=
  same_task t t'
  /\ (status t' = status t
      \/ (exists ok sid, r = GetTasks ok (Some sid) /\ server_id t = sid
                         /\ status t = "pending" /\ status t' = "delivered")
      \/ (exists ok s, r = AckTask ok (id t) s /\ status t' = lower s
                       /\ (status t' = "done" \/ status t' = "failed"))).

(** At most one queued task per server, key and kind. *)
Definition open_unique (db : database datetime) : Prop :=
  forall sid key kind, (List.length (filter (open_task sid key kind) (tasks db)) <= 1)%nat.

(** The unique constraint on [VpnServer.server_id]. *)
Definition servers_unique (db : database datetime) : Prop :=
  forall sid,
    (List.length (filter (fun v => String.eqb (vs_server_id v) sid) (servers db)) <= 1)%nat.

End Keys.

Arguments create_task {datetime}.
Arguments add_key {datetime}.
Arguments remove_key {datetime}.
Arguments get_tasks {datetime}.
Arguments ack_task {datetime}.
Arguments handle {datetime}.
Arguments open_unique {datetime}.
Arguments servers_unique {datetime}.
Arguments parse_timestamp {datetime}.
Arguments receive_heartbeat {datetime}.
Arguments receive_heartbeat_body {datetime}.
Arguments update_server_last_heartbeat {datetime}.

End Central.

(** ** Sample data used to exercise the definitions *)
Module Samples.
Import Py Agent.

Definition user (id email : string) : dict :=
  [("id", VStr id); ("flow", VStr "xtls-rprx-vision"); ("email", VStr email)].

Definition vless_inbound (cl : option (list dict)) : inbound :=
  mkInbound (Some (VStr "vless"))
            (Some (mkSettings cl [("decryption", "none")]))
            [("port", "443")].

(** Two vless listeners (one without a ["settings"] object) around an
    inbound of another protocol. *)
Definition sample_config : config :=
  mkConfig (Some [vless_inbound (Some [user "u1" "a@example.org"]);
                  mkInbound (Some (VStr "vmess")) None [];
                  mkInbound (Some (VStr "vless")) None []])
           [("log", "{}")].

(** A listener holding two entries with the same id. *)
Definition dup_config : config :=
  mkConfig (Some [vless_inbound (Some [user "k1" "a@example.org"; user "k1" "b@example.org"])]) [].

Definition task (type id : string) (task_id : Z) : dict :=
  [("type", VStr type); ("id", VStr id); ("email", VStr "k@example.org");
   ("payload", VNone); ("task_id", VInt task_id)].

Definition sample_world : world := mkWorld (Some sample_config) true (Some 0).

(** The configuration file is missing. *)
Definition blind_world : world := mkWorld None true (Some 0).

(** A line feed. *)
Definition nl : string := String (ascii_of_nat 10) "".

(** Output of [ping] with four replies, in the order 30, 10, 40, 20 ms. *)
Definition ping_output : string :=
  ("PING 1.1.1.1 (1.1.1.1) 56(84) bytes of data." ++ nl
   ++ "64 bytes from 1.1.1.1: icmp_seq=1 ttl=57 time=30 ms" ++ nl
   ++ "64 bytes from 1.1.1.1: icmp_seq=2 ttl=57 time=10 ms" ++ nl
   ++ "64 bytes from 1.1.1.1: icmp_seq=3 ttl=57 time=40 ms" ++ nl
   ++ "64 bytes from 1.1.1.1: icmp_seq=4 ttl=57 time=20 ms" ++ nl
   ++ nl
   ++ "--- 1.1.1.1 ping statistics ---" ++ nl
   ++ "4 packets transmitted, 4 received, 0% packet loss, time 3004ms" ++ nl
   ++ "rtt min/avg/max/mdev = 10.000/25.000/40.000/11.180 ms" ++ nl)%string.

(** Output that shows a loss figure and no reply line. *)
Definition summary_output : string :=
  ("PING 1.1.1.1 (1.1.1.1) 56(84) bytes of data." ++ nl
   ++ nl
   ++ "--- 1.1.1.1 ping statistics ---" ++ nl
   ++ "8 packets transmitted, 6 received, 25% packet loss, time 7010ms" ++ nl
   ++ "rtt min/avg/max/mdev = 10.000/25.000/40.000/11.180 ms" ++ nl)%string.

(** A [/proc] with every file the loop reads. *)
Definition proc_files : filesystem :=
  fun path =>
    if String.eqb path "/proc/uptime" then Content ("5025.75 19000.10" ++ nl)%string
    else if String.eqb path "/proc/loadavg" then Content ("0.42 0.30 0.25 1/123 4567" ++ nl)%string
    else if String.eqb path "/proc/meminfo" then
      Content ("MemTotal:        2048000 kB" ++ nl ++ "MemFree:          100000 kB" ++ nl
               ++ "MemAvailable:    1024000 kB" ++ nl)%string
    else if String.eqb path "/proc/stat" then
      Content ("cpu  100 0 50 800 20 0 5 0 0 0" ++ nl ++ "cpu0 100 0 50 800 20 0 5 0 0 0" ++ nl)%string
    else if String.eqb path "/proc/net/dev" then
      Content ("Inter-|   Receive                |  Transmit" ++ nl
               ++ " face |bytes    packets errs drop|bytes    packets errs drop" ++ nl
               ++ "    lo: 10 1 0 0 0 0 0 0 10 1 0 0 0 0 0 0" ++ nl
               ++ "  eth0: 5000000 2000 1 2 0 0 0 0 3000000 4000 3 4 0 0 0 0" ++ nl)%string
    else if String.eqb path "/proc/net/netstat" then
      Content ("TcpExt: SyncookiesSent ActiveOpens PassiveOpens" ++ nl
               ++ "TcpExt: 0 220 330" ++ nl)%string
    else Missing.

(** The same, with another file in place of [path]. *)
Definition with_file (path : string) (f : file) (fs : filesystem) : filesystem :=
  fun p => if String.eqb p path then f else fs p.

Definition sample_env : settings_env := mkEnv "https://c" "secret" "srv1" "1.1.1.1" "eth0".

Definition observe (fs : filesystem) (now : Z) : observation :=
  mkObs "2024-05-01T12:00:00+00:00" "2024-05-01T12:00:06+00:00" fs fs now
        (Exited 0 "" "") (Exited 0 ping_output "") (RespList []).

(** An instance of the library's timestamp parser for the one format the
    agent emits, [YYYY-MM-DDTHH:MM:SS+HH:MM]; it keeps the text. *)
Fixpoint matches_template (template s : string) : bool :=
  match template, s with
  | EmptyString, EmptyString => true
  | String a template', String b s' =>
      (if (nat_of_ascii a =? 100)%nat then isdigit b else Ascii.eqb a b)
      && matches_template template' s'
  | _, _ => false
  end.

Definition iso_seconds (s : string) : option string :=
  if matches_template "dddd-dd-ddTdd:dd:dd+dd:dd" s then Some s else None.

(** An instance of the library's UUID check: the canonical 8-4-4-4-12
    hexadecimal form. *)
Definition ishex (c : ascii) : bool :=
  let n := nat_of_ascii c in
  isdigit c || ((65 <=? n) && (n <=? 70))%nat || ((97 <=? n) && (n <=? 102))%nat.

Fixpoint matches_hex_template (template s : string) : bool :=
  match template, s with
  | EmptyString, EmptyString => true
  | String a template', String b s' =>
      (if (nat_of_ascii a =? 120)%nat then ishex b else Ascii.eqb a b)
      && matches_hex_template template' s'
  | _, _ => false
  end.

Definition canonical_uuid (s : string) : bool :=
  matches_hex_template "xxxxxxxx-xxxx-xxxx-xxxx-xxxxxxxxxxxx" s.

Definition key1 : string := "123e4567-e89b-12d3-a456-426614174000".
Definition key2 : string := "00000000-0000-4000-8000-000000000002".

(** A queue with one pending [add_key] for [key1] on the registered and
    active server [srv1]. *)
Definition sample_db : Central.database string :=
  Central.mkDb [Central.mkServer "srv1" true] []
               [Central.mkTask 1 "srv1" "add_key" key1 (Some "a@example.org") "pending"].

Definition empty_db : Central.database string := Central.mkDb [] [] [].

Definition heartbeat_request (generated_at ready_at : string) : Central.HeartbeatRequest :=
  Central.mkHeartbeatRequest "srv1" generated_at ready_at [("uptime_s", "5025")].

End Samples.

(* ================================================================== *)
(** * Part II: theorems *)
(* ================================================================== *)

(** ** ConfigMutator: [apply_tasks] *)
Module AgentConfig.
Import Py Agent.

Lemma filter_same_length {A : Type} (f : A -> bool) (l : list A) :
  List.length (filter f l) = List.length l -> filter f l = l.
Proof.
  induction l as [|a l IH]; simpl; intros H; [reflexivity|].
  destruct (f a); simpl in H.
  - f_equal. apply IH. lia.
  - pose proof (filter_length_le f l). lia.
Qed.

Lemma step_changes_false action user_id email l :
  step_changes action user_id l = false -> step_list action user_id email l = l.
Proof.
  unfold step_changes, step_list.
  destruct (String.eqb action "add_key").
  - intros H. apply negb_false_iff in H. now rewrite H.
  - destruct (String.eqb action "del_key"); [|reflexivity].
    intros H. apply negb_false_iff, Nat.eqb_eq in H.
    now apply filter_same_length.
Qed.

Lemma step_changes_true action user_id email l :
  step_changes action user_id l = true -> step_list action user_id email l <> l.
Proof.
  unfold step_changes, step_list.
  destruct (String.eqb action "add_key").
  - intros H. apply negb_true_iff in H. rewrite H. intros E.
    apply (f_equal (@List.length dict)) in E. rewrite length_app in E. simpl in E. lia.
  - destruct (String.eqb action "del_key"); [|discriminate].
    intros H E. apply negb_true_iff, Nat.eqb_neq in H. now rewrite E in H.
Qed.

Lemma setdefault_clients_snd b : snd (setdefault_clients b) = clients_of b.
Proof. unfold setdefault_clients, clients_of. destruct (settings b) as [s|]; reflexivity. Qed.

Lemma setdefault_clients_fst b :
  clients_of (fst (setdefault_clients b)) = clients_of b
  /\ protocol (fst (setdefault_clients b)) = protocol b.
Proof. unfold setdefault_clients, clients_of. destruct (settings b) as [s|]; simpl; auto. Qed.

Lemma set_clients_spec b l :
  clients_of (set_clients b l) = l /\ protocol (set_clients b l) = protocol b.
Proof. unfold set_clients, clients_of. destruct (settings b); simpl; auto. Qed.

(** [apply_to_inbound] acts on the listener's user list as [step_list],
    keeps its protocol, and raises the flag exactly when the list changes. *)
Lemma apply_to_inbound_spec action user_id email b changed :
  let r := apply_to_inbound action user_id email b changed in
  clients_of (fst r) = step_list action user_id email (clients_of b)
  /\ protocol (fst r) = protocol b
  /\ snd r = changed || step_changes action user_id (clients_of b).
Proof.
  unfold apply_to_inbound, step_list, step_changes.
  destruct (setdefault_clients_fst b) as [Hc Hp].
  pose proof (setdefault_clients_snd b) as Hs.
  destruct (setdefault_clients b) as [b1 cl]. simpl in Hc, Hp, Hs. subst cl.
  destruct (String.eqb action "add_key").
  - destruct (existsb (client_has_id user_id) (clients_of b)); simpl.
    + rewrite orb_false_r. auto.
    + destruct (set_clients_spec b1 (clients_of b ++ [new_client user_id email])) as [-> ->].
      rewrite orb_true_r. auto.
  - destruct (String.eqb action "del_key").
    + destruct (Nat.eqb _ _) eqn:E; simpl.
      * apply Nat.eqb_eq, filter_same_length in E. rewrite E, orb_false_r. auto.
      * destruct (set_clients_spec b1 (filter (fun c => negb (client_has_id user_id c)) (clients_of b)))
          as [-> ->].
        rewrite orb_true_r. auto.
    + simpl. rewrite orb_false_r. auto.
Qed.

Lemma is_vless_protocol b b' : protocol b' = protocol b -> is_vless b' = is_vless b.
Proof. unfold is_vless. now intros ->. Qed.

(** The inner loop, read on the user lists of the vless listeners. *)
Lemma for_inbounds_spec action user_id email bs : forall changed,
  let r := for_inbounds action user_id email bs changed in
  map clients_of (filter is_vless (fst r))
    = map (step_list action user_id email) (map clients_of (filter is_vless bs))
  /\ snd r = changed || existsb (step_changes action user_id) (map clients_of (filter is_vless bs)).
Proof.
  induction bs as [|b bs IH]; intros changed; simpl.
  - now rewrite orb_false_r.
  - destruct (is_vless b) eqn:Hv.
    + destruct (apply_to_inbound_spec action user_id email b changed) as (Hc & Hp & Hs).
      destruct (apply_to_inbound action user_id email b changed) as [b' ch]. simpl in Hc, Hp, Hs.
      specialize (IH ch). destruct (for_inbounds action user_id email bs ch) as [bs' ch'].
      simpl in IH |- *. destruct IH as [IH1 IH2].
      rewrite (is_vless_protocol _ _ Hp), Hv. simpl.
      rewrite Hc, IH1, IH2, Hs, orb_assoc. auto.
    + specialize (IH changed). destruct (for_inbounds action user_id email bs changed) as [bs' ch'].
      simpl in IH |- *. rewrite Hv. auto.
Qed.

Lemma setdefault_clients_set_clients b l :
  setdefault_clients (set_clients (fst (setdefault_clients b)) l)
  = (set_clients (fst (setdefault_clients b)) l, l).
Proof. unfold setdefault_clients, set_clients. destruct (settings b) as [s|]; reflexivity. Qed.

Lemma setdefault_clients_twice b :
  setdefault_clients (fst (setdefault_clients b)) = (fst (setdefault_clients b), clients_of b).
Proof. unfold setdefault_clients, clients_of. destruct (settings b) as [s|]; reflexivity. Qed.

Lemma new_client_has_id user_id email : client_has_id user_id (new_client user_id email) = true.
Proof. unfold client_has_id, new_client. simpl. apply String.eqb_refl. Qed.

Lemma count_id_app k l1 l2 : count_id k (l1 ++ l2) = (count_id k l1 + count_id k l2)%nat.
Proof. unfold count_id. now rewrite filter_app, length_app. Qed.

Lemma count_id_zero k l : count_id k l = 0%nat <-> existsb (client_has_id k) l = false.
Proof.
  unfold count_id. induction l as [|c l IH]; simpl; [tauto|].
  destruct (client_has_id k c); simpl; [split; discriminate | exact IH].
Qed.

Lemma filter_filter_same {A : Type} (f : A -> bool) (l : list A) :
  filter f (filter f l) = filter f l.
Proof.
  induction l as [|a l IH]; simpl; [reflexivity|].
  destruct (f a) eqn:E; simpl; [rewrite E; now f_equal | exact IH].
Qed.

(** Applying the same action to a listener a second time changes neither
    the listener nor the flag. *)
Lemma apply_to_inbound_twice action user_id email b changed changed2 :
  let b' := fst (apply_to_inbound action user_id email b changed) in
  apply_to_inbound action user_id email b' changed2 = (b', changed2).
Proof.
  unfold apply_to_inbound.
  pose proof (setdefault_clients_snd b) as Hs.
  pose proof (setdefault_clients_twice b) as Ht.
  pose proof (setdefault_clients_set_clients b) as Hset.
  destruct (setdefault_clients b) as [b1 cl]. cbn [fst snd] in Hs, Ht, Hset. subst cl.
  destruct (String.eqb action "add_key") eqn:Ea.
  - destruct (existsb (client_has_id user_id) (clients_of b)) eqn:Ex; cbn [negb fst snd].
    + now rewrite Ht, Ex.
    + rewrite Hset, existsb_app. cbn [existsb].
      now rewrite new_client_has_id, orb_true_r.
  - destruct (String.eqb action "del_key") eqn:Ed.
    + destruct (Nat.eqb _ _) eqn:E; cbn [negb fst snd].
      * now rewrite Ht, E.
      * now rewrite Hset, filter_filter_same, Nat.eqb_refl.
    + cbn [fst snd]. now rewrite Ht.
Qed.

Lemma for_inbounds_twice action user_id email bs : forall changed changed2,
  let bs' := fst (for_inbounds action user_id email bs changed) in
  for_inbounds action user_id email bs' changed2 = (bs', changed2).
Proof.
  induction bs as [|b bs IH]; intros changed changed2; simpl; [reflexivity|].
  destruct (is_vless b) eqn:Hv.
  - pose proof (apply_to_inbound_twice action user_id email b changed changed2) as H2.
    destruct (apply_to_inbound_spec action user_id email b changed) as (_ & Hp & _).
    destruct (apply_to_inbound action user_id email b changed) as [b' ch]. cbn [fst snd] in H2, Hp.
    specialize (IH ch changed2).
    destruct (for_inbounds action user_id email bs ch) as [bs' ch'].
    cbn [fst snd for_inbounds] in IH |- *.
    now rewrite (is_vless_protocol _ _ Hp), Hv, H2, IH.
  - specialize (IH changed changed2).
    destruct (for_inbounds action user_id email bs changed) as [bs' ch'].
    cbn [fst snd for_inbounds] in IH |- *. now rewrite Hv, IH.
Qed.

(** Redelivery: a task meeting its own outcome is a no-op, whatever the
    flag it finds. *)
Lemma apply_task_twice task bs changed changed2 :
  let bs' := fst (apply_task task (bs, changed)) in
  apply_task task (bs', changed2) = (bs', changed2).
Proof.
  unfold apply_task. cbn [fst snd]. destruct (Nat.eqb _ _) eqn:E; cbn [fst snd].
  - reflexivity.
  - apply for_inbounds_twice.
Qed.

(** The incoming flag is only ever or-ed into the outcome. *)
Lemma apply_to_inbound_flag action user_id email b changed :
  apply_to_inbound action user_id email b changed
  = (fst (apply_to_inbound action user_id email b false),
     changed || snd (apply_to_inbound action user_id email b false)).
Proof.
  unfold apply_to_inbound. destruct (setdefault_clients b) as [b1 cl].
  destruct (String.eqb action "add_key").
  - destruct (negb _); cbn [fst snd]; now rewrite ?orb_true_r, ?orb_false_r.
  - destruct (String.eqb action "del_key"); [destruct (negb _)|];
      cbn [fst snd]; now rewrite ?orb_true_r, ?orb_false_r.
Qed.

Lemma for_inbounds_flag action user_id email bs : forall changed,
  for_inbounds action user_id email bs changed
  = (fst (for_inbounds action user_id email bs false),
     changed || snd (for_inbounds action user_id email bs false)).
Proof.
  induction bs as [|b bs IH]; intros changed; cbn [for_inbounds].
  - now rewrite orb_false_r.
  - destruct (is_vless b).
    + rewrite (apply_to_inbound_flag action user_id email b changed).
      destruct (apply_to_inbound action user_id email b false) as [b' c1]. cbn [fst snd].
      rewrite (IH (changed || c1)), (IH c1).
      destruct (for_inbounds action user_id email bs false) as [bs' c2]. cbn [fst snd].
      now rewrite orb_assoc.
    + rewrite (IH changed).
      destruct (for_inbounds action user_id email bs false) as [bs' c2]. reflexivity.
Qed.

Lemma apply_task_flag task bs changed :
  apply_task task (bs, changed)
  = (fst (apply_task task (bs, false)), changed || snd (apply_task task (bs, false))).
Proof.
  unfold apply_task. destruct (Nat.eqb _ _); cbn [fst snd].
  - now rewrite orb_false_r.
  - apply for_inbounds_flag.
Qed.

Lemma fold_apply_task_flag tasks : forall bs changed,
  fold_left (fun st t => apply_task t st) tasks (bs, changed)
  = (fst (fold_left (fun st t => apply_task t st) tasks (bs, false)),
     changed || snd (fold_left (fun st t => apply_task t st) tasks (bs, false))).
Proof.
  induction tasks as [|t ts IH]; intros bs changed; cbn [fold_left].
  - now rewrite orb_false_r.
  - rewrite (apply_task_flag t bs changed).
    destruct (apply_task t (bs, false)) as [bs1 c1]. cbn [fst snd].
    rewrite (IH bs1 (changed || c1)), (IH bs1 c1).
    destruct (fold_left _ ts (bs1, false)) as [bs2 c2]. cbn [fst snd].
    now rewrite orb_assoc.
Qed.

(** A batch is its first task followed by the rest, the flags or-ed. *)
Lemma mutate_cons t ts cfg :
  mutate (t :: ts) cfg
  = (fst (mutate ts (fst (mutate [t] cfg))),
     snd (mutate [t] cfg) || snd (mutate ts (fst (mutate [t] cfg)))).
Proof.
  unfold mutate. destruct (inbounds cfg) as [bs|] eqn:Hi.
  - cbn [fold_left].
    destruct (apply_task t (bs, false)) as [bs1 c1]. cbn [fst snd inbounds config_other].
    rewrite (fold_apply_task_flag ts bs1 c1).
    destruct (fold_left _ ts (bs1, false)) as [bs2 c2]. reflexivity.
  - cbn [fst snd]. rewrite Hi. reflexivity.
Qed.

Lemma mutate_nil cfg : snd (mutate [] cfg) = false /\ vless_clients (fst (mutate [] cfg)) = vless_clients cfg.
Proof.
  unfold mutate, vless_clients, inbounds_of. destruct (inbounds cfg) as [bs|] eqn:Hi; cbn.
  - auto.
  - now rewrite Hi.
Qed.

(** One task, read on the user lists of the vless listeners. *)
Lemma mutate_single t cfg :
  vless_clients (fst (mutate [t] cfg)) = map (task_step t) (vless_clients cfg)
  /\ snd (mutate [t] cfg) = existsb (task_changes t) (vless_clients cfg).
Proof.
  unfold mutate, vless_clients, inbounds_of, task_step, task_changes.
  destruct (inbounds cfg) as [bs|] eqn:Hi.
  - cbn [fold_left]. unfold apply_task. cbn [fst snd].
    destruct (Nat.eqb _ _).
    + cbn. rewrite map_id. split; [reflexivity|].
      induction (map clients_of (filter is_vless bs)); cbn; auto.
    + destruct (for_inbounds_spec (task_action t) (task_user_id t) (task_email t) bs false) as [H1 H2].
      destruct (for_inbounds _ _ _ bs false) as [bs' ch]. cbn in H1, H2 |- *. auto.
  - cbn. rewrite Hi. cbn. auto.
Qed.

Lemma task_changes_false_iff t ls :
  existsb (task_changes t) ls = false <-> map (task_step t) ls = ls.
Proof.
  unfold task_changes, task_step. destruct (Nat.eqb _ _).
  - rewrite map_id. split; [reflexivity|]. intros _. induction ls; cbn; auto.
  - induction ls as [|l ls IH]; cbn; [tauto|].
    rewrite orb_false_iff, IH. split.
    + intros [H1 H2]. now rewrite (step_changes_false _ _ _ _ H1), H2.
    + intros H. injection H as H1 H2. split; [|exact H2].
      destruct (step_changes (task_action t) (task_user_id t) l) eqn:E; [|reflexivity].
      now apply (step_changes_true _ _ (task_email t)) in E.
Qed.

(** The [changed] flag is raised exactly by the batches that are not no-ops. *)
Lemma mutate_changed_noop tasks : forall cfg,
  snd (mutate tasks cfg) = false <-> noop_batch tasks cfg.
Proof.
  induction tasks as [|t ts IH]; intros cfg.
  - cbn [noop_batch]. split; [auto|]. intros _. apply mutate_nil.
  - rewrite mutate_cons. cbn [snd noop_batch].
    rewrite orb_false_iff, IH.
    destruct (mutate_single t cfg) as [H1 H2].
    rewrite H2, task_changes_false_iff, H1. tauto.
Qed.

(** The user lists after a batch: every task folded over every list. *)
Lemma mutate_clients tasks : forall cfg,
  vless_clients (fst (mutate tasks cfg))
  = map (fun l => fold_left (fun l t => task_step t l) tasks l) (vless_clients cfg).
Proof.
  induction tasks as [|t ts IH]; intros cfg.
  - cbn [fold_left]. rewrite map_id. apply mutate_nil.
  - rewrite mutate_cons. cbn [fst fold_left].
    rewrite IH. destruct (mutate_single t cfg) as [-> _].
    now rewrite map_map.
Qed.

Lemma mutate_twice t cfg :
  mutate [t] (fst (mutate [t] cfg)) = (fst (mutate [t] cfg), false).
Proof.
  unfold mutate. destruct (inbounds cfg) as [bs|] eqn:Hi.
  - cbn [fold_left].
    pose proof (apply_task_twice t bs false false) as H.
    destruct (apply_task t (bs, false)) as [bs1 c1].
    cbn [fst snd inbounds config_other fold_left] in *.
    now rewrite H.
  - cbn [fst]. now rewrite Hi.
Qed.

Lemma mutate_same_twice t cfg : mutate [t; t] cfg = mutate [t] cfg.
Proof.
  rewrite mutate_cons, mutate_twice. cbn [fst snd]. rewrite orb_false_r.
  now destruct (mutate [t] cfg).
Qed.

Lemma string_nonempty (s : string) : s <> "" -> (String.length s =? 0)%nat = false.
Proof. destruct s; [congruence | reflexivity]. Qed.

Lemma filter_negb_none {A : Type} (f : A -> bool) (l : list A) :
  existsb f l = false -> filter (fun x => negb (f x)) l = l.
Proof.
  induction l as [|a l IH]; cbn; [reflexivity|].
  intros H. apply orb_false_iff in H as [-> H]. cbn. now rewrite IH.
Qed.

Lemma count_id_filter_negb k l :
  count_id k (filter (fun c => negb (client_has_id k c)) l) = 0%nat.
Proof.
  unfold count_id. induction l as [|c l IH]; cbn; [reflexivity|].
  destruct (client_has_id k c) eqn:E; cbn; [exact IH | now rewrite E].
Qed.

(** After [add_key] a list holds its former entries of that id, and one
    if it had none. *)
Lemma count_id_add k email l :
  count_id k (step_list "add_key" k email l) = Nat.max 1 (count_id k l).
Proof.
  unfold step_list. cbn [String.eqb Ascii.eqb Bool.eqb andb].
  destruct (existsb (client_has_id k) l) eqn:E.
  - destruct (count_id k l) as [|n] eqn:C; [|lia].
    apply count_id_zero in C. congruence.
  - rewrite count_id_app. apply count_id_zero in E. rewrite E.
    unfold count_id. cbn [filter]. now rewrite new_client_has_id.
Qed.

(** What [apply_tasks] does once the [changed] flag is known. *)
Lemma apply_tasks_unchanged tasks w cfg :
  config_file w = Some cfg -> snd (mutate tasks cfg) = false ->
  apply_tasks tasks w = (w, []).
Proof.
  intros Hc Hm. unfold apply_tasks. rewrite Hc.
  destruct (mutate tasks cfg) as [cfg' ch]. cbn in Hm. now subst ch.
Qed.

Lemma apply_tasks_unreadable tasks w :
  config_file w = None -> apply_tasks tasks w = (w, []).
Proof. intros Hc. unfold apply_tasks. now rewrite Hc. Qed.

(** The world [apply_tasks] leaves: the old one, or the old one with the
    mutated configuration written. *)
Lemma apply_tasks_fst tasks w :
  fst (apply_tasks tasks w) = w
  \/ exists cfg, config_file w = Some cfg
       /\ fst (apply_tasks tasks w) = mkWorld (Some (fst (mutate tasks cfg))) (write_ok w) (reload_rc w).
Proof.
  unfold apply_tasks. destruct (config_file w) as [cfg|] eqn:Hc; [|now left].
  destruct (mutate tasks cfg) as [cfg' ch] eqn:Em. destruct ch; [|now left].
  destruct (write_ok w); [|now left].
  right. exists cfg. split; [reflexivity|]. rewrite Em. cbn [fst].
  destruct (reload_rc w) as [rc|]; [destruct (negb (rc =? 0))|]; reflexivity.
Qed.

(** C1 (amended). For a task key [K] that is not empty after trimming:
    [add_key(K)] twice, in one batch or on redelivery, ends in the state
    [add_key(K)] once ends in, and each vless listener then holds
    [max 1 n] entries with id [K], [n] the number it held before (exactly
    one when it held none or one); [del_key(K)] while no vless listener
    holds an entry [K] changes nothing and reports no change: no flag, no
    write, no reload; [add_key(K)] then [del_key(K)] leaves no entry with
    id [K] on any vless listener. *)
Theorem apply_tasks_idempotent (w : world) (cfg : config) (add del : dict) (K : string) :
  config_file w = Some cfg ->
  task_action add = "add_key" -> task_user_id add = K ->
  task_action del = "del_key" -> task_user_id del = K ->
  K <> "" ->
  (mutate [add; add] cfg = mutate [add] cfg
   /\ apply_tasks [add; add] w = apply_tasks [add] w
   /\ fst (apply_tasks [add] (fst (apply_tasks [add] w))) = fst (apply_tasks [add] w))
  /\ map (count_id K) (vless_clients (fst (mutate [add] cfg)))
     = map (fun l => Nat.max 1 (count_id K l)) (vless_clients cfg)
  /\ (Forall (fun l => count_id K l = 0%nat) (vless_clients cfg) ->
      apply_tasks [del] w = (w, [])
      /\ snd (mutate [del] cfg) = false
      /\ vless_clients (fst (mutate [del] cfg)) = vless_clients cfg)
  /\ Forall (fun l => count_id K l = 0%nat) (vless_clients (fst (mutate [add; del] cfg))).
Proof.
  intros Hc Ha Hka Hd Hkd HK.
  pose proof (string_nonempty K HK) as HK0.
  repeat split.
  - apply mutate_same_twice.
  - unfold apply_tasks. now rewrite Hc, mutate_same_twice.
  - destruct (apply_tasks_fst [add] w) as [E | (cfg0 & Hc0 & E)]; rewrite E.
    + exact E.
    + rewrite Hc in Hc0. injection Hc0 as <-.
      erewrite apply_tasks_unchanged; [reflexivity | reflexivity |].
      now rewrite mutate_twice.
  - destruct (mutate_single add cfg) as [-> _]. rewrite map_map.
    apply map_ext. intros l. unfold task_step. rewrite Hka, HK0, Ha. apply count_id_add.
  - apply apply_tasks_unchanged with (cfg := cfg); [exact Hc|].
    destruct (mutate_single del cfg) as [_ ->].
    induction H as [|l ls Hl _ IH]; cbn [existsb]; [reflexivity|].
    rewrite IH, orb_false_r. unfold task_changes, step_changes. rewrite Hkd, HK0, Hd.
    cbn [String.eqb Ascii.eqb Bool.eqb andb].
    apply count_id_zero in Hl. now rewrite (filter_negb_none _ _ Hl), Nat.eqb_refl.
  - destruct (mutate_single del cfg) as [_ ->].
    induction H as [|l ls Hl _ IH]; cbn [existsb]; [reflexivity|].
    rewrite IH, orb_false_r. unfold task_changes, step_changes. rewrite Hkd, HK0, Hd.
    cbn [String.eqb Ascii.eqb Bool.eqb andb].
    apply count_id_zero in Hl. now rewrite (filter_negb_none _ _ Hl), Nat.eqb_refl.
  - destruct (mutate_single del cfg) as [-> _].
    induction H as [|l ls Hl _ IH]; cbn [map]; [reflexivity|].
    rewrite IH. f_equal. unfold task_step, step_list. rewrite Hkd, HK0, Hd.
    cbn [String.eqb Ascii.eqb Bool.eqb andb].
    apply count_id_zero in Hl. now apply filter_negb_none.
  - rewrite mutate_clients. apply Forall_map, Forall_forall. intros l _.
    cbn [fold_left]. unfold task_step at 1. rewrite Hkd, HK0, Hd.
    unfold step_list at 1. cbn [String.eqb Ascii.eqb Bool.eqb andb].
    apply count_id_filter_negb.
Qed.

Lemma apply_tasks_idempotent_witness :
  map (count_id "k1")
      (vless_clients (fst (mutate [Samples.task "add_key" " k1 " 7] Samples.sample_config)))
  = [1%nat; 1%nat]
  /\ apply_tasks [Samples.task "del_key" "k1" 8] Samples.sample_world = (Samples.sample_world, [])
  /\ Forall (fun l => count_id "k1" l = 0%nat)
       (vless_clients (fst (mutate [Samples.task "add_key" " k1 " 7; Samples.task "del_key" "k1" 8]
                                   Samples.sample_config))).
Proof.
  destruct (apply_tasks_idempotent Samples.sample_world Samples.sample_config
              (Samples.task "add_key" " k1 " 7) (Samples.task "del_key" "k1" 8) "k1"
              eq_refl eq_refl eq_refl eq_refl eq_refl ltac:(discriminate))
    as (_ & Hcount & Hdel & Hboth).
  split; [exact Hcount|]. split; [|exact Hboth].
  apply Hdel. repeat constructor.
Defined.

(** C1 as stated fails on a listener that already holds two entries with
    the id: [add_key] twice leaves both (not exactly one); and a task whose
    key is empty is skipped, so no entry with that id appears. *)
Lemma add_key_twice_not_exactly_one :
  map (count_id "k1")
      (vless_clients (fst (mutate [Samples.task "add_key" "k1" 7; Samples.task "add_key" "k1" 7]
                                  Samples.dup_config)))
  = [2%nat]
  /\ map (count_id "")
         (vless_clients (fst (mutate [Samples.task "add_key" "" 7; Samples.task "add_key" "" 7]
                                     Samples.sample_config)))
     = [0%nat; 0%nat].
Proof. split; reflexivity. Qed.

(** C3 (corrected). The flag that decides the write records whether some
    task, at the moment it was applied, altered the user list of some
    vless listener. A batch in which no task does (every task leaves
    every vless user list as it found it) has no effect at all: no write,
    the file as it was, no reload and no restart. Every other batch is
    written: the effects are one write attempt, followed when it succeeds
    by exactly one reload, and by a restart only after a reload that
    returned a nonzero status. This holds also when the batch as a whole
    leaves every user list as it found it. *)
Theorem reload_only_on_change (tasks : list dict) (w : world) (cfg : config) :
  config_file w = Some cfg ->
  (noop_batch tasks cfg -> apply_tasks tasks w = (w, []))
  /\ (apply_tasks tasks w = (w, [])
      \/ (~ noop_batch tasks cfg
          /\ let cfg' := fst (mutate tasks cfg) in
             (write_ok w = false /\ apply_tasks tasks w = (w, [WriteConfig cfg' false]))
             \/ (write_ok w = true
                 /\ fst (apply_tasks tasks w) = mkWorld (Some cfg') true (reload_rc w)
                 /\ (snd (apply_tasks tasks w) = [WriteConfig cfg' true; Systemctl "reload"]
                     \/ (snd (apply_tasks tasks w)
                         = [WriteConfig cfg' true; Systemctl "reload"; Systemctl "restart"]
                         /\ exists rc, reload_rc w = Some rc /\ rc <> 0)))))
  /\ (~ noop_batch tasks cfg ->
      exists rest,
        snd (apply_tasks tasks w) = WriteConfig (fst (mutate tasks cfg)) (write_ok w) :: rest).
Proof.
  intros Hc. split; [|split].
  - intros Hn. apply apply_tasks_unchanged with (cfg := cfg); [exact Hc|].
    now apply mutate_changed_noop.
  - pose proof (mutate_changed_noop tasks cfg) as Hiff.
    unfold apply_tasks. rewrite Hc.
    destruct (mutate tasks cfg) as [cfg' ch]. cbn [fst snd] in *.
    destruct ch; [|now left]. right. split.
    { intros Hn. apply Hiff in Hn. discriminate. }
    destruct (write_ok w) eqn:Hw; [right | left; auto].
    split; [reflexivity|].
    destruct (reload_rc w) as [rc|] eqn:Hr.
    + destruct (rc =? 0) eqn:E; cbn [negb fst snd].
      * auto.
      * split; [reflexivity|]. right. split; [reflexivity|].
        exists rc. split; [reflexivity|]. now apply Z.eqb_neq.
    + cbn [fst snd]. auto.
  - intros Hn. pose proof (mutate_changed_noop tasks cfg) as Hiff.
    unfold apply_tasks. rewrite Hc.
    destruct (mutate tasks cfg) as [cfg' ch]. cbn [fst snd] in *.
    destruct ch; [|exfalso; apply Hn; now apply Hiff].
    destruct (write_ok w); [|eexists; reflexivity].
    destruct (reload_rc w) as [rc|]; [destruct (negb (rc =? 0))|]; eexists; reflexivity.
Qed.

Lemma reload_only_on_change_witness :
  apply_tasks [Samples.task "del_key" "zz" 8; Samples.task "add_key" "k1" 9;
               Samples.task "add_key" " " 10]
              (mkWorld (Some Samples.dup_config) true (Some 0))
  = (mkWorld (Some Samples.dup_config) true (Some 0), []).
Proof.
  apply (proj1 (reload_only_on_change
                  [Samples.task "del_key" "zz" 8; Samples.task "add_key" "k1" 9;
                   Samples.task "add_key" " " 10]
                  (mkWorld (Some Samples.dup_config) true (Some 0)) Samples.dup_config eq_refl)).
  cbn. repeat split.
Defined.

(** C3 as stated fails for a batch that changes no client set and is
    written all the same: adding a key that is absent and deleting it
    again leaves the configuration exactly as it was, yet the file is
    rewritten and the reload requested, because each of the two tasks
    altered the list when it was applied. *)
Lemma unchanged_lists_still_written :
  fst (mutate [Samples.task "add_key" "k9" 7; Samples.task "del_key" "k9" 8] Samples.dup_config)
  = Samples.dup_config
  /\ apply_tasks [Samples.task "add_key" "k9" 7; Samples.task "del_key" "k9" 8]
                 (mkWorld (Some Samples.dup_config) true (Some 0))
     = (mkWorld (Some Samples.dup_config) true (Some 0),
        [WriteConfig Samples.dup_config true; Systemctl "reload"]).
Proof. split; reflexivity. Qed.

End AgentConfig.


(** ** Acknowledger: the task step of the loop *)
Module AgentPull.
Import Py Agent.

Lemma apply_tasks_posts_nothing tasks w : filter is_post (snd (apply_tasks tasks w)) = [].
Proof.
  unfold apply_tasks. destruct (config_file w) as [cfg|]; [|reflexivity].
  destruct (mutate tasks cfg) as [cfg' ch]. destruct ch; [|reflexivity].
  destruct (write_ok w); [|reflexivity].
  destruct (reload_rc w) as [rc|]; [destruct (negb (rc =? 0))|]; reflexivity.
Qed.

Lemma ack_tasks_all_posts central ids status :
  filter is_post (ack_tasks central ids status) = ack_tasks central ids status.
Proof. unfold ack_tasks. induction ids as [|i ids IH]; cbn; [reflexivity | now rewrite IH]. Qed.

Lemma done_ids_complete tasks t z :
  In t tasks -> dict_get t "task_id" = Some (VInt z) -> In z (done_ids tasks).
Proof.
  intros Hin Hz. unfold done_ids. apply in_flat_map. exists t. split; [exact Hin|].
  rewrite Hz. now left.
Qed.

(** C10. With a control plane configured and a non-empty batch pulled, the
    step applies the batch and then posts one acknowledgment per integer
    task id of the batch, in order, each with status "done": whatever
    [apply_tasks] did, also when the configuration file could not be read
    and nothing was applied. No other POST is sent, so no "failed" status
    leaves the pull path. *)
Theorem pull_step_acks_done (central token server_id : string) (t : dict) (ts : list dict)
  (w : world) :
  central <> "" -> token <> "" ->
  let tasks := t :: ts in
  let r := pull_step central token server_id (RespList tasks) w in
  fst r = fst (apply_tasks tasks w)
  /\ snd r = HttpGet (central ++ "/tasks?server_id=" ++ server_id)%string
               :: snd (apply_tasks tasks w) ++ ack_tasks central (done_ids tasks) "done"
  /\ filter is_post (snd r)
     = map (fun tid => HttpPost (ack_url central tid) [("status", VStr "done")]) (done_ids tasks)
  /\ (forall t' z, In t' tasks -> dict_get t' "task_id" = Some (VInt z) ->
                   In (HttpPost (ack_url central z) [("status", VStr "done")]) (snd r))
  /\ (config_file w = None ->
      fst r = w
      /\ snd r = HttpGet (central ++ "/tasks?server_id=" ++ server_id)%string
                   :: ack_tasks central (done_ids tasks) "done").
Proof.
  intros Hcen Htok tasks r.
  set (tl := t :: ts) in *. subst tasks.
  assert (fst r = fst (apply_tasks tl w)
          /\ snd r = HttpGet (central ++ "/tasks?server_id=" ++ server_id)%string
                       :: snd (apply_tasks tl w) ++ ack_tasks central (done_ids tl) "done")
    as [Hf Hs].
  { subst r tl. unfold pull_step.
    rewrite (AgentConfig.string_nonempty _ Hcen), (AgentConfig.string_nonempty _ Htok).
    cbn [negb andb].
    destruct (apply_tasks (t :: ts) w) as [w' evs]. cbn [fst snd].
    destruct (done_ids (t :: ts)); split; reflexivity. }
  assert (filter is_post (snd r) = ack_tasks central (done_ids tl) "done") as Hp.
  { rewrite Hs. cbn [filter is_post].
    now rewrite filter_app, apply_tasks_posts_nothing, ack_tasks_all_posts. }
  repeat split.
  - exact Hf.
  - exact Hs.
  - exact Hp.
  - intros t' z Hin Hz. rewrite Hs. right. apply in_or_app. right.
    unfold ack_tasks. apply in_map_iff. exists z. split; [reflexivity|].
    now apply done_ids_complete with (t := t').
  - rewrite Hf. now rewrite AgentConfig.apply_tasks_unreadable.
  - rewrite Hs. now rewrite AgentConfig.apply_tasks_unreadable.
Qed.

Lemma pull_step_acks_done_witness :
  pull_step "https://c" "secret" "srv1"
            (RespList [Samples.task "add_key" "k1" 7; Samples.task "del_key" "u1" 8])
            Samples.blind_world
  = (Samples.blind_world,
     [HttpGet "https://c/tasks?server_id=srv1";
      HttpPost "https://c/tasks/7/ack" [("status", VStr "done")];
      HttpPost "https://c/tasks/8/ack" [("status", VStr "done")]]).
Proof.
  destruct (pull_step_acks_done "https://c" "secret" "srv1"
              (Samples.task "add_key" "k1" 7) [Samples.task "del_key" "u1" 8]
              Samples.blind_world ltac:(discriminate) ltac:(discriminate))
    as (_ & _ & _ & _ & Hblind).
  destruct (Hblind eq_refl) as [Hw Hev].
  rewrite (surjective_pairing (pull_step _ _ _ _ _)), Hw, Hev. reflexivity.
Defined.

End AgentPull.


(** ** LatencyProbe: [measure_ping] *)
Module AgentProbe.
Import Py Agent.

Lemma insert_sorted_perm x l : Permutation (insert_sorted x l) (x :: l).
Proof.
  induction l as [|y l IH]; cbn; [reflexivity|].
  destruct (Qle_bool y x); [|reflexivity].
  rewrite IH. apply perm_swap.
Qed.

Lemma insert_sorted_sorted x l : Sorted Qle l -> Sorted Qle (insert_sorted x l).
Proof.
  induction l as [|y l IH]; cbn; intros Hs.
  - repeat constructor.
  - destruct (Qle_bool y x) eqn:E.
    + apply Sorted_inv in Hs as [Hs Hd]. constructor; [now apply IH|].
      destruct l as [|z l]; cbn.
      * constructor. now apply Qle_bool_iff.
      * destruct (Qle_bool z x); constructor.
        -- now inversion Hd.
        -- now apply Qle_bool_iff.
    + constructor; [exact Hs|]. constructor.
      apply Qlt_le_weak, Qnot_le_lt. intros H. apply Qle_bool_iff in H. congruence.
Qed.

Lemma fold_insert_spec l : forall acc,
  Sorted Qle acc ->
  Sorted Qle (fold_left (fun acc x => insert_sorted x acc) l acc)
  /\ Permutation (fold_left (fun acc x => insert_sorted x acc) l acc) (l ++ acc).
Proof.
  induction l as [|x l IH]; intros acc Hs; cbn [fold_left].
  - split; [exact Hs | reflexivity].
  - destruct (IH (insert_sorted x acc) (insert_sorted_sorted x acc Hs)) as [H1 H2].
    split; [exact H1|]. rewrite H2, insert_sorted_perm. cbn.
    symmetry. apply Permutation_middle.
Qed.

(** [sort] returns its argument rearranged in ascending order. *)
Lemma sort_spec l : Sorted Qle (sort l) /\ Permutation (sort l) l.
Proof.
  destruct (fold_insert_spec l [] (Sorted_nil _)) as [H1 H2].
  split; [exact H1|]. unfold sort. now rewrite H2, app_nil_r.
Qed.

(** [round_half_even] is a nearest integer. *)
Lemma round_half_even_nearest x :
  (inject_Z (round_half_even x) - (1 # 2) <= x)%Q
  /\ (x <= inject_Z (round_half_even x) + (1 # 2))%Q.
Proof.
  unfold round_half_even.
  pose proof (Qfloor_le x) as Hlo. pose proof (Qlt_floor x) as Hhi.
  set (f := Qfloor x) in *.
  assert ((inject_Z (f + 1) == inject_Z f + 1)%Q) as E1 by (rewrite inject_Z_plus; reflexivity).
  rewrite E1 in Hhi.
  destruct (Qcompare (x - inject_Z f) (1 # 2)) eqn:C.
  - apply Qeq_alt in C. destruct (Z.even f).
    + split; [lra|]. lra.
    + rewrite E1. split; lra.
  - apply Qlt_alt in C. split; lra.
  - apply Qgt_alt in C. rewrite E1. split; lra.
Qed.

Lemma pct_nth times p :
  pct times p
  = nth (Z.to_nat (Z.min (Z.max (round_half_even (inject_Z (Z.of_nat (List.length times) - 1) * p)) 0)
                         (Z.of_nat (List.length times) - 1)))
        times (0 # 1)%Q.
Proof.
  unfold pct. destruct times as [|t ts]; [|reflexivity].
  cbn [List.length nth]. now destruct (Z.to_nat _).
Qed.

(** C6. When the output of a successful [ping] shows [n >= 1] round-trip
    times, [measure_ping] sorts them in ascending order and returns, for
    [p = 0.5] and [p = 0.95], the element at index [round(p * (n - 1))]
    clamped to [0 .. n-1], [round] being Python's (nearest integer, a tie
    to the even one); that index is in range, so what is returned is one of
    the parsed samples. For the samples 10, 20, 30, 40 the indices are 2
    and 3 and the probe returns 30 and 40. *)
Theorem percentile_nearest_rank :
  (forall (out err : string) (t : Q) (ts : list Q),
      parse_times out = t :: ts ->
      let sorted := sort (t :: ts) in
      let n := Z.of_nat (List.length (t :: ts)) in
      let rank (p : Q) := Z.min (Z.max (round_half_even (inject_Z (n - 1) * p)) 0) (n - 1) in
      Sorted Qle sorted /\ Permutation sorted (t :: ts)
      /\ (forall p, 0 <= rank p <= n - 1)
      /\ (forall p, In (nth (Z.to_nat (rank p)) sorted (0 # 1)%Q) (t :: ts))
      /\ measure_ping (Exited 0 out err)
         = (nth (Z.to_nat (rank (1 # 2)%Q)) sorted (0 # 1)%Q,
            nth (Z.to_nat (rank (95 # 100)%Q)) sorted (0 # 1)%Q,
            parse_loss out))
  /\ (parse_times Samples.ping_output = [30 # 1; 10 # 1; 40 # 1; 20 # 1]%Q
      /\ sort (parse_times Samples.ping_output) = [10 # 1; 20 # 1; 30 # 1; 40 # 1]%Q
      /\ round_half_even (inject_Z (4 - 1) * (1 # 2)) = 2
      /\ round_half_even (inject_Z (4 - 1) * (95 # 100)) = 3
      /\ measure_ping (Exited 0 Samples.ping_output "")
         = ((30 # 1)%Q, (40 # 1)%Q, (0 # 1)%Q)).
Proof.
  split; [|repeat split; vm_compute; reflexivity].
  intros out err t ts Hp sorted n rank.
  destruct (sort_spec (t :: ts)) as [Hs Hperm]. fold sorted in Hs, Hperm.
  assert (Hlen : List.length sorted = List.length (t :: ts)) by now apply Permutation_length.
  assert (Hn : 1 <= n) by (subst n; cbn [List.length]; lia).
  assert (Hrank : forall p, 0 <= rank p <= n - 1) by (intros p; subst rank; cbv beta; lia).
  repeat split; try apply Hrank; try assumption.
  - intros p. apply (Permutation_in _ Hperm). apply nth_In.
    rewrite Hlen. specialize (Hrank p). subst n. lia.
  - unfold measure_ping. cbn [run_cmd Z.eqb negb]. rewrite Hp. fold sorted.
    rewrite !pct_nth, Hlen. reflexivity.
Qed.

Lemma percentile_nearest_rank_witness :
  measure_ping (Exited 0 ("time=20 ms" ++ Samples.nl ++ "time=10.5 ms")%string "")
  = ((105 # 10)%Q, (20 # 1)%Q, (100 # 1)%Q).
Proof.
  destruct (proj1 percentile_nearest_rank
              ("time=20 ms" ++ Samples.nl ++ "time=10.5 ms")%string "" (20 # 1)%Q [(105 # 10)%Q]
              eq_refl)
    as (_ & _ & _ & _ & H).
  exact H.
Defined.

(** C7. When the probe command ends with a nonzero exit status, is killed
    at its timeout or cannot be started, [measure_ping] returns loss 100
    and both latencies 0. When it exits with status 0 and its output shows
    no round-trip time, [measure_ping] returns both latencies 0 and the
    loss figure found in the output (100 when the output shows none). *)
Theorem measure_ping_failsafe (o : process_outcome) (out err : string) :
  ((forall stdout stderr, o <> Exited 0 stdout stderr) ->
   measure_ping o = ((0 # 1)%Q, (0 # 1)%Q, (100 # 1)%Q))
  /\ (o = Exited 0 out err -> parse_times out = [] ->
      measure_ping o
      = ((0 # 1)%Q, (0 # 1)%Q,
         match search_loss out with
         | Some loss => loss
         | None => (100 # 1)%Q
         end)).
Proof.
  unfold measure_ping, parse_loss. split.
  - intros H. destruct o as [rc stdout stderr | | reason]; cbn [run_cmd]; try reflexivity.
    destruct (rc =? 0) eqn:E; [|reflexivity].
    apply Z.eqb_eq in E. subst rc. now destruct (H stdout stderr).
  - intros -> Ht. cbn [run_cmd Z.eqb negb]. now rewrite Ht.
Qed.

Lemma measure_ping_failsafe_witness :
  measure_ping (Exited 1 Samples.ping_output "") = ((0 # 1)%Q, (0 # 1)%Q, (100 # 1)%Q)
  /\ measure_ping TimedOut = ((0 # 1)%Q, (0 # 1)%Q, (100 # 1)%Q)
  /\ measure_ping (Exited 0 Samples.summary_output "") = ((0 # 1)%Q, (0 # 1)%Q, (25 # 1)%Q).
Proof.
  split; [|split].
  - apply (proj1 (measure_ping_failsafe (Exited 1 Samples.ping_output "") "" "")). discriminate.
  - apply (proj1 (measure_ping_failsafe TimedOut "" "")). discriminate.
  - apply (proj2 (measure_ping_failsafe (Exited 0 Samples.summary_output "")
                                        Samples.summary_output "") eq_refl).
    reflexivity.
Defined.

End AgentProbe.

(** ** RateEstimator *)
Module AgentRates.
Import Py Agent.

(** The packet and connection rates are clamped. *)
Lemma per_second_nonneg delta dt : 0 <= per_second delta dt.
Proof. unfold per_second. lia. Qed.

(** Without a previous sample (the state the loop starts from) every
    rate is zero. *)
Theorem estimate_rates_first now net_iface rxb txb rxp txp ao po :
  estimate_rates initial_state now net_iface rxb txb rxp txp ao po
  = mkRates (0 # 1)%Q (0 # 1)%Q 0 0 0.
Proof. reflexivity. Qed.

(** C2 (code defect). The received-bytes counter was 6000000 at second
    1000 and reads 5000000 at second 1001: [estimate_rates] gives the
    bandwidth -8.00 Mbit/s, and the loop posts a heartbeat that carries
    this negative rate. The packet rates of the same sample are clamped. *)
Theorem bandwidth_negative_on_counter_reset :
  let st := mkState 1000 6000000 0 9000 0 0 0 in
  (r_bw_rx_mbps (estimate_rates st 1001 "eth0" 5000000 0 2000 0 0 0) = (-800 # 100)%Q
   /\ r_pps_rx (estimate_rates st 1001 "eth0" 5000000 0 2000 0 0 0) = 0)
  /\ exists st' w' hb evs,
      run_loop_body Samples.sample_env (Samples.observe Samples.proc_files 1001) st Samples.sample_world
      = Ok (st', w', PostHeartbeat "https://c/heartbeat" hb :: evs)
      /\ bw_rx_mbps hb = (-800 # 100)%Q
      /\ (bw_rx_mbps hb < 0)%Q
      /\ pps_rx hb = 0.
Proof.
  cbv zeta. split; [split; reflexivity|].
  do 4 eexists. split; [vm_compute; reflexivity|].
  split; [reflexivity|]. split; reflexivity.
Qed.

End AgentRates.

(** ** CounterSampler *)
Module AgentSampler.
Import Py Agent.

(** A missing [/proc/stat] makes [cpu_sample] raise, whatever the rest of
    the system looks like, and the iteration ends there. *)
Lemma cpu_sample_missing_stat fs_a fs_b :
  fs_a "/proc/stat" = Missing -> cpu_sample fs_a fs_b = Raise IndexError.
Proof. intros H. unfold cpu_sample, read_cpu, read_proc. now rewrite H. Qed.

Lemma run_loop_body_missing_stat env obs st w :
  fs obs "/proc/stat" = Missing -> exists e, run_loop_body env obs st w = Raise e.
Proof.
  intros H. unfold run_loop_body.
  destruct (read_uptime (fs obs)) as [u|e]; [|now exists e]. cbn [bind].
  destruct (read_load1 (fs obs)) as [l|e]; [|now exists e]. cbn [bind].
  destruct (read_proc (fs obs) "/proc/meminfo") as [m|e]; [|now exists e]. cbn [bind].
  rewrite (cpu_sample_missing_stat _ _ H). now exists IndexError.
Qed.

(** X2. The sources that do degrade when their file is missing: the
    interface counters, the TCP counters, the uptime and the load read as
    zero. *)
Theorem missing_sources_that_degrade (fs : filesystem) :
  (fs "/proc/net/dev" = Missing ->
   forall iface, read_dev_counters fs iface = Ok (0, 0, 0, 0, 0, 0, 0, 0))
  /\ (fs "/proc/net/netstat" = Missing -> forall key, tcp_ext_value fs key = Ok 0)
  /\ (fs "/proc/uptime" = Missing -> read_uptime fs = Ok 0)
  /\ (fs "/proc/loadavg" = Missing -> read_load1 fs = Ok "0.00").
Proof.
  unfold read_dev_counters, tcp_ext_value, read_uptime, read_load1, read_proc.
  repeat split; intros H; try intros x; now rewrite H.
Qed.

Lemma missing_sources_that_degrade_witness :
  read_dev_counters (fun _ => Missing) "eth0" = Ok (0, 0, 0, 0, 0, 0, 0, 0)
  /\ tcp_ext_value (fun _ => Missing) "ActiveOpens" = Ok 0
  /\ read_uptime (fun _ => Missing) = Ok 0
  /\ read_load1 (fun _ => Missing) = Ok "0.00".
Proof.
  destruct (missing_sources_that_degrade (fun _ => Missing)) as (H1 & H2 & H3 & H4).
  split; [apply H1; reflexivity|]. split; [apply H2; reflexivity|].
  split; [apply H3 | apply H4]; reflexivity.
Defined.

(** C8 (code defect). With every other source in place: a missing
    [/proc/stat] ends the iteration with [IndexError]; so does an interface
    line cut short, and a cut first line of [/proc/stat]; an interface line
    with a non-numeric field ends it with [ValueError]; a file that exists
    and cannot be read ends it with [PermissionError]. In each case the
    loop body returns no heartbeat: the exception leaves [run_loop]. *)
Theorem malformed_source_aborts_iteration :
  let run fs := run_loop_body Samples.sample_env (Samples.observe fs 1001) initial_state
                          Samples.sample_world in
  run (Samples.with_file "/proc/stat" Missing Samples.proc_files) = Raise IndexError
  /\ run (Samples.with_file "/proc/net/dev"
            (Content ("h1" ++ Samples.nl ++ "h2" ++ Samples.nl ++ "eth0: 5000000 2000 1 2")%string)
            Samples.proc_files) = Raise IndexError
  /\ run (Samples.with_file "/proc/stat" (Content "cpu  100 0 50") Samples.proc_files)
     = Raise IndexError
  /\ run (Samples.with_file "/proc/net/dev"
            (Content ("h1" ++ Samples.nl ++ "h2" ++ Samples.nl
                      ++ "eth0: 5000000 n/a 1 2 0 0 0 0 3000000 4000 3 4 0 0 0 0")%string)
            Samples.proc_files) = Raise ValueError
  /\ run (Samples.with_file "/proc/net/netstat" Denied Samples.proc_files)
     = Raise PermissionError
  /\ exists st' w' hb evs,
       run Samples.proc_files = Ok (st', w', PostHeartbeat "https://c/heartbeat" hb :: evs).
Proof.
  cbv zeta. repeat split; try (vm_compute; reflexivity).
  do 4 eexists. vm_compute. reflexivity.
Qed.

End AgentSampler.

(** ** Heartbeat ingestion: [receive_heartbeat] *)
Module CentralHeartbeat.
Import Py Central.

Section AnyParser.

Variable datetime : Type.
Variable fromisoformat : string -> option datetime.

(** An unparsable timestamp raises the 400 inside the outer [try], whose
    handler turns it into a 500. *)
Lemma unparsable_timestamp_status commit_ok server_commit_ok req (db : database datetime) :
  fromisoformat (replace_Z (req_generated_at req)) = None
  \/ fromisoformat (replace_Z (req_ready_at req)) = None ->
  snd (receive_heartbeat_body fromisoformat commit_ok server_commit_ok req db)
  = Raise (HTTPException 400)
  /\ receive_heartbeat fromisoformat commit_ok server_commit_ok req db
     = (db, Raise (HTTPException 500)).
Proof.
  intros H. unfold receive_heartbeat, receive_heartbeat_body, parse_timestamp.
  destruct H as [H | H].
  - rewrite H. cbn. auto.
  - rewrite H. destruct (fromisoformat (replace_Z (req_generated_at req))); cbn; auto.
Qed.

(** X3. With both timestamps parsable: a failed commit is answered with
    status 500 and leaves the database as it was; a successful one is
    answered with acceptance and the id of the new row. *)
Theorem parsable_timestamp_status commit_ok server_commit_ok req (db : database datetime) g r :
  fromisoformat (replace_Z (req_generated_at req)) = Some g ->
  fromisoformat (replace_Z (req_ready_at req)) = Some r ->
  let out := receive_heartbeat fromisoformat commit_ok server_commit_ok req db in
  (commit_ok = false -> out = (db, Raise (HTTPException 500)))
  /\ (commit_ok = true ->
      snd out = Ok (mkHeartbeatResponse true "Heartbeat received successfully"
                                        (Some (next_id (map hb_id (heartbeats db)))))
      /\ exists row, hb_id row = next_id (map hb_id (heartbeats db))
                     /\ heartbeats (fst out) = heartbeats db ++ [row]).
Proof.
  intros Hg Hr. unfold receive_heartbeat, receive_heartbeat_body, parse_timestamp.
  rewrite Hg, Hr. cbn [bind]. split; intros ->; cbn [fst snd].
  - reflexivity.
  - split; [reflexivity|]. eexists. split; [|unfold update_server_last_heartbeat].
    2: { destruct (scalar_one_or_none _) as [[v|]|e]; [| destruct server_commit_ok |]; reflexivity. }
    reflexivity.
Qed.

End AnyParser.

Lemma parsable_timestamp_status_witness :
  receive_heartbeat Samples.iso_seconds false true
    (Samples.heartbeat_request "2024-05-01T12:00:00Z" "2024-05-01T12:00:06+00:00") Samples.sample_db
  = (Samples.sample_db, Raise (HTTPException 500)).
Proof.
  apply (proj1 (parsable_timestamp_status string Samples.iso_seconds false true
                  (Samples.heartbeat_request "2024-05-01T12:00:00Z" "2024-05-01T12:00:06+00:00")
                  Samples.sample_db "2024-05-01T12:00:00+00:00" "2024-05-01T12:00:06+00:00"
                  eq_refl eq_refl)).
  reflexivity.
Defined.

(** C5 (code defect). A heartbeat whose [generated_at] is not a timestamp
    is answered with status 500: the [HTTPException] with status 400 is
    raised inside the handler and caught by its own [except Exception].
    The same request with both timestamps well formed (one with the Z
    suffix) is accepted with record id 1. *)
Theorem unparsable_timestamp_answers_500 :
  let bad := Samples.heartbeat_request "not-a-timestamp" "2024-05-01T12:00:06+00:00" in
  let good := Samples.heartbeat_request "2024-05-01T12:00:00Z" "2024-05-01T12:00:06+00:00" in
  snd (receive_heartbeat_body Samples.iso_seconds true true bad Samples.sample_db)
  = Raise (HTTPException 400)
  /\ receive_heartbeat Samples.iso_seconds true true bad Samples.sample_db
     = (Samples.sample_db, Raise (HTTPException 500))
  /\ http_status (snd (receive_heartbeat Samples.iso_seconds true true bad Samples.sample_db)) = 500
  /\ snd (receive_heartbeat Samples.iso_seconds true true good Samples.sample_db)
     = Ok (mkHeartbeatResponse true "Heartbeat received successfully" (Some 1)).
Proof. cbv zeta. repeat split; reflexivity. Qed.

End CentralHeartbeat.

(** ** The task queue: creation, pull, acknowledgment *)
Module CentralQueue.
Import Py Central.

Section Queue.

Variable datetime : Type.
Variable uuid_valid : string -> bool.

Lemma same_task_refl t : same_task t t.
Proof. repeat split. Qed.

Lemma allowed_transition_refl (r : request) l : Forall2 (allowed_transition r) l l.
Proof.
  induction l as [|t l IH]; constructor; [|exact IH].
  split; [apply same_task_refl | now left].
Qed.

(** The four outcomes of the uniqueness check and insertion. *)
Lemma create_task_cases commit_ok sid key kind mail (db : database datetime) :
  let rows := filter (open_task sid key kind) (tasks db) in
  let task := mkTask (next_id (map id (tasks db))) sid kind key mail "pending" in
  (rows = [] /\ commit_ok = true
   /\ create_task commit_ok sid key kind mail db
      = (mkDb (servers db) (heartbeats db) (tasks db ++ [task]), Ok (mkCreated (id task) key)))
  \/ (rows = [] /\ commit_ok = false
      /\ create_task commit_ok sid key kind mail db = (db, Raise SQLAlchemyError))
  \/ ((exists t, rows = [t])
      /\ create_task commit_ok sid key kind mail db = (db, Raise (HTTPException 409)))
  \/ ((2 <= List.length rows)%nat
      /\ create_task commit_ok sid key kind mail db = (db, Raise MultipleResultsFound)).
Proof.
  cbv zeta. unfold create_task.
  destruct (filter (open_task sid key kind) (tasks db)) as [|t [|u rows]]; cbn [scalar_one_or_none].
  - destruct commit_ok; [left | right; left]; auto.
  - right; right; left. split; [now exists t | reflexivity].
  - right; right; right. split; [cbn; lia | reflexivity].
Qed.

Lemma reraise_http_fst {A : Type} (db db' : database datetime) (res : result A) :
  fst (reraise_http db (db', res)) = db
  \/ (fst (reraise_http db (db', res)) = db' /\ exists a, res = Ok a).
Proof.
  destruct res as [a|e]; cbn.
  - right. split; [reflexivity | now exists a].
  - left. now destruct e.
Qed.

(** Both creation endpoints leave the queue as it was or append one
    pending task. *)
Lemma create_task_tasks commit_ok sid key kind mail (db : database datetime) :
  fst (create_task commit_ok sid key kind mail db) = db
  \/ exists t, tasks (fst (create_task commit_ok sid key kind mail db)) = tasks db ++ [t]
               /\ status t = "pending".
Proof.
  destruct (create_task_cases commit_ok sid key kind mail db)
    as [(_ & _ & E) | [(_ & _ & E) | [(_ & E) | (_ & E)]]]; rewrite E; cbn [fst tasks]; auto.
  right. eexists. split; reflexivity.
Qed.

Lemma wrapped_create_tasks (db : database datetime) (r : database datetime * result TaskCreated) :
  (fst r = db \/ exists t, tasks (fst r) = tasks db ++ [t] /\ status t = "pending") ->
  tasks (fst (reraise_http db r)) = tasks db
  \/ exists t, tasks (fst (reraise_http db r)) = tasks db ++ [t] /\ status t = "pending".
Proof.
  intros H. destruct r as [db' res].
  destruct (reraise_http_fst db db' res) as [E | [E _]]; rewrite E; [now left|].
  cbn [fst] in H. destruct H as [-> | H]; [now left | now right].
Qed.

Lemma add_key_tasks commit_ok fresh sid mail custom (db : database datetime) :
  tasks (fst (add_key uuid_valid commit_ok fresh sid mail custom db)) = tasks db
  \/ exists t, tasks (fst (add_key uuid_valid commit_ok fresh sid mail custom db)) = tasks db ++ [t]
               /\ status t = "pending".
Proof.
  unfold add_key. apply wrapped_create_tasks.
  destruct (scalar_one_or_none _) as [[server|]|e]; cbn [fst]; auto.
  destruct (negb (is_active server)); cbn [fst]; auto.
  destruct (negb (uuid_valid _)); cbn [fst]; auto.
  apply create_task_tasks.
Qed.

Lemma remove_key_tasks commit_ok sid key (db : database datetime) :
  tasks (fst (remove_key uuid_valid commit_ok sid key db)) = tasks db
  \/ exists t, tasks (fst (remove_key uuid_valid commit_ok sid key db)) = tasks db ++ [t]
               /\ status t = "pending".
Proof.
  unfold remove_key. apply wrapped_create_tasks.
  destruct (scalar_one_or_none _) as [[server|]|e]; cbn [fst]; auto.
  destruct (negb (uuid_valid _)); cbn [fst]; auto.
  apply create_task_tasks.
Qed.

Lemma get_tasks_transitions commit_ok sid (l : list ServerTask) :
  Forall2 (allowed_transition (GetTasks commit_ok (Some sid))) l
    (map (fun t => if String.eqb (server_id t) sid && String.eqb (status t) "pending"
                   then set_status "delivered" t else t) l).
Proof.
  induction l as [|t l IH]; cbn [map]; constructor; [|exact IH].
  destruct (String.eqb (server_id t) sid) eqn:Es; cbn [andb];
    [destruct (String.eqb (status t) "pending") eqn:Ep|].
  - split; [repeat split|]. right; left. exists commit_ok, sid.
    apply String.eqb_eq in Es, Ep. auto.
  - split; [apply same_task_refl | now left].
  - split; [apply same_task_refl | now left].
Qed.

Lemma ack_task_transitions commit_ok tid s (l : list ServerTask) :
  lower s = "done" \/ lower s = "failed" ->
  Forall2 (allowed_transition (AckTask commit_ok tid s)) l
    (map (fun t => if id t =? tid then set_status (lower s) t else t) l).
Proof.
  intros Hs. induction l as [|t l IH]; cbn [map]; constructor; [|exact IH].
  destruct (id t =? tid) eqn:E.
  - split; [repeat split|]. right; right. exists commit_ok, s.
    apply Z.eqb_eq in E. subst tid. auto.
  - split; [apply same_task_refl | now left].
Qed.

(** C4 (amended). Whatever the request and the queue: every row keeps its
    identity, and its status is left alone, or goes from pending to
    delivered under a pull for its server, or is overwritten with done or
    failed by an acknowledgment naming its id, from whatever status it had;
    rows are added only by the creation endpoints, one at a time and in
    status pending. *)
Theorem task_status_transitions (r : request) (db : database datetime) :
  exists kept created,
    tasks (handle uuid_valid r db) = kept ++ created
    /\ Forall2 (allowed_transition r) (tasks db) kept
    /\ Forall (fun t => status t = "pending") created
    /\ (created = []
        \/ (exists t, created = [t])
           /\ ((exists ok fresh sid mail custom, r = AddKey ok fresh sid mail custom)
               \/ (exists ok sid key, r = RemoveKey ok sid key))).
Proof.
  destruct r as [ok fresh sid mail custom | ok sid key | ok sid | ok tid s]; cbn [handle].
  - destruct (add_key_tasks ok fresh sid mail custom db) as [E | (t & E & Hp)].
    + exists (tasks db), []. rewrite E, app_nil_r.
      repeat split; auto using allowed_transition_refl.
    + exists (tasks db), [t]. rewrite E.
      repeat split; auto using allowed_transition_refl.
      right. split; [now exists t|]. left. now exists ok, fresh, sid, mail, custom.
  - destruct (remove_key_tasks ok sid key db) as [E | (t & E & Hp)].
    + exists (tasks db), []. rewrite E, app_nil_r.
      repeat split; auto using allowed_transition_refl.
    + exists (tasks db), [t]. rewrite E.
      repeat split; auto using allowed_transition_refl.
      right. split; [now exists t|]. right. now exists ok, sid, key.
  - exists (tasks (fst (get_tasks ok sid db))), []. rewrite app_nil_r.
    repeat split; auto. unfold get_tasks.
    destruct sid as [sid|]; [|apply allowed_transition_refl].
    destruct (Nat.eqb _ _); [apply allowed_transition_refl|].
    destruct ok; [|apply allowed_transition_refl].
    cbn [fst tasks]. apply get_tasks_transitions.
  - exists (tasks (fst (ack_task ok tid s db))), []. rewrite app_nil_r.
    repeat split; auto. unfold ack_task.
    destruct (String.eqb (lower s) "done") eqn:Ed; cbn [orb negb];
      [|destruct (String.eqb (lower s) "failed") eqn:Ef; cbn [negb]].
    + destruct (scalar_one_or_none _) as [[t|]|e]; try apply allowed_transition_refl.
      destruct ok; [|apply allowed_transition_refl].
      cbn [fst tasks]. apply ack_task_transitions. left. now apply String.eqb_eq.
    + destruct (scalar_one_or_none _) as [[t|]|e]; try apply allowed_transition_refl.
      destruct ok; [|apply allowed_transition_refl].
      cbn [fst tasks]. apply ack_task_transitions. right. now apply String.eqb_eq.
    + apply allowed_transition_refl.
Qed.

Lemma filter_unique_hit {A : Type} (f : A -> bool) (l : list A) (x : A) :
  In x l -> f x = true -> (List.length (filter f l) <= 1)%nat -> filter f l = [x].
Proof.
  induction l as [|a l IH]; cbn [In filter]; [tauto|].
  intros [-> | Hin] Hx Hlen.
  - rewrite Hx in *. cbn [List.length] in Hlen.
    destruct (filter f l); [reflexivity | cbn in Hlen; lia].
  - destruct (f a) eqn:Ea.
    + cbn [List.length] in Hlen.
      assert (In x (filter f l)) as Hf by (apply filter_In; auto).
      destruct (filter f l); [destruct Hf | cbn in Hlen; lia].
    + now apply IH.
Qed.

Lemma filter_no_hit {A : Type} (f : A -> bool) (l : list A) :
  (forall x, In x l -> f x = false) -> filter f l = [].
Proof.
  induction l as [|a l IH]; cbn [filter]; intros H; [reflexivity|].
  rewrite (H a (or_introl eq_refl)). apply IH. intros x Hx. apply H. now right.
Qed.

Lemma filter_map_shrinks {A : Type} (f : A -> bool) (g : A -> A) (l : list A) :
  (forall t, f (g t) = true -> f t = true) ->
  (List.length (filter f (map g l)) <= List.length (filter f l))%nat.
Proof.
  intros H. induction l as [|a l IH]; cbn [map filter]; [lia|].
  destruct (f (g a)) eqn:E.
  - rewrite (H a E). cbn. lia.
  - destruct (f a); cbn; lia.
Qed.

(** C9 (amended). For a registered server and a key that is a well-formed
    UUID, on a queue that holds at most one queued task per server, key and
    kind: [remove_key] answers 409 and changes nothing when a [del_key]
    task for the same server and key is pending or delivered, and
    otherwise, when the commit succeeds, appends a new [del_key] task in
    status pending; [add_key] does the same for [add_key] tasks when the
    server is also active. (An unregistered server is answered 404, an
    inactive one or a malformed key 400, before the duplicate check.) *)
Theorem create_rejects_duplicate (commit_ok : bool) (fresh sid mail key : string)
  (custom : option string) (server : VpnServer) (db : database datetime) :
  open_unique db -> servers_unique db ->
  In server (servers db) -> vs_server_id server = sid ->
  uuid_valid (chosen_key custom fresh) = true -> uuid_valid key = true ->
  (is_active server = true ->
   ((exists t, In t (tasks db) /\ open_task sid (chosen_key custom fresh) "add_key" t = true) ->
    add_key uuid_valid commit_ok fresh sid mail custom db = (db, Raise (HTTPException 409)))
   /\ ((forall t, In t (tasks db) -> open_task sid (chosen_key custom fresh) "add_key" t = false) ->
       commit_ok = true ->
       add_key uuid_valid commit_ok fresh sid mail custom db
       = (mkDb (servers db) (heartbeats db)
               (tasks db ++ [mkTask (next_id (map id (tasks db))) sid "add_key"
                                    (chosen_key custom fresh) (Some (strip mail)) "pending"]),
          Ok (mkCreated (next_id (map id (tasks db))) (chosen_key custom fresh)))))
  /\ ((exists t, In t (tasks db) /\ open_task sid key "del_key" t = true) ->
      remove_key uuid_valid commit_ok sid key db = (db, Raise (HTTPException 409)))
  /\ ((forall t, In t (tasks db) -> open_task sid key "del_key" t = false) ->
      commit_ok = true ->
      remove_key uuid_valid commit_ok sid key db
      = (mkDb (servers db) (heartbeats db)
              (tasks db ++ [mkTask (next_id (map id (tasks db))) sid "del_key" key None "pending"]),
         Ok (mkCreated (next_id (map id (tasks db))) key))).
Proof.
  intros Hopen Hsrv Hin Hsid Hk1 Hk2.
  assert (Hfound : filter (fun v => String.eqb (vs_server_id v) sid) (servers db) = [server]).
  { apply filter_unique_hit; [exact Hin | now apply String.eqb_eq | apply Hsrv]. }
  assert (Hdup : forall k kind, (exists t, In t (tasks db) /\ open_task sid k kind t = true) ->
                 forall mail', create_task commit_ok sid k kind mail' db
                               = (db, Raise (HTTPException 409))).
  { intros k kind (t & Ht & Ho) mail'. unfold create_task.
    now rewrite (filter_unique_hit _ _ t Ht Ho (Hopen sid k kind)). }
  assert (Hnew : forall k kind, (forall t, In t (tasks db) -> open_task sid k kind t = false) ->
                 commit_ok = true ->
                 forall mail', create_task commit_ok sid k kind mail' db
                 = (mkDb (servers db) (heartbeats db)
                         (tasks db ++ [mkTask (next_id (map id (tasks db))) sid kind k mail' "pending"]),
                    Ok (mkCreated (next_id (map id (tasks db))) k))).
  { intros k kind Hno -> mail'. unfold create_task.
    now rewrite (filter_no_hit _ _ Hno). }
  split; [intros Hact; split | split].
  - intros Hex. unfold add_key. rewrite Hfound. cbn [scalar_one_or_none].
    rewrite Hact, Hk1. cbn [negb]. now rewrite (Hdup _ _ Hex).
  - intros Hno Hok. unfold add_key. rewrite Hfound. cbn [scalar_one_or_none].
    rewrite Hact, Hk1. cbn [negb]. now rewrite (Hnew _ _ Hno Hok).
  - intros Hex. unfold remove_key. rewrite Hfound. cbn [scalar_one_or_none].
    rewrite Hk2. cbn [negb]. now rewrite (Hdup _ _ Hex).
  - intros Hno Hok. unfold remove_key. rewrite Hfound. cbn [scalar_one_or_none].
    rewrite Hk2. cbn [negb]. now rewrite (Hnew _ _ Hno Hok).
Qed.

Lemma open_task_triple sid key kind t :
  open_task sid key kind t = true ->
  server_id t = sid /\ key_id t = key /\ type t = kind.
Proof.
  unfold open_task. rewrite !andb_true_iff. intros [[[H1 H2] H3] _].
  now apply String.eqb_eq in H1, H2, H3.
Qed.

Lemma create_task_keeps_open_unique commit_ok sid key kind mail (db : database datetime) :
  open_unique db -> open_unique (fst (create_task commit_ok sid key kind mail db)).
Proof.
  intros Hopen.
  destruct (create_task_cases commit_ok sid key kind mail db)
    as [(Hrows & _ & E) | [(_ & _ & E) | [(_ & E) | (_ & E)]]]; rewrite E; cbn [fst]; auto.
  intros sid' key' kind'. cbn [tasks]. rewrite filter_app, length_app. cbn [filter].
  destruct (open_task sid' key' kind' _) eqn:Eo; cbn [List.length].
  - apply open_task_triple in Eo. cbn in Eo. destruct Eo as (<- & <- & <-).
    rewrite Hrows. cbn. lia.
  - specialize (Hopen sid' key' kind'). lia.
Qed.

(** X4. The handlers keep the queue free of a second queued task for the
    same server, key and kind, and never touch the server table. *)
Theorem handle_keeps_invariants (r : request) (db : database datetime) :
  (open_unique db -> open_unique (handle uuid_valid r db))
  /\ servers (handle uuid_valid r db) = servers db.
Proof.
  assert (Hwrap : forall (res : database datetime * result TaskCreated),
             (open_unique db -> open_unique (fst res)) -> servers (fst res) = servers db ->
             (open_unique db -> open_unique (fst (reraise_http db res)))
             /\ servers (fst (reraise_http db res)) = servers db).
  { intros [db' res] H1 H2.
    destruct (reraise_http_fst db db' res) as [E | [E _]]; rewrite E; auto. }
  assert (Hcreate : forall ok sid key kind mail,
             servers (fst (create_task ok sid key kind mail db)) = servers db).
  { intros. unfold create_task. destruct (scalar_one_or_none _) as [[t|]|e]; auto.
    now destruct ok. }
  destruct r as [ok fresh sid mail custom | ok sid key | ok sid | ok tid s]; cbn [handle].
  - unfold add_key. apply Hwrap.
    + destruct (scalar_one_or_none _) as [[server|]|e]; cbn [fst]; auto.
      destruct (negb (is_active server)); cbn [fst]; auto.
      destruct (negb (uuid_valid _)); cbn [fst]; auto.
      apply create_task_keeps_open_unique.
    + destruct (scalar_one_or_none _) as [[server|]|e]; cbn [fst]; auto.
      destruct (negb (is_active server)); cbn [fst]; auto.
      destruct (negb (uuid_valid _)); cbn [fst]; auto.
  - unfold remove_key. apply Hwrap.
    + destruct (scalar_one_or_none _) as [[server|]|e]; cbn [fst]; auto.
      destruct (negb (uuid_valid _)); cbn [fst]; auto.
      apply create_task_keeps_open_unique.
    + destruct (scalar_one_or_none _) as [[server|]|e]; cbn [fst]; auto.
      destruct (negb (uuid_valid _)); cbn [fst]; auto.
  - unfold get_tasks. destruct sid as [sid|]; cbn [fst]; auto.
    destruct (Nat.eqb _ _); cbn [fst]; auto. destruct ok; cbn [fst]; auto.
    split; [|reflexivity]. intros Hopen sid' key' kind'. cbn [tasks].
    etransitivity; [|apply (Hopen sid' key' kind')].
    apply filter_map_shrinks. intros t.
    destruct (String.eqb (server_id t) sid && String.eqb (status t) "pending") eqn:E; auto.
    apply andb_true_iff in E as [_ E]. unfold open_task, set_status. cbn.
    rewrite E. now rewrite !andb_true_r.
  - unfold ack_task.
    destruct (String.eqb (lower s) "done" || String.eqb (lower s) "failed") eqn:G;
      cbn [negb fst]; auto.
    destruct (scalar_one_or_none _) as [[t|]|e]; cbn [fst]; auto.
    destruct ok; cbn [fst]; auto.
    split; [|reflexivity]. intros Hopen sid' key' kind'. cbn [tasks].
    etransitivity; [|apply (Hopen sid' key' kind')].
    apply filter_map_shrinks. intros u. destruct (id u =? tid); auto.
    unfold open_task, set_status. cbn.
    apply orb_true_iff in G as [G | G]; apply String.eqb_eq in G; rewrite G; cbn;
      now rewrite andb_false_r.
Qed.

End Queue.

(** C4 as stated fails at the acknowledgment: [ack_task] does not look at
    the current status. A pending task that was never pulled becomes done,
    and a done task becomes failed. *)
Lemma ack_task_ignores_current_status :
  tasks (handle Samples.canonical_uuid (AckTask true 1 "done") Samples.sample_db)
  = [mkTask 1 "srv1" "add_key" Samples.key1 (Some "a@example.org") "done"]
  /\ tasks (handle Samples.canonical_uuid (AckTask true 1 "FAILED")
              (handle Samples.canonical_uuid (AckTask true 1 "done") Samples.sample_db))
     = [mkTask 1 "srv1" "add_key" Samples.key1 (Some "a@example.org") "failed"]
  /\ map status (tasks Samples.sample_db) = ["pending"].
Proof. repeat split; reflexivity. Qed.

Lemma create_rejects_duplicate_witness :
  add_key Samples.canonical_uuid true Samples.key2 "srv1" " b@example.org "
          (Some (" " ++ Samples.key1 ++ " ")%string) Samples.sample_db
  = (Samples.sample_db, Raise (HTTPException 409))
  /\ remove_key Samples.canonical_uuid true "srv1" Samples.key1 Samples.sample_db
     = (mkDb [mkServer "srv1" true] []
             [mkTask 1 "srv1" "add_key" Samples.key1 (Some "a@example.org") "pending";
              mkTask 2 "srv1" "del_key" Samples.key1 None "pending"],
        Ok (mkCreated 2 Samples.key1)).
Proof.
  assert (Hopen : open_unique Samples.sample_db).
  { intros sid key kind. apply (filter_length_le _ (tasks Samples.sample_db)). }
  assert (Hsrv : servers_unique Samples.sample_db).
  { intros sid. apply (filter_length_le _ (servers Samples.sample_db)). }
  destruct (create_rejects_duplicate string Samples.canonical_uuid true Samples.key2 "srv1"
              " b@example.org " Samples.key1 (Some (" " ++ Samples.key1 ++ " ")%string)
              (mkServer "srv1" true) Samples.sample_db
              Hopen Hsrv (or_introl eq_refl) eq_refl eq_refl eq_refl)
    as (Hadd & _ & Hdel).
  split.
  - apply (proj1 (Hadd eq_refl)).
    exists (mkTask 1 "srv1" "add_key" Samples.key1 (Some "a@example.org") "pending").
    split; [now left | reflexivity].
  - apply Hdel; [|reflexivity].
    intros t [<- | []]. reflexivity.
Defined.

Lemma handle_keeps_invariants_witness :
  (List.length (filter (open_task "srv1" Samples.key1 "del_key")
                  (tasks (handle Samples.canonical_uuid (RemoveKey true "srv1" Samples.key1)
                                 Samples.sample_db))) <= 1)%nat.
Proof.
  apply (proj1 (handle_keeps_invariants string Samples.canonical_uuid
                  (RemoveKey true "srv1" Samples.key1) Samples.sample_db)).
  intros sid key kind. apply (filter_length_le _ (tasks Samples.sample_db)).
Defined.

(** C9 as stated fails where no queued duplicate exists and still no task
    is created: the request names a server that is not registered (404) or
    a key that is not a UUID (400). *)
Lemma creation_refused_without_duplicate :
  add_key Samples.canonical_uuid true Samples.key2 "ghost" "a@example.org" None Samples.sample_db
  = (Samples.sample_db, Raise (HTTPException 404))
  /\ remove_key Samples.canonical_uuid true "srv1" "not-a-uuid" Samples.sample_db
     = (Samples.sample_db, Raise (HTTPException 400))
  /\ filter (open_task "ghost" Samples.key2 "add_key") (tasks Samples.sample_db) = []
  /\ filter (open_task "srv1" "not-a-uuid" "del_key") (tasks Samples.sample_db) = [].
Proof. repeat split; reflexivity. Qed.

End CentralQueue.


(** ** ConfigMutator: what a batch leaves alone *)
Module AgentFrame.
Import Py Agent.

Lemma kept_refl b : kept b b.
Proof. repeat split. Qed.

Lemma kept_trans b1 b2 b3 : kept b1 b2 -> kept b2 b3 -> kept b1 b3.
Proof.
  intros (P1 & O1 & S1 & V1) (P2 & O2 & S2 & V2). repeat split; try congruence.
  intros Hv. rewrite V2; [now apply V1|].
  now rewrite (AgentConfig.is_vless_protocol _ _ P1).
Qed.

Lemma apply_to_inbound_kept action user_id email b changed :
  is_vless b = true -> kept b (fst (apply_to_inbound action user_id email b changed)).
Proof.
  intros Hv. unfold apply_to_inbound, setdefault_clients, set_clients, kept, settings_other_of.
  destruct (settings b) as [st|]; cbn [settings settings_other clients];
    (destruct (String.eqb action "add_key");
     [destruct (negb (existsb _ _))
     | destruct (String.eqb action "del_key"); [destruct (negb (Nat.eqb _ _))|]]);
    cbn; repeat split; congruence.
Qed.

Lemma for_inbounds_kept action user_id email bs : forall changed,
  Forall2 kept bs (fst (for_inbounds action user_id email bs changed)).
Proof.
  induction bs as [|b bs IH]; intros changed; cbn [for_inbounds]; [constructor|].
  destruct (is_vless b) eqn:Hv.
  - pose proof (apply_to_inbound_kept action user_id email b changed Hv) as Hk.
    destruct (apply_to_inbound action user_id email b changed) as [b' ch]. cbn [fst] in Hk.
    specialize (IH ch). destruct (for_inbounds action user_id email bs ch) as [bs' ch'].
    cbn [fst] in *. now constructor.
  - specialize (IH changed). destruct (for_inbounds action user_id email bs changed) as [bs' ch'].
    cbn [fst] in *. constructor; [apply kept_refl | exact IH].
Qed.

Lemma Forall2_kept_refl bs : Forall2 kept bs bs.
Proof. induction bs; constructor; auto using kept_refl. Qed.

Lemma Forall2_kept_trans bs1 : forall bs2 bs3,
  Forall2 kept bs1 bs2 -> Forall2 kept bs2 bs3 -> Forall2 kept bs1 bs3.
Proof.
  induction bs1 as [|b bs1 IH]; intros bs2 bs3 H12 H23; inversion H12; subst;
    inversion H23; subst; constructor; eauto using kept_trans.
Qed.

Lemma fold_apply_task_kept tasks : forall bs changed,
  Forall2 kept bs (fst (fold_left (fun st t => apply_task t st) tasks (bs, changed))).
Proof.
  induction tasks as [|t ts IH]; intros bs changed; cbn [fold_left fst].
  - apply Forall2_kept_refl.
  - assert (Forall2 kept bs (fst (apply_task t (bs, changed)))) as H1.
    { unfold apply_task. destruct (Nat.eqb _ _); cbn [fst snd];
        [apply Forall2_kept_refl | apply for_inbounds_kept]. }
    destruct (apply_task t (bs, changed)) as [bs1 c1]. cbn [fst] in H1.
    eapply Forall2_kept_trans; [exact H1 | apply IH].
Qed.

Lemma kept_maps bs bs' :
  Forall2 kept bs bs' ->
  map protocol bs' = map protocol bs
  /\ map inbound_other bs' = map inbound_other bs
  /\ map settings_other_of bs' = map settings_other_of bs
  /\ filter (fun b => negb (is_vless b)) bs' = filter (fun b => negb (is_vless b)) bs.
Proof.
  induction 1 as [|b b' bs bs' (P & O & S & V) _ (IH1 & IH2 & IH3 & IH4)]; cbn [map filter].
  - auto.
  - rewrite P, O, S, IH1, IH2, IH3, (AgentConfig.is_vless_protocol _ _ P).
    repeat split. destruct (is_vless b) eqn:Hv; cbn [negb]; [exact IH4|].
    now rewrite (V eq_refl), IH4.
Qed.

(** The entries of another id pass through one task unchanged. *)
Lemma step_list_other_id action user_id email k l :
  user_id <> k ->
  filter (client_has_id k) (step_list action user_id email l) = filter (client_has_id k) l.
Proof.
  intros Hne. unfold step_list.
  destruct (String.eqb action "add_key").
  - destruct (existsb _ _); [reflexivity|].
    rewrite filter_app. cbn [filter]. unfold client_has_id at 2, new_client. cbn.
    apply String.eqb_neq in Hne. rewrite Hne. apply app_nil_r.
  - destruct (String.eqb action "del_key"); [|reflexivity].
    induction l as [|c l IH]; cbn [filter]; [reflexivity|].
    destruct (client_has_id user_id c) eqn:Eu; cbn [negb filter].
    + destruct (client_has_id k c) eqn:Ek; [|exact IH].
      exfalso. unfold client_has_id, eq_str in Eu, Ek.
      destruct (dict_get c "id") as [[| | |t]|]; try discriminate.
      apply String.eqb_eq in Eu, Ek. congruence.
    + destruct (client_has_id k c); [now rewrite IH | exact IH].
Qed.

Lemma fold_task_step_other_id tasks k : forall l,
  (forall t, In t tasks -> task_user_id t <> k) ->
  filter (client_has_id k) (fold_left (fun l t => task_step t l) tasks l)
  = filter (client_has_id k) l.
Proof.
  induction tasks as [|t ts IH]; intros l H; cbn [fold_left]; [reflexivity|].
  rewrite IH by (intros u Hu; apply H; now right).
  unfold task_step. destruct (Nat.eqb _ _); [reflexivity|].
  apply step_list_other_id. apply H. now left.
Qed.

Lemma filter_filter_and {A : Type} (f g : A -> bool) (l : list A) :
  filter f (filter g l) = filter (fun x => g x && f x) l.
Proof.
  induction l as [|a l IH]; cbn [filter]; [reflexivity|].
  destruct (g a); cbn [filter andb]; [destruct (f a)|]; now rewrite IH.
Qed.

Lemma added_by_cons t ts c : added_by ts c -> added_by (t :: ts) c.
Proof. intros (u & Hu & H). exists u. split; [now right | exact H]. Qed.

(** What a batch makes of one user list: the entries it found, in their
    order, less those a [del_key] task names, then entries built by
    [add_key] tasks. *)
Lemma fold_task_step_shape tasks : forall l,
  exists news,
    fold_left (fun l t => task_step t l) tasks l
    = filter (fun c => negb (deleted_by tasks c)) l ++ news
    /\ Forall (added_by tasks) news.
Proof.
  induction tasks as [|t ts IH]; intros l; cbn [fold_left].
  - exists []. split; [|constructor]. rewrite app_nil_r. symmetry.
    induction l as [|c l IHl]; [reflexivity|].
    unfold deleted_by in *. cbn [existsb negb filter] in *. now rewrite IHl.
  - destruct (IH (task_step t l)) as (news & E & Hn). rewrite E. clear E.
    assert (Hw : Forall (added_by (t :: ts)) news).
    { eapply Forall_impl; [|exact Hn]. intros c. apply added_by_cons. }
    unfold task_step, deleted_by. cbn [existsb]. fold (deleted_by ts).
    destruct (String.length (task_user_id t) =? 0)%nat eqn:El; cbn [negb andb orb].
    { exists news. split; [reflexivity | exact Hw]. }
    assert (task_user_id t <> "") as Hne by (intros H; rewrite H in El; discriminate).
    unfold step_list. destruct (String.eqb (task_action t) "add_key") eqn:Ea.
    + apply String.eqb_eq in Ea. rewrite Ea. cbn [String.eqb Ascii.eqb Bool.eqb andb orb].
      destruct (existsb (client_has_id (task_user_id t)) l).
      * exists news. split; [reflexivity | exact Hw].
      * rewrite filter_app, <- app_assoc. eexists. split; [reflexivity|].
        apply Forall_app. split; [|exact Hw].
        cbn [filter]. destruct (negb _); constructor; [|constructor].
        exists t. repeat split; auto. now left.
    + destruct (String.eqb (task_action t) "del_key") eqn:Ed; cbn [andb orb].
      * exists news. split; [|exact Hw]. f_equal. rewrite filter_filter_and.
        apply filter_ext. intros c. now rewrite negb_orb.
      * exists news. split; [reflexivity | exact Hw].
Qed.

(** The entries that no task names pass through the batch. *)
Lemma fold_task_step_unnamed tasks : forall l,
  filter (fun c => negb (named_by tasks c)) (fold_left (fun l t => task_step t l) tasks l)
  = filter (fun c => negb (named_by tasks c)) l.
Proof.
  intros l. destruct (fold_task_step_shape tasks l) as (news & -> & Hn).
  rewrite filter_app, filter_filter_and.
  assert (filter (fun c => negb (named_by tasks c)) news = []) as ->.
  { apply CentralQueue.filter_no_hit. intros c Hc. rewrite Forall_forall in Hn.
    destruct (Hn c Hc) as (t & Ht & _ & _ & ->). apply negb_false_iff.
    unfold named_by. apply existsb_exists. exists t. split; [exact Ht|].
    apply AgentConfig.new_client_has_id. }
  rewrite app_nil_r. apply filter_ext_in. intros c _.
  destruct (named_by tasks c) eqn:En; cbn [negb]; [apply andb_false_r|].
  rewrite andb_true_r. apply negb_true_iff.
  destruct (deleted_by tasks c) eqn:Ed; [|reflexivity].
  unfold deleted_by in Ed. apply existsb_exists in Ed as (t & Ht & H).
  apply andb_true_iff in H as [_ H].
  assert (named_by tasks c = true) as Hc.
  { unfold named_by. apply existsb_exists. now exists t. }
  congruence.
Qed.

(** X5. Whatever the batch, [apply_tasks] leaves in the configuration
    every top-level key other than the inbounds, the number, order,
    protocol and other keys of the inbounds, and every inbound that is
    not a vless listener. On each vless listener the user list it leaves
    is the list it found, in its order, less the entries that a [del_key]
    task of the batch names, followed by entries built by [add_key]
    tasks of the batch. So the entries that no task names (those without
    an id or with an id that is no string among them) stand as they
    stood, in the same order. *)
Theorem apply_tasks_frame (tasks : list dict) (cfg : config) :
  let cfg' := fst (mutate tasks cfg) in
  config_other cfg' = config_other cfg
  /\ map protocol (inbounds_of cfg') = map protocol (inbounds_of cfg)
  /\ map inbound_other (inbounds_of cfg') = map inbound_other (inbounds_of cfg)
  /\ map settings_other_of (inbounds_of cfg') = map settings_other_of (inbounds_of cfg)
  /\ filter (fun b => negb (is_vless b)) (inbounds_of cfg')
     = filter (fun b => negb (is_vless b)) (inbounds_of cfg)
  /\ Forall2 (fun before after =>
                exists news,
                  after = filter (fun c => negb (deleted_by tasks c)) before ++ news
                  /\ Forall (added_by tasks) news)
             (vless_clients cfg) (vless_clients cfg')
  /\ map (filter (fun c => negb (named_by tasks c))) (vless_clients cfg')
     = map (filter (fun c => negb (named_by tasks c))) (vless_clients cfg)
  /\ (forall k, (forall t, In t tasks -> task_user_id t <> k) ->
                map (filter (client_has_id k)) (vless_clients cfg')
                = map (filter (client_has_id k)) (vless_clients cfg)).
Proof.
  cbv zeta.
  assert (Forall2 kept (inbounds_of cfg) (inbounds_of (fst (mutate tasks cfg)))) as H.
  { unfold mutate, inbounds_of. destruct (inbounds cfg) as [bs|] eqn:E.
    - pose proof (fold_apply_task_kept tasks bs false) as H.
      destruct (fold_left _ tasks (bs, false)) as [bs' ch]. exact H.
    - cbn [fst]. rewrite E. constructor. }
  destruct (kept_maps _ _ H) as (H1 & H2 & H3 & H4).
  split; [|split; [exact H1 | split; [exact H2 | split; [exact H3 | split; [exact H4|]]]]].
  - unfold mutate. destruct (inbounds cfg); [|reflexivity].
    now destruct (fold_left _ tasks (l, false)).
  - rewrite AgentConfig.mutate_clients. split; [|split].
    + induction (vless_clients cfg) as [|l ls IH]; cbn [map]; constructor; [|exact IH].
      apply fold_task_step_shape.
    + rewrite map_map. apply map_ext. intros l. apply fold_task_step_unnamed.
    + intros k Hk. rewrite map_map. apply map_ext. intros l.
      now apply fold_task_step_other_id.
Qed.

Lemma apply_tasks_frame_witness :
  map (filter (client_has_id "u1"))
      (vless_clients (fst (mutate [Samples.task "add_key" "k1" 7; Samples.task "del_key" "k2" 8]
                                  Samples.sample_config)))
  = [[Samples.user "u1" "a@example.org"]; []].
Proof.
  destruct (apply_tasks_frame [Samples.task "add_key" "k1" 7; Samples.task "del_key" "k2" 8]
              Samples.sample_config) as (_ & _ & _ & _ & _ & _ & _ & H).
  rewrite (H "u1"); [reflexivity|].
  intros t [<- | [<- | []]]; discriminate.
Defined.

End AgentFrame.

(** ** ConfigMutator and Acknowledger: whole batches *)
Module AgentBatch.
Import Py Agent.

Lemma task_step_add add K l :
  task_action add = "add_key" -> task_user_id add = K -> K <> "" ->
  existsb (client_has_id K) l = false ->
  task_step add l = l ++ [new_client K (task_email add)]
  /\ task_changes add l = true.
Proof.
  intros Ha Hk HK Hex. unfold task_step, task_changes, step_list, step_changes.
  rewrite Hk, (AgentConfig.string_nonempty _ HK), Ha. cbn [String.eqb Ascii.eqb Bool.eqb andb].
  now rewrite Hex.
Qed.

Lemma task_step_del del K l :
  task_action del = "del_key" -> task_user_id del = K -> K <> "" ->
  task_step del l = filter (fun c => negb (client_has_id K c)) l.
Proof.
  intros Hd Hk HK. unfold task_step, step_list.
  rewrite Hk, (AgentConfig.string_nonempty _ HK), Hd. reflexivity.
Qed.

(** What [apply_tasks] does once the flag is raised and the write works. *)
Lemma apply_tasks_changed tasks w cfg :
  config_file w = Some cfg -> write_ok w = true -> snd (mutate tasks cfg) = true ->
  fst (apply_tasks tasks w) = mkWorld (Some (fst (mutate tasks cfg))) true (reload_rc w)
  /\ exists rest,
       snd (apply_tasks tasks w)
       = WriteConfig (fst (mutate tasks cfg)) true :: Systemctl "reload" :: rest
       /\ (reload_rc w = Some 0 -> rest = []).
Proof.
  intros Hc Hw Hm. unfold apply_tasks. rewrite Hc.
  destruct (mutate tasks cfg) as [cfg' ch]. cbn [fst snd] in *. subst ch. rewrite Hw.
  destruct (reload_rc w) as [rc|] eqn:Hr.
  - destruct (rc =? 0) eqn:E; cbn [negb fst snd]; (split; [reflexivity|]); eexists;
      (split; [reflexivity|]); intros H; [reflexivity|].
    injection H as ->. discriminate.
  - cbn [fst snd]. split; [reflexivity|]. eexists. split; [reflexivity|]. discriminate.
Qed.

(** X6. A batch that adds a key no vless listener holds and then deletes
    it leaves every user list as it found it, and is written and reloaded
    all the same (when there is a vless listener and the write works): the
    flag records that entries changed, not that the outcome differs. *)
Theorem add_then_del_is_written (w : world) (cfg : config) (add del : dict) (K : string) :
  config_file w = Some cfg -> write_ok w = true ->
  task_action add = "add_key" -> task_user_id add = K ->
  task_action del = "del_key" -> task_user_id del = K -> K <> "" ->
  vless_clients cfg <> [] ->
  Forall (fun l => count_id K l = 0%nat) (vless_clients cfg) ->
  vless_clients (fst (mutate [add; del] cfg)) = vless_clients cfg
  /\ exists rest,
       snd (apply_tasks [add; del] w)
       = WriteConfig (fst (mutate [add; del] cfg)) true :: Systemctl "reload" :: rest.
Proof.
  intros Hc Hw Ha Hka Hd Hkd HK Hne Hall. split.
  - rewrite AgentConfig.mutate_clients. rewrite <- (map_id (vless_clients cfg)) at 2.
    apply map_ext_in. intros l Hl. cbn [fold_left].
    rewrite Forall_forall in Hall. specialize (Hall l Hl).
    apply AgentConfig.count_id_zero in Hall.
    destruct (task_step_add add K l Ha Hka HK Hall) as [-> _].
    rewrite (task_step_del del K _ Hd Hkd HK), filter_app. cbn [filter].
    rewrite AgentConfig.new_client_has_id. cbn [negb].
    now rewrite (AgentConfig.filter_negb_none _ _ Hall), app_nil_r.
  - destruct (apply_tasks_changed [add; del] w cfg Hc Hw) as (_ & rest & E & _).
    + rewrite AgentConfig.mutate_cons. cbn [snd].
      destruct (AgentConfig.mutate_single add cfg) as [_ ->].
      destruct (vless_clients cfg) as [|l ls]; [congruence|].
      apply Forall_inv in Hall. apply AgentConfig.count_id_zero in Hall.
      cbn [existsb]. now rewrite (proj2 (task_step_add add K l Ha Hka HK Hall)).
    + now exists rest.
Qed.

Lemma add_then_del_is_written_witness :
  vless_clients (fst (mutate [Samples.task "add_key" "k1" 7; Samples.task "del_key" "k1" 8]
                             Samples.sample_config))
  = vless_clients Samples.sample_config
  /\ snd (apply_tasks [Samples.task "add_key" "k1" 7; Samples.task "del_key" "k1" 8]
                      Samples.sample_world)
     = [WriteConfig (fst (mutate [Samples.task "add_key" "k1" 7; Samples.task "del_key" "k1" 8]
                                 Samples.sample_config)) true;
        Systemctl "reload"].
Proof.
  destruct (add_then_del_is_written Samples.sample_world Samples.sample_config
              (Samples.task "add_key" "k1" 7) (Samples.task "del_key" "k1" 8) "k1"
              eq_refl eq_refl eq_refl eq_refl eq_refl eq_refl
              ltac:(discriminate) ltac:(discriminate) ltac:(repeat constructor))
    as [H1 _].
  split; [exact H1 | reflexivity].
Defined.

(** X7. End to end on the agent, for any two distinct keys: the pulled
    batch [add_key K1, del_key K2] against a configuration whose only vless
    listener holds entries of K2 alone leaves that listener with the one
    new entry of K1, writes the configuration once, requests one reload and
    no restart (the reload succeeding), and then posts the two
    acknowledgments with status "done", in task order. *)
Theorem end_to_end_batch (central token server_id K1 K2 : string) (add del : dict)
  (id1 id2 : Z) (l : list dict) (w : world) (cfg : config) :
  central <> "" -> token <> "" ->
  task_action add = "add_key" -> task_user_id add = K1 -> K1 <> "" ->
  task_action del = "del_key" -> task_user_id del = K2 -> K2 <> "" ->
  K1 <> K2 ->
  dict_get add "task_id" = Some (VInt id1) -> dict_get del "task_id" = Some (VInt id2) ->
  config_file w = Some cfg -> write_ok w = true -> reload_rc w = Some 0 ->
  vless_clients cfg = [l] -> l <> [] -> forallb (client_has_id K2) l = true ->
  let r := pull_step central token server_id (RespList [add; del]) w in
  let cfg' := fst (mutate [add; del] cfg) in
  vless_clients cfg' = [[new_client K1 (task_email add)]]
  /\ fst r = mkWorld (Some cfg') true (Some 0)
  /\ snd r = [HttpGet (central ++ "/tasks?server_id=" ++ server_id)%string;
              WriteConfig cfg' true;
              Systemctl "reload";
              HttpPost (ack_url central id1) [("status", VStr "done")];
              HttpPost (ack_url central id2) [("status", VStr "done")]].
Proof.
  intros Hcen Htok Ha Hk1 HK1 Hd Hk2 HK2 Hne Hi1 Hi2 Hc Hw Hr Hl Hnil Hall r cfg'.
  assert (Hex : existsb (client_has_id K1) l = false).
  { clear - Hall Hne. induction l as [|c l IH]; cbn [existsb forallb] in *; [reflexivity|].
    apply andb_true_iff in Hall as [Hc Hall]. rewrite (IH Hall), orb_false_r.
    unfold client_has_id, eq_str in *.
    destruct (dict_get c "id") as [[| | |t]|]; try reflexivity.
    apply String.eqb_eq in Hc. subst t. apply String.eqb_neq. congruence. }
  assert (Hclients : vless_clients cfg' = [[new_client K1 (task_email add)]]).
  { subst cfg'. rewrite AgentConfig.mutate_clients, Hl. cbn [map fold_left]. do 2 f_equal.
    destruct (task_step_add add K1 l Ha Hk1 HK1 Hex) as [-> _].
    rewrite (task_step_del del K2 _ Hd Hk2 HK2), filter_app. cbn [filter].
    replace (client_has_id K2 (new_client K1 (task_email add))) with false.
    2: { unfold client_has_id, new_client. cbn. symmetry. now apply String.eqb_neq. }
    cbn [negb]. clear - Hall. induction l as [|c l IH]; cbn [filter forallb] in *; [reflexivity|].
    apply andb_true_iff in Hall as [-> Hall]. cbn [negb]. now apply IH. }
  assert (Hch : snd (mutate [add; del] cfg) = true).
  { rewrite AgentConfig.mutate_cons. cbn [snd].
    destruct (AgentConfig.mutate_single add cfg) as [_ ->]. rewrite Hl. cbn [existsb].
    now rewrite (proj2 (task_step_add add K1 l Ha Hk1 HK1 Hex)). }
  destruct (apply_tasks_changed [add; del] w cfg Hc Hw Hch) as (Hfst & rest & Hsnd & Hrest).
  specialize (Hrest Hr). subst rest. rewrite Hr in Hfst. fold cfg' in Hfst, Hsnd.
  split; [exact Hclients|].
  subst r. unfold pull_step.
  rewrite (AgentConfig.string_nonempty _ Hcen), (AgentConfig.string_nonempty _ Htok).
  cbn [negb andb]. destruct (apply_tasks [add; del] w) as [w' evs]. cbn [fst snd] in *.
  subst w' evs. unfold done_ids. cbn [flat_map]. rewrite Hi1, Hi2. split; reflexivity.
Qed.

Lemma end_to_end_batch_witness :
  pull_step "https://c" "secret" "srv1"
            (RespList [Samples.task "add_key" Samples.key1 7; Samples.task "del_key" Samples.key2 8])
            (mkWorld (Some (mkConfig (Some [Samples.vless_inbound
                                              (Some [Samples.user Samples.key2 "b@example.org"])]) []))
                     true (Some 0))
  = (mkWorld (Some (mkConfig (Some [Samples.vless_inbound
                                      (Some [Samples.user Samples.key1 "k@example.org"])]) []))
             true (Some 0),
     [HttpGet "https://c/tasks?server_id=srv1";
      WriteConfig (mkConfig (Some [Samples.vless_inbound
                                     (Some [Samples.user Samples.key1 "k@example.org"])]) []) true;
      Systemctl "reload";
      HttpPost "https://c/tasks/7/ack" [("status", VStr "done")];
      HttpPost "https://c/tasks/8/ack" [("status", VStr "done")]]).
Proof.
  destruct (end_to_end_batch "https://c" "secret" "srv1" Samples.key1 Samples.key2
              (Samples.task "add_key" Samples.key1 7) (Samples.task "del_key" Samples.key2 8)
              7 8 [Samples.user Samples.key2 "b@example.org"]
              (mkWorld (Some (mkConfig (Some [Samples.vless_inbound
                                                (Some [Samples.user Samples.key2 "b@example.org"])]) []))
                       true (Some 0))
              (mkConfig (Some [Samples.vless_inbound
                                 (Some [Samples.user Samples.key2 "b@example.org"])]) [])
              ltac:(discriminate) ltac:(discriminate) eq_refl eq_refl ltac:(discriminate)
              eq_refl eq_refl ltac:(discriminate) ltac:(discriminate) eq_refl eq_refl
              eq_refl eq_refl eq_refl eq_refl ltac:(discriminate) eq_refl)
    as (_ & Hw & Hev).
  rewrite (surjective_pairing (pull_step _ _ _ _ _)), Hw, Hev. reflexivity.
Defined.

End AgentBatch.

(** ** Facts about the string built-ins *)
Module PyFacts.
Import Py.

Lemma append_assoc (a b c : string) : ((a ++ b) ++ c = a ++ (b ++ c))%string.
Proof. induction a as [|x a IH]; cbn; [reflexivity | now rewrite IH]. Qed.

Lemma append_nil_r (a : string) : (a ++ "" = a)%string.
Proof. induction a as [|x a IH]; cbn; [reflexivity | now rewrite IH]. Qed.

Lemma lstrip_pad pad s : string_all isspace pad = true -> lstrip (pad ++ s) = lstrip s.
Proof.
  induction pad as [|c pad IH]; cbn [string_all append lstrip]; [reflexivity|].
  intros H. apply andb_true_iff in H as [-> H]. now apply IH.
Qed.

Lemma rstrip_all_space pad : string_all isspace pad = true -> rstrip pad = "".
Proof.
  induction pad as [|c pad IH]; cbn [string_all rstrip]; [reflexivity|].
  intros H. apply andb_true_iff in H as [Hc H]. now rewrite (IH H), Hc.
Qed.

Lemma rstrip_pad s pad : string_all isspace pad = true -> rstrip (s ++ pad) = rstrip s.
Proof.
  intros H. induction s as [|c s IH]; cbn [append rstrip].
  - now apply rstrip_all_space.
  - now rewrite IH.
Qed.

Lemma rstrip_cons_nonspace c s : isspace c = false -> rstrip (String c s) = String c (rstrip s).
Proof. intros H. cbn [rstrip]. rewrite H. now destruct (rstrip s). Qed.

Lemma rstrip_app a b : rstrip b <> "" -> rstrip (a ++ b) = (a ++ rstrip b)%string.
Proof.
  intros H. induction a as [|c a IH]; cbn [append rstrip]; [reflexivity|].
  rewrite IH. destruct (a ++ rstrip b)%string eqn:E; [|reflexivity].
  destruct a; cbn in E; [congruence | discriminate].
Qed.

Lemma strip_no_space s :
  string_all (fun c => negb (isspace c)) s = true -> lstrip s = s /\ rstrip s = s.
Proof.
  induction s as [|c s IH]; cbn [string_all]; [auto|].
  intros H. apply andb_true_iff in H as [Hc H]. apply negb_true_iff in Hc.
  destruct (IH H) as [_ IHr]. split.
  - cbn [lstrip]. now rewrite Hc.
  - now rewrite (rstrip_cons_nonspace _ _ Hc), IHr.
Qed.

Lemma split_first_app ch k v :
  string_all (fun c => negb (Ascii.eqb c ch)) k = true ->
  split_first ch (k ++ String ch v) = Some (k, v).
Proof.
  induction k as [|c k IH]; cbn [string_all append split_first].
  - intros _. now rewrite Ascii.eqb_refl.
  - intros H. apply andb_true_iff in H as [Hc H]. apply negb_true_iff in Hc.
    now rewrite Hc, (IH H).
Qed.

Lemma startswith_app p s : startswith p s = true -> s = (p ++ drop (String.length p) s)%string.
Proof.
  revert s. induction p as [|a p IH]; intros s; cbn [startswith String.length drop append].
  - reflexivity.
  - destruct s as [|b s]; [discriminate|]. intros H. apply andb_true_iff in H as [Hab H].
    apply Ascii.eqb_eq in Hab. subst b. f_equal. now apply IH.
Qed.

Lemma startswith_prefix p s : startswith p (p ++ s) = true.
Proof. induction p as [|a p IH]; cbn; [reflexivity | now rewrite Ascii.eqb_refl]. Qed.

Lemma drop_prefix p s : drop (String.length p) (p ++ s) = s.
Proof. induction p as [|a p IH]; cbn; [reflexivity | exact IH]. Qed.

Lemma rstrip_char_no_trailing ch s : forall t, rstrip_char ch s <> (t ++ String ch "")%string.
Proof.
  induction s as [|c s IH]; intros t; cbn [rstrip_char].
  - destruct t; discriminate.
  - destruct (rstrip_char ch s) as [|d r] eqn:E.
    + destruct (Ascii.eqb c ch) eqn:Ec.
      * destruct t; discriminate.
      * destruct t as [|x t]; cbn.
        -- intros H. injection H as ->. now rewrite Ascii.eqb_refl in Ec.
        -- intros H. injection H as _ H. destruct t; discriminate.
    + destruct t as [|x t]; cbn.
      * discriminate.
      * intros H. injection H as _ H. now apply (IH t).
Qed.

Lemma lower_char_idempotent c : lower_char (lower_char c) = lower_char c.
Proof.
  destruct c as [[] [] [] [] [] [] [] []]; reflexivity.
Qed.

Lemma lower_idempotent s : lower (lower s) = lower s.
Proof.
  induction s as [|c s IH]; cbn [lower]; [reflexivity|].
  now rewrite lower_char_idempotent, IH.
Qed.

End PyFacts.

(** ** Startup: [load_env] and the prologue of [run_loop] *)
Module AgentStartup.
Import Py Agent.

Lemma env_get_set k v env k' :
  env_get (env_set k v env) k' = if String.eqb k k' then Some v else env_get env k'.
Proof.
  induction env as [|[k0 v0] env IH]; cbn [env_set env_get].
  - reflexivity.
  - destruct (String.eqb k0 k) eqn:E0; cbn [env_get].
    + apply String.eqb_eq in E0. subst k0. now destruct (String.eqb k k').
    + rewrite IH. destruct (String.eqb k0 k') eqn:E1; [|reflexivity].
      apply String.eqb_eq in E1. subst k0. rewrite String.eqb_sym in E0. now rewrite E0.
Qed.

Lemma load_env_lines_snoc ls line :
  load_env_lines (ls ++ [line]) = load_env_line (load_env_lines ls) line.
Proof. unfold load_env_lines. now rewrite fold_left_app. Qed.

Lemma string_all_weaken (f g : ascii -> bool) s :
  (forall c, f c = true -> g c = true) -> string_all f s = true -> string_all g s = true.
Proof.
  intros Hfg. induction s as [|c s IH]; cbn [string_all]; [reflexivity|].
  intros H. apply andb_true_iff in H as [Hc H]. now rewrite (Hfg c Hc), (IH H).
Qed.

Lemma string_all_app f a b :
  string_all f a = true -> string_all f b = true -> string_all f (a ++ b) = true.
Proof.
  intros Ha Hb. induction a as [|c a IH]; cbn [string_all append] in *; [exact Hb|].
  apply andb_true_iff in Ha as [-> Ha]. now apply IH.
Qed.

Lemma lstrip_head_nonspace k s :
  k <> "" -> string_all (fun c => negb (isspace c)) k = true -> lstrip (k ++ s) = (k ++ s)%string.
Proof.
  intros Hk Hks. destruct k as [|c k]; [congruence|]. cbn [string_all] in Hks.
  apply andb_true_iff in Hks as [Hc _]. apply negb_true_iff in Hc.
  cbn [append lstrip]. now rewrite Hc.
Qed.

(** The trimmed value part of an assignment line. *)
Lemma strip_value pad v :
  string_all isspace pad = true -> lstrip v = v -> rstrip v = v ->
  strip (rstrip (pad ++ v)) = v.
Proof.
  intros Hp Hl Hr. destruct v as [|c v].
  - rewrite PyFacts.append_nil_r, (PyFacts.rstrip_all_space _ Hp). reflexivity.
  - rewrite PyFacts.rstrip_app by (rewrite Hr; discriminate).
    rewrite Hr. unfold strip. now rewrite (PyFacts.lstrip_pad _ _ Hp), Hl, Hr.
Qed.

(** The line [KEY = VALUE], with or without blanks, as [load_env] splits it. *)
Lemma load_env_line_assignment env pad1 k pad3 pad4 v pad2 :
  string_all isspace pad1 = true -> string_all isspace pad2 = true ->
  string_all isspace pad3 = true -> string_all isspace pad4 = true ->
  k <> "" ->
  string_all (fun c => negb (isspace c) && negb (Ascii.eqb c "=")) k = true ->
  startswith "#" k = false ->
  lstrip v = v -> rstrip v = v ->
  load_env_line env (pad1 ++ k ++ pad3 ++ "=" ++ pad4 ++ v ++ pad2) = env_set k v env.
Proof.
  intros H1 H2 H3 H4 Hk Hka Hhash Hvl Hvr.
  assert (Hks : string_all (fun c => negb (isspace c)) k = true).
  { revert Hka. apply string_all_weaken. intros c H. now apply andb_true_iff in H. }
  assert (Hke : string_all (fun c => negb (Ascii.eqb c "=")) k = true).
  { revert Hka. apply string_all_weaken. intros c H. now apply andb_true_iff in H. }
  assert (H3e : string_all (fun c => negb (Ascii.eqb c "=")) pad3 = true).
  { revert H3. apply string_all_weaken. intros c H.
    destruct (Ascii.eqb c "=") eqn:E; [|reflexivity].
    apply Ascii.eqb_eq in E. subst c. discriminate. }
  assert (Hstrip : strip (pad1 ++ k ++ pad3 ++ "=" ++ pad4 ++ v ++ pad2)
                   = ((k ++ pad3) ++ String "=" (rstrip (pad4 ++ v)))%string).
  { unfold strip. rewrite (PyFacts.lstrip_pad pad1 _ H1), (lstrip_head_nonspace _ _ Hk Hks).
    replace (k ++ pad3 ++ "=" ++ pad4 ++ v ++ pad2)%string
      with ((k ++ pad3) ++ ("=" ++ (pad4 ++ v) ++ pad2))%string
      by (rewrite !PyFacts.append_assoc; reflexivity).
    rewrite PyFacts.rstrip_app.
    - cbn [append]. rewrite (PyFacts.rstrip_cons_nonspace "=" _ eq_refl).
      now rewrite (PyFacts.rstrip_pad _ _ H2).
    - cbn [append]. now rewrite (PyFacts.rstrip_cons_nonspace "=" _ eq_refl). }
  unfold load_env_line. rewrite Hstrip.
  assert (Hfirst : exists c rest, ((k ++ pad3) ++ String "=" (rstrip (pad4 ++ v)))%string
                                  = String c rest /\ startswith "#" (String c rest) = false).
  { destruct k as [|c k]; [congruence|]. eexists _, _. split; [reflexivity|].
    cbn [startswith] in *. now destruct (Ascii.eqb "#" c). }
  destruct Hfirst as (c & rest & E & Hs). rewrite E at 1 2. rewrite Hs. cbn [String.length Nat.eqb orb].
  rewrite (PyFacts.split_first_app "=" _ _ (string_all_app _ _ _ Hke H3e)).
  f_equal.
  - unfold strip. rewrite (lstrip_head_nonspace _ _ Hk Hks), (PyFacts.rstrip_pad _ _ H3).
    apply (PyFacts.strip_no_space _ Hks).
  - now apply strip_value.
Qed.

(** X8. [load_env] reads a line [KEY = VALUE] (blanks allowed around the
    line, the key and the value; the key without blanks or [=] and not
    starting with [#]; the value may hold [=] and inner blanks) as the
    assignment of the trimmed value to the key: it overrides what earlier
    lines gave the key and leaves the other keys alone. A line that is
    blank, starts with [#] after trimming or holds no [=] changes nothing,
    and an absent file gives the empty dictionary. *)
Theorem load_env_semantics (ls : list string) :
  (forall pad1 k pad3 pad4 v pad2,
      string_all isspace pad1 = true -> string_all isspace pad2 = true ->
      string_all isspace pad3 = true -> string_all isspace pad4 = true ->
      k <> "" ->
      string_all (fun c => negb (isspace c) && negb (Ascii.eqb c "=")) k = true ->
      startswith "#" k = false ->
      lstrip v = v -> rstrip v = v ->
      let env := load_env_lines (ls ++ [(pad1 ++ k ++ pad3 ++ "=" ++ pad4 ++ v ++ pad2)%string]) in
      env_get env k = Some v
      /\ forall k', k' <> k -> env_get env k' = env_get (load_env_lines ls) k')
  /\ (forall line,
         strip line = "" \/ startswith "#" (strip line) = true
         \/ split_first "=" (strip line) = None ->
         load_env_lines (ls ++ [line]) = load_env_lines ls)
  /\ load_env Missing = Ok [].
Proof.
  split; [|split; [|reflexivity]].
  - intros pad1 k pad3 pad4 v pad2 H1 H2 H3 H4 Hk Hka Hhash Hvl Hvr env. subst env.
    rewrite load_env_lines_snoc, (load_env_line_assignment _ _ _ _ _ _ _ H1 H2 H3 H4 Hk Hka Hhash Hvl Hvr).
    split.
    + now rewrite env_get_set, String.eqb_refl.
    + intros k' Hne. rewrite env_get_set.
      destruct (String.eqb k k') eqn:E; [|reflexivity].
      apply String.eqb_eq in E. congruence.
  - intros line H. rewrite load_env_lines_snoc. unfold load_env_line.
    destruct H as [H | [H | H]].
    + now rewrite H.
    + rewrite H. now rewrite orb_true_r.
    + rewrite H. now destruct (_ || _).
Qed.

Lemma load_env_semantics_witness :
  env_get (load_env_lines ["# agent"; "SERVER_TOKEN=old"; "  SERVER_TOKEN =  a=b c  "]) "SERVER_TOKEN"
  = Some "a=b c"
  /\ load_env_lines ["SERVER_ID=srv1"; "   # note"] = load_env_lines ["SERVER_ID=srv1"].
Proof.
  destruct (load_env_semantics ["# agent"; "SERVER_TOKEN=old"]) as (Hset & _).
  destruct (load_env_semantics ["SERVER_ID=srv1"]) as (_ & Hskip & _).
  split.
  - apply (Hset "  " "SERVER_TOKEN" " " "  " "a=b c" "  "); try reflexivity. discriminate.
  - apply (Hskip "   # note"). right; left. reflexivity.
Defined.

Lemma split_char_nonempty ch s : split_char ch s <> [].
Proof.
  destruct s as [|c s]; cbn [split_char]; [discriminate|].
  destruct (Ascii.eqb c ch); [discriminate|]. destruct (split_char ch s); discriminate.
Qed.

Lemma split_char_app ch a rest :
  split_char ch (a ++ String ch rest) = split_char ch a ++ split_char ch rest.
Proof.
  induction a as [|c a IH]; cbn [append split_char].
  - now rewrite Ascii.eqb_refl.
  - destruct (Ascii.eqb c ch); [now rewrite IH|].
    rewrite IH. pose proof (split_char_nonempty ch a).
    destruct (split_char ch a); [congruence | reflexivity].
Qed.

Lemma split_listen_two_colons a b c :
  split_listen (a ++ ":" ++ b ++ ":" ++ c) = Raise ValueError.
Proof.
  unfold split_listen. cbn [append]. rewrite !split_char_app.
  pose proof (split_char_nonempty ":" a). pose proof (split_char_nonempty ":" b).
  pose proof (split_char_nonempty ":" c).
  destruct (split_char ":" a) as [|x xs]; [congruence|].
  destruct (split_char ":" b) as [|x' xs']; [congruence|].
  destruct (split_char ":" c) as [|x'' xs'']; [congruence|].
  destruct xs as [|y [|z xs]]; cbn [app]; [destruct xs' as [|y' xs']| |]; reflexivity.
Qed.

Lemma int_of_str_raises s e : int_of_str s = Raise e -> e = ValueError.
Proof.
  unfold int_of_str. destruct (strip s) as [|c t].
  - destruct (int_digits false ""); [discriminate | congruence].
  - destruct (Nat.eqb _ 45); [|destruct (Nat.eqb _ 43)];
      destruct (int_digits false _); try discriminate; congruence.
Qed.

Lemma int_or_raises s d e : int_or s d = Raise e -> e = ValueError.
Proof. unfold int_or. destruct (Nat.eqb _ _); [discriminate | apply int_of_str_raises]. Qed.

(** X9. The prologue of [run_loop]: whenever it returns, the control-plane
    base address has no trailing slash; a listening address with two or
    more colons (an IPv6 literal, for one) or a [HEARTBEAT_INTERVAL] that is
    no integer makes it raise [ValueError], so the agent does not start;
    and with an empty environment (no file) it returns the defaults, among
    them no control plane, no token and the interface that [ip route]
    names. *)
Theorem read_settings_edges (env : env_t) (nodename : string) (ip_route : process_outcome) :
  (forall st, read_settings env nodename ip_route = Ok st ->
              forall t, central (env_settings st) <> (t ++ "/")%string)
  /\ (forall a b c, env_get env "AGENT_LISTEN" = Some (a ++ ":" ++ b ++ ":" ++ c)%string ->
                    read_settings env nodename ip_route = Raise ValueError)
  /\ (forall v, env_get env "HEARTBEAT_INTERVAL" = Some v -> v <> "" ->
                int_of_str v = Raise ValueError ->
                read_settings env nodename ip_route = Raise ValueError)
  /\ read_settings [] nodename ip_route
     = Ok (mkStartup (mkEnv "" "" nodename "1.1.1.1" (default_iface ip_route))
                     30 443 "/etc/xray/config.json" "127.0.0.1" 8081).
Proof.
  split; [|split; [|split; [|reflexivity]]].
  - intros st H t. unfold read_settings in H.
    destruct (int_or _ 30) as [i|]; [|discriminate]. cbn [bind] in H.
    destruct (int_or _ 443) as [p|]; [|discriminate]. cbn [bind] in H.
    destruct (split_listen _) as [hp|]; [|discriminate]. cbn [bind] in H.
    destruct (int_of_str (snd hp)) as [lp|]; [|discriminate]. cbn [bind] in H.
    injection H as <-. cbn [env_settings central]. apply PyFacts.rstrip_char_no_trailing.
  - intros a b c H. unfold read_settings. rewrite H.
    destruct (int_or _ 30) as [i|e] eqn:Ei; cbn [bind];
      [|now rewrite (int_or_raises _ _ _ Ei)].
    destruct (int_or _ 443) as [p|e] eqn:Ep; cbn [bind];
      [|now rewrite (int_or_raises _ _ _ Ep)].
    assert (split_listen (a ++ ":" ++ b ++ ":" ++ c) = Raise ValueError) as E
        by apply split_listen_two_colons.
    destruct (String.length (a ++ ":" ++ b ++ ":" ++ c) =? 0)%nat eqn:El.
    + destruct a; discriminate.
    + now rewrite E.
  - intros v H Hv Hi. unfold read_settings, env_get_default. rewrite H.
    unfold int_or. rewrite (AgentConfig.string_nonempty _ Hv), Hi. reflexivity.
Qed.

Lemma read_settings_edges_witness :
  read_settings [("AGENT_LISTEN", "::1:8081")] "host1" TimedOut = Raise ValueError
  /\ read_settings [("HEARTBEAT_INTERVAL", "30s")] "host1" TimedOut = Raise ValueError.
Proof.
  destruct (read_settings_edges [("AGENT_LISTEN", "::1:8081")] "host1" TimedOut) as (_ & H1 & _).
  destruct (read_settings_edges [("HEARTBEAT_INTERVAL", "30s")] "host1" TimedOut) as (_ & _ & H2 & _).
  split.
  - apply (H1 "" "" "1:8081"). reflexivity.
  - apply (H2 "30s"); [reflexivity | discriminate | reflexivity].
Defined.

End AgentStartup.

(** ** The loop body as a whole *)
Module AgentLoop.
Import Py Agent.

(** What a returning iteration has done. *)
Lemma run_loop_body_inv env obs st w st' w' evs :
  run_loop_body env obs st w = Ok (st', w', evs) ->
  exists hb,
    last_ts st' = now obs
    /\ w' = fst (pull_step (central env) (token env) (server_id env) (pulled obs) w)
    /\ evs = (if negb (String.length (central env) =? 0)%nat
                 && negb (String.length (token env) =? 0)%nat
              then [PostHeartbeat (central env ++ "/heartbeat")%string hb] else [])
             ++ snd (pull_step (central env) (token env) (server_id env) (pulled obs) w)
    /\ hb_server_id hb = server_id env
    /\ generated_at hb = loop_start obs /\ ready_at hb = loop_ready obs
    /\ (0 <= pps_rx hb /\ 0 <= pps_tx hb /\ 0 <= conn_est_rate_s hb)
    /\ (last_ts st = 0 ->
        bw_rx_mbps hb = (0 # 1)%Q /\ bw_tx_mbps hb = (0 # 1)%Q
        /\ pps_rx hb = 0 /\ pps_tx hb = 0 /\ pps_total hb = 0 /\ conn_est_rate_s hb = 0).
Proof.
  unfold run_loop_body. intros H.
  destruct (read_uptime (fs obs)) as [u|]; [|discriminate]. cbn [bind] in H.
  destruct (read_load1 (fs obs)) as [l|]; [|discriminate]. cbn [bind] in H.
  destruct (read_proc (fs obs) "/proc/meminfo") as [m|]; [|discriminate]. cbn [bind] in H.
  destruct (cpu_sample (fs obs) (fs_after_sleep obs)) as [cpu|]; [|discriminate]. cbn [bind] in H.
  destruct (if negb (String.length (net_iface env) =? 0)%nat
            then read_dev_counters (fs obs) (net_iface env)
            else Ok (0, 0, 0, 0, 0, 0, 0, 0)) as [dev|]; [|discriminate]. cbn [bind] in H.
  destruct dev as [[[[[[[rxb rxp] rxe] rxd] txb] txp] txe] txd].
  destruct (tcp_ext_value (fs obs) "ActiveOpens") as [ao|]; [|discriminate]. cbn [bind] in H.
  destruct (tcp_ext_value (fs obs) "PassiveOpens") as [po|]; [|discriminate]. cbn [bind] in H.
  destruct (read_conntrack (fs obs)) as [ctc ctm].
  destruct (measure_ping (ping obs)) as [[p50 p95] loss].
  destruct (pull_step (central env) (token env) (server_id env) (pulled obs) w) as [w1 evs1].
  injection H as <- <- <-. eexists. cbn [last_ts fst snd].
  split; [reflexivity|]. split; [reflexivity|]. split; [reflexivity|].
  cbn [hb_server_id generated_at ready_at pps_rx pps_tx pps_total conn_est_rate_s bw_rx_mbps bw_tx_mbps].
  split; [reflexivity|]. split; [reflexivity|]. split; [reflexivity|]. split.
  - unfold estimate_rates. cbn [r_pps_rx r_pps_tx r_conn_est_rate].
    repeat split; repeat (destruct (_ && _)); try apply AgentRates.per_second_nonneg; lia.
  - intros H0. unfold estimate_rates. rewrite H0. cbn. repeat split.
Qed.

(** X10. A returning iteration of the loop: the next state carries the
    clock it read; without a control-plane address or without a token it
    has sent nothing and left the proxy configuration and its service
    alone; with both, its effects start with exactly one heartbeat, which
    names this server and the two timestamps, followed by the task pull;
    the packet and connection rates in the heartbeat are never negative,
    and on the first iteration every rate is zero. *)
Theorem run_loop_body_effects (env : settings_env) (obs : observation) (st : loop_state)
  (w : world) (st' : loop_state) (w' : world) (evs : list event) :
  run_loop_body env obs st w = Ok (st', w', evs) ->
  last_ts st' = now obs
  /\ (central env = "" \/ token env = "" -> w' = w /\ evs = [])
  /\ (central env <> "" -> token env <> "" ->
      exists hb rest,
        evs = PostHeartbeat (central env ++ "/heartbeat")%string hb
                :: HttpGet (central env ++ "/tasks?server_id=" ++ server_id env)%string :: rest
        /\ filter is_heartbeat rest = []
        /\ hb_server_id hb = server_id env
        /\ generated_at hb = loop_start obs /\ ready_at hb = loop_ready obs
        /\ (0 <= pps_rx hb /\ 0 <= pps_tx hb /\ 0 <= conn_est_rate_s hb)
        /\ (last_ts st = 0 ->
            bw_rx_mbps hb = (0 # 1)%Q /\ bw_tx_mbps hb = (0 # 1)%Q
            /\ pps_rx hb = 0 /\ pps_tx hb = 0 /\ pps_total hb = 0 /\ conn_est_rate_s hb = 0)).
Proof.
  intros H. destruct (run_loop_body_inv _ _ _ _ _ _ _ H)
    as (hb & Hts & Hw & Hev & Hid & Hg & Hr & Hpos & Hfirst).
  split; [exact Hts|]. split.
  - intros Hun. unfold pull_step in Hw, Hev.
    assert (negb (String.length (central env) =? 0)%nat
            && negb (String.length (token env) =? 0)%nat = false) as E.
    { destruct Hun as [-> | ->]; [reflexivity | apply andb_false_r]. }
    rewrite E in Hw, Hev. now subst.
  - intros Hc Ht. unfold pull_step in Hev.
    rewrite (AgentConfig.string_nonempty _ Hc), (AgentConfig.string_nonempty _ Ht) in Hev.
    cbn [negb andb app] in Hev. exists hb.
    assert (forall l, filter is_post l = [] -> filter is_heartbeat l = []) as Hsub.
    { induction l as [|e l IH]; cbn [filter]; [reflexivity|].
      destruct e; cbn [is_post is_heartbeat]; try discriminate; auto. }
    assert (forall l, filter is_heartbeat (ack_tasks (central env) l "done") = []) as Hack.
    { induction l as [|a l IH]; [reflexivity | exact IH]. }
    destruct (pulled obs) as [[|t ts]|].
    + exists []. cbn [snd app] in Hev.
      split; [exact Hev|]. split; [reflexivity|]. split; [exact Hid|]. split; [exact Hg|].
      split; [exact Hr|]. split; [exact Hpos | exact Hfirst].
    + pose proof (AgentPull.apply_tasks_posts_nothing (t :: ts) w) as Hno.
      destruct (apply_tasks (t :: ts) w) as [w1 evs1]. cbn [snd app] in Hev, Hno.
      eexists. split; [exact Hev|]. split.
      { rewrite filter_app, (Hsub _ Hno). cbn [app].
        destruct (done_ids (t :: ts)) as [|i ids]; [reflexivity|].
        apply Hack. }
      split; [exact Hid|]. split; [exact Hg|].
      split; [exact Hr|]. split; [exact Hpos | exact Hfirst].
    + exists []. cbn [snd app] in Hev.
      split; [exact Hev|]. split; [reflexivity|]. split; [exact Hid|]. split; [exact Hg|].
      split; [exact Hr|]. split; [exact Hpos | exact Hfirst].
Qed.

Lemma run_loop_body_effects_witness :
  exists st' evs,
    run_loop_body (mkEnv "" "" "host1" "1.1.1.1" "eth0") (Samples.observe Samples.proc_files 1001)
                  initial_state Samples.sample_world
    = Ok (st', Samples.sample_world, evs)
    /\ last_ts st' = 1001 /\ evs = [].
Proof.
  destruct (run_loop_body (mkEnv "" "" "host1" "1.1.1.1" "eth0")
              (Samples.observe Samples.proc_files 1001) initial_state Samples.sample_world)
    as [[[st' w'] evs]|e] eqn:E; [|vm_compute in E; discriminate].
  destruct (run_loop_body_effects _ _ _ _ _ _ _ E) as (Hts & Hun & _).
  destruct (Hun (or_introl eq_refl)) as [-> ->].
  exists st', []. auto.
Defined.

End AgentLoop.

(** ** The push listener *)
Module AgentPush.
Import Py Agent.

Lemma apply_tasks_local tasks w :
  filter is_network (snd (apply_tasks tasks w)) = []
  /\ filter (fun e => negb (is_network e)) (snd (apply_tasks tasks w)) = snd (apply_tasks tasks w).
Proof.
  unfold apply_tasks. destruct (config_file w) as [cfg|]; [|split; reflexivity].
  destruct (mutate tasks cfg) as [cfg' ch]. destruct ch; [|split; reflexivity].
  destruct (write_ok w); [|split; reflexivity].
  destruct (reload_rc w) as [rc|]; [destruct (negb (rc =? 0))|]; split; reflexivity.
Qed.

Lemma ack_tasks_network central ids status :
  filter (fun e => negb (is_network e)) (ack_tasks central ids status) = [].
Proof. unfold ack_tasks. induction ids as [|i ids IH]; [reflexivity | exact IH]. Qed.

Lemma objects_map (tasks : list dict) : objects (map Object tasks) = Some tasks.
Proof. induction tasks as [|t ts IH]; cbn [map objects]; [reflexivity | now rewrite IH]. Qed.

Lemma objects_none (items : list json_item) :
  objects items = None <-> In NotObject items.
Proof.
  induction items as [|[t|] rest IH]; cbn [objects In].
  - split; [discriminate | tauto].
  - destruct (objects rest).
    + split; [discriminate|]. intros [H | H]; [discriminate|]. apply IH in H. discriminate.
    + split; [|reflexivity]. intros _. right. now apply IH.
  - split; auto.
Qed.

(** X11. What the push listener does with a request body. A body that is
    no JSON, or a JSON value that is neither an object nor an array, is
    answered with 400 and nothing is touched. Otherwise the batch is the
    array, the array under the ["tasks"] key of an object, or the object
    itself as a single task. If the configuration file cannot be read the
    answer is 200 with ok and nothing is touched, whatever the batch
    holds. If it can be read and some item of the batch is no object, the
    handler raises [AttributeError] (the web framework then answers 500)
    and nothing is written. If every item is an object the batch is
    applied as [apply_tasks] applies it and the answer is 200 with ok
    whatever became of the write; no request to the control plane is made
    on this path. *)
Theorem handle_command_answers (body : push_body) (w : world) :
  (push_tasks body = None ->
   exists err, handle_command body w = Ok (w, [], mkPushResponse 400 false (Some err)))
  /\ (forall items, push_tasks body = Some items ->
      (config_file w = None ->
       handle_command body w = Ok (w, [], mkPushResponse 200 true None))
      /\ (config_file w <> None -> In NotObject items ->
          handle_command body w = Raise AttributeError)
      /\ (forall tasks, items = map Object tasks ->
          handle_command body w
          = Ok (fst (apply_tasks tasks w), snd (apply_tasks tasks w),
                mkPushResponse 200 true None)
          /\ filter is_network (snd (apply_tasks tasks w)) = []
          /\ (write_ok w = false -> fst (apply_tasks tasks w) = w)))
  /\ (forall t ignored,
         push_tasks (JsonObject NoTasks t) = Some [Object t]
         /\ push_tasks (JsonObject TasksNotList t) = Some [Object t]
         /\ push_tasks (JsonObject (TasksList [Object t]) ignored) = push_tasks (JsonArray [Object t])).
Proof.
  assert (Hstep : forall items, push_tasks body = Some items ->
            handle_command body w
            = (r <- apply_tasks_json items w ;; Ok (fst r, snd r, mkPushResponse 200 true None))).
  { intros items H. destruct body as [|[|ts|] f|its|v]; cbn [push_tasks] in H; try discriminate;
      injection H as <-; reflexivity. }
  split; [|split].
  - intros H. destruct body as [|[|ts|] f|its|v]; cbn [push_tasks] in H; try discriminate;
      eexists; reflexivity.
  - intros items Hi. rewrite (Hstep items Hi). unfold apply_tasks_json. split; [|split].
    + intros ->. reflexivity.
    + intros Hc Hn. destruct (config_file w) as [cfg|]; [|congruence].
      apply objects_none in Hn. now rewrite Hn.
    + intros tasks ->. rewrite objects_map. split; [|split].
      * unfold apply_tasks. destruct (config_file w) as [cfg|]; reflexivity.
      * apply apply_tasks_local.
      * intros Hw. unfold apply_tasks. destruct (config_file w) as [cfg|]; [|reflexivity].
        destruct (mutate tasks cfg) as [cfg' ch]. destruct ch; [|reflexivity].
        now rewrite Hw.
  - intros t ignored. repeat split.
Qed.

(** X12. A batch of task objects pushed to the listener changes the node
    exactly as the same batch pulled from the control plane does: the
    same world after, the same local effects (write and reload) in the
    same order. The pull adds the GET before and the acknowledgments
    after; the push makes no request and acknowledges nothing. *)
Theorem push_like_pull_unacknowledged (central token server_id : string) (t : dict)
  (ts : list dict) (w : world) :
  central <> "" -> token <> "" ->
  let pulled := pull_step central token server_id (RespList (t :: ts)) w in
  exists pushed,
    handle_command (JsonArray (map Object (t :: ts))) w = Ok pushed
    /\ snd pushed = mkPushResponse 200 true None
    /\ fst (fst pushed) = fst pulled
    /\ snd (fst pushed) = filter (fun e => negb (is_network e)) (snd pulled)
    /\ filter is_network (snd pulled)
       = HttpGet (central ++ "/tasks?server_id=" ++ server_id)%string
           :: ack_tasks central (done_ids (t :: ts)) "done".
Proof.
  intros Hc Ht. cbv zeta.
  exists (fst (apply_tasks (t :: ts) w), snd (apply_tasks (t :: ts) w),
          mkPushResponse 200 true None).
  split.
  { unfold handle_command. cbn [push_tasks]. unfold apply_tasks_json.
    rewrite objects_map. unfold apply_tasks. destruct (config_file w); reflexivity. }
  unfold pull_step.
  rewrite (AgentConfig.string_nonempty _ Hc), (AgentConfig.string_nonempty _ Ht).
  cbn [negb andb].
  destruct (apply_tasks_local (t :: ts) w) as [Hnet Hloc].
  destruct (apply_tasks (t :: ts) w) as [w1 evs1]. cbn [fst snd] in *.
  assert (forall ids, filter is_network (ack_tasks central ids "done") = ack_tasks central ids "done") as Hacks.
  { unfold ack_tasks. induction ids as [|i ids IH]; [reflexivity|]. cbn. now f_equal. }
  cbn [fst snd filter is_network negb].
  split; [reflexivity|]. split; [reflexivity|]. split.
  - rewrite filter_app, Hloc.
    destruct (done_ids (t :: ts)); [now rewrite app_nil_r|].
    now rewrite ack_tasks_network, app_nil_r.
  - rewrite filter_app, Hnet. cbn [app]. f_equal.
    destruct (done_ids (t :: ts)); [reflexivity | apply Hacks].
Qed.

Lemma push_like_pull_unacknowledged_witness :
  exists pushed,
    handle_command (JsonArray (map Object [Samples.task "add_key" "k9" 7])) Samples.sample_world
    = Ok pushed
    /\ snd pushed = mkPushResponse 200 true None
    /\ fst (fst pushed)
       = fst (pull_step "http://c" "tok" "srv1" (RespList [Samples.task "add_key" "k9" 7])
                        Samples.sample_world).
Proof.
  destruct (push_like_pull_unacknowledged "http://c" "tok" "srv1" (Samples.task "add_key" "k9" 7) []
              Samples.sample_world ltac:(discriminate) ltac:(discriminate))
    as (pushed & H1 & H2 & H3 & _).
  exists pushed. auto.
Defined.

Lemma handle_command_answers_witness :
  handle_command (JsonArray [Object (Samples.task "add_key" "k9" 7); NotObject]) Samples.sample_world
  = Raise AttributeError
  /\ handle_command (JsonArray [Object (Samples.task "add_key" "k9" 7); NotObject]) Samples.blind_world
     = Ok (Samples.blind_world, [], mkPushResponse 200 true None)
  /\ exists err, handle_command (JsonScalar (VInt 1)) Samples.sample_world
                 = Ok (Samples.sample_world, [], mkPushResponse 400 false (Some err)).
Proof.
  destruct (handle_command_answers
              (JsonArray [Object (Samples.task "add_key" "k9" 7); NotObject]) Samples.sample_world)
    as (_ & H1 & _).
  destruct (handle_command_answers
              (JsonArray [Object (Samples.task "add_key" "k9" 7); NotObject]) Samples.blind_world)
    as (_ & H2 & _).
  destruct (handle_command_answers (JsonScalar (VInt 1)) Samples.sample_world) as (H3 & _).
  split; [|split].
  - apply (H1 _ eq_refl); [discriminate | right; now left].
  - apply (H2 _ eq_refl). reflexivity.
  - apply H3. reflexivity.
Defined.

End AgentPush.

(** ** Authorization *)
Module CentralAuth.
Import Py Central.

(** X13. [verify_token] lets a request through exactly when its
    [Authorization] header is the word Bearer, one blank and the
    configured secret; it then returns the secret. Every rejection is a
    401. With the header the agent builds from its token, this is: the
    agent is let through exactly when its token is not empty and equals
    the secret. *)
Theorem verify_token_accepts_exactly (SECRET_TOKEN : string) :
  (forall authorization tok,
      verify_token SECRET_TOKEN authorization = Ok tok
      <-> authorization = Some ("Bearer " ++ SECRET_TOKEN)%string /\ tok = SECRET_TOKEN)
  /\ (forall authorization e,
         verify_token SECRET_TOKEN authorization = Raise e -> e = HTTPException 401)
  /\ (forall token,
         http_status (verify_token SECRET_TOKEN (Agent.authorization_header token)) = 200
         <-> token <> "" /\ token = SECRET_TOKEN).
Proof.
  assert (H1 : forall authorization tok,
             verify_token SECRET_TOKEN authorization = Ok tok
             <-> authorization = Some ("Bearer " ++ SECRET_TOKEN)%string /\ tok = SECRET_TOKEN).
  { intros authorization tok. unfold verify_token. split.
    - destruct authorization as [h|]; [|discriminate].
      destruct (Nat.eqb _ _); [discriminate|].
      destruct (startswith "Bearer " h) eqn:Es; [|discriminate]. cbn [negb].
      destruct (String.eqb (drop 7 h) SECRET_TOKEN) eqn:Et; [|discriminate]. cbn [negb].
      intros H. injection H as <-. apply String.eqb_eq in Et.
      split; [|exact Et]. f_equal. rewrite <- Et. exact (PyFacts.startswith_app "Bearer " h Es).
    - intros [-> ->]. cbn [append String.length Nat.eqb].
      change (String "B" (String "e" (String "a" (String "r" (String "e" (String "r"
                (String " " SECRET_TOKEN)))))))
        with ("Bearer " ++ SECRET_TOKEN)%string.
      rewrite PyFacts.startswith_prefix. cbn [negb].
      rewrite (PyFacts.drop_prefix "Bearer " SECRET_TOKEN : drop 7 _ = _).
      now rewrite String.eqb_refl. }
  split; [exact H1|]. split.
  - intros authorization e. unfold verify_token.
    destruct authorization as [h|]; [|congruence].
    destruct (Nat.eqb _ _); [congruence|].
    destruct (negb (startswith "Bearer " h)); [congruence|].
    destruct (negb (String.eqb _ _)); [congruence | discriminate].
  - intros token. unfold Agent.authorization_header. split.
    + destruct token as [|c token]; [cbn; discriminate|]. cbn [String.length Nat.eqb].
      destruct (verify_token SECRET_TOKEN _) as [tok|e] eqn:E.
      * intros _. apply H1 in E as [E _]. split; [discriminate|].
        injection E as E. exact E.
      * unfold verify_token in E. cbn [http_status].
        assert (e = HTTPException 401) as ->.
        { revert E. cbn [append String.length Nat.eqb].
          destruct (negb (startswith _ _)); [congruence|].
          destruct (negb (String.eqb _ _)); [congruence | discriminate]. }
        discriminate.
    + intros [Hne <-]. rewrite (AgentConfig.string_nonempty _ Hne).
      now rewrite (proj2 (H1 (Some ("Bearer " ++ token)%string) token) (conj eq_refl eq_refl)).
Qed.

Lemma verify_token_accepts_exactly_witness :
  verify_token "s3cret" (Agent.authorization_header "s3cret") = Ok "s3cret"
  /\ http_status (verify_token "s3cret" (Agent.authorization_header "")) = 401.
Proof.
  split; [|reflexivity].
  apply (proj1 (verify_token_accepts_exactly "s3cret")). split; reflexivity.
Defined.

End CentralAuth.

(** ** The pull and the acknowledgment on the control plane *)
Module CentralPull.
Import Py Central.

Lemma insert_by_id_perm t l : Permutation (insert_by_id t l) (t :: l).
Proof.
  induction l as [|u l IH]; cbn [insert_by_id]; [reflexivity|].
  destruct (id u <=? id t); [|reflexivity].
  rewrite IH. apply perm_swap.
Qed.

Lemma insert_by_id_sorted t l :
  Sorted (fun a b => id a <= id b) l -> Sorted (fun a b => id a <= id b) (insert_by_id t l).
Proof.
  induction l as [|u l IH]; cbn [insert_by_id]; intros Hs.
  - repeat constructor.
  - destruct (id u <=? id t) eqn:E.
    + apply Sorted_inv in Hs as [Hs Hd]. constructor; [now apply IH|].
      destruct l as [|z l]; cbn [insert_by_id].
      * constructor. now apply Z.leb_le.
      * destruct (id z <=? id t); constructor.
        -- now inversion Hd.
        -- now apply Z.leb_le.
    + constructor; [exact Hs|]. constructor. apply Z.leb_gt in E. lia.
Qed.

Lemma fold_insert_by_id l : forall acc,
  Sorted (fun a b => id a <= id b) acc ->
  Sorted (fun a b => id a <= id b) (fold_left (fun acc t => insert_by_id t acc) l acc)
  /\ Permutation (fold_left (fun acc t => insert_by_id t acc) l acc) (l ++ acc).
Proof.
  induction l as [|x l IH]; intros acc Hs; cbn [fold_left].
  - split; [exact Hs | reflexivity].
  - destruct (IH (insert_by_id x acc) (insert_by_id_sorted x acc Hs)) as [H1 H2].
    split; [exact H1|]. rewrite H2, insert_by_id_perm. cbn [app].
    symmetry. apply Permutation_middle.
Qed.

(** [order_by_id] returns its argument rearranged by ascending id. *)
Lemma order_by_id_spec l :
  Sorted (fun a b => id a <= id b) (order_by_id l) /\ Permutation (order_by_id l) l.
Proof.
  destruct (fold_insert_by_id l [] (Sorted_nil _)) as [H1 H2].
  split; [exact H1|]. unfold order_by_id. now rewrite H2, app_nil_r.
Qed.

Lemma map_fixed {A : Type} (f : A -> A) (l : list A) :
  (forall x, In x l -> f x = x) -> map f l = l.
Proof.
  induction l as [|a l IH]; cbn [map]; intros H; [reflexivity|].
  rewrite (H a (or_introl eq_refl)), IH; [reflexivity|]. intros x Hx. apply H. now right.
Qed.

Lemma filter_id_unique (l : list ServerTask) tid :
  NoDup (map id l) -> (List.length (filter (fun t => (id t =? tid)%Z) l) <= 1)%nat.
Proof.
  induction l as [|a l IH]; cbn [map filter]; intros Hn; [cbn; lia|].
  apply NoDup_cons_iff in Hn as [Ha Hn]. destruct (id a =? tid) eqn:E; [|now apply IH].
  apply Z.eqb_eq in E. rewrite CentralQueue.filter_no_hit; [cbn; lia|].
  intros x Hx. apply Z.eqb_neq. intros Hx'. apply Ha. rewrite E, <- Hx'. now apply in_map.
Qed.

Section Pull.

Variable datetime : Type.

(** X14. A pull for a server returns exactly its pending tasks, each once,
    in ascending id order; it turns these and no others to delivered:
    tasks of other servers are untouched and no task is gained or lost; so
    a second pull returns nothing and changes nothing. A failed commit
    leaves the queue as it was, and a pull without a server id returns
    nothing. *)
Theorem get_tasks_delivers_once (sid : string) (db : database datetime) :
  sid <> "" ->
  let selected t := String.eqb (server_id t) sid && String.eqb (status t) "pending" in
  let db1 := fst (get_tasks true (Some sid) db) in
  (exists l, snd (get_tasks true (Some sid) db) = Ok (map task_json l)
             /\ Permutation l (filter selected (tasks db))
             /\ Sorted (fun a b => id a <= id b) l)
  /\ Forall2 (fun t t' => same_task t t'
                          /\ status t' = (if selected t then "delivered" else status t))
             (tasks db) (tasks db1)
  /\ filter (fun t => negb (String.eqb (server_id t) sid)) (tasks db1)
     = filter (fun t => negb (String.eqb (server_id t) sid)) (tasks db)
  /\ servers db1 = servers db /\ heartbeats db1 = heartbeats db
  /\ get_tasks true (Some sid) db1 = (db1, Ok [])
  /\ get_tasks false (Some sid) db = (db, Raise SQLAlchemyError)
  /\ get_tasks true None db = (db, Ok [])
  /\ get_tasks true (Some "") db = (db, Ok []).
Proof.
  intros Hsid. cbv zeta. unfold get_tasks. rewrite (AgentConfig.string_nonempty _ Hsid).
  cbn [fst snd String.length Nat.eqb servers heartbeats tasks].
  set (selected := fun t => String.eqb (server_id t) sid && String.eqb (status t) "pending").
  set (f := fun t => if selected t then set_status "delivered" t else t).
  assert (Hf : forall t, selected (f t) = false).
  { intros t. unfold f. destruct (selected t) eqn:E; [|exact E].
    unfold selected, set_status. cbn. apply andb_false_r. }
  split; [|split; [|split; [|split; [|split; [|split; [|repeat split]]]]]].
  - exists (order_by_id (filter selected (tasks db))).
    destruct (order_by_id_spec (filter selected (tasks db))) as [H1 H2]. auto.
  - induction (tasks db) as [|t l IH]; cbn [map]; constructor; [|exact IH].
    change (same_task t (f t) /\ status (f t) = if selected t then "delivered" else status t).
    unfold f. destruct (selected t); repeat split.
  - induction (tasks db) as [|t l IH]; cbn [map filter]; [reflexivity|].
    change (filter (fun t => negb (String.eqb (server_id t) sid)) (map f l)
            = filter (fun t => negb (String.eqb (server_id t) sid)) l) in IH.
    change ((if negb (String.eqb (server_id (f t)) sid)
             then f t :: filter (fun t => negb (String.eqb (server_id t) sid)) (map f l)
             else filter (fun t => negb (String.eqb (server_id t) sid)) (map f l))
            = if negb (String.eqb (server_id t) sid)
              then t :: filter (fun t => negb (String.eqb (server_id t) sid)) l
              else filter (fun t => negb (String.eqb (server_id t) sid)) l).
    rewrite IH. unfold f. destruct (selected t) eqn:E; [|reflexivity].
    unfold selected in E. apply andb_true_iff in E as [E _].
    unfold set_status. cbn [server_id]. now rewrite E.
  - reflexivity.
  - reflexivity.
  - change ((mkDb (servers db) (heartbeats db) (map f (map f (tasks db))),
             Ok (map task_json (order_by_id (filter selected (map f (tasks db))))))
            = (mkDb (servers db) (heartbeats db) (map f (tasks db)), Ok [])).
    rewrite (CentralQueue.filter_no_hit selected (map f (tasks db))).
    + cbn [order_by_id fold_left map]. f_equal. f_equal.
      apply map_fixed. intros x Hx. apply in_map_iff in Hx as (t & <- & _).
      unfold f at 1. now rewrite Hf.
    + intros x Hx. apply in_map_iff in Hx as (t & <- & _). apply Hf.
Qed.

End Pull.

Lemma get_tasks_delivers_once_witness :
  get_tasks true (Some "srv1") (fst (get_tasks true (Some "srv1") Samples.sample_db))
  = (fst (get_tasks true (Some "srv1") Samples.sample_db), Ok []).
Proof.
  apply (get_tasks_delivers_once string "srv1" Samples.sample_db). discriminate.
Defined.

End CentralPull.

(** ** The acknowledgment endpoint *)
Module CentralAck.
Import Py Central.

Section Ack.

Variable datetime : Type.

(** X15. [ack_task] on a queue whose ids are distinct (the primary key):
    the status is read without regard to letter case; a status other
    than done or failed is refused with 400 and an unknown id with 404,
    the queue untouched in both cases; otherwise the named task, and no
    other, takes the status in lower case, no row is added or removed,
    and repeating the acknowledgment changes nothing more. A failed
    commit leaves the queue as it was. *)
Theorem ack_task_contract (ok : bool) (tid : Z) (s : string) (db : database datetime) :
  NoDup (map id (tasks db)) ->
  ack_task ok tid s db = ack_task ok tid (lower s) db
  /\ (lower s <> "done" -> lower s <> "failed" ->
      ack_task ok tid s db = (db, Raise (HTTPException 400)))
  /\ (lower s = "done" \/ lower s = "failed" ->
      (~ In tid (map id (tasks db)) -> ack_task ok tid s db = (db, Raise (HTTPException 404)))
      /\ (In tid (map id (tasks db)) ->
          let db1 := fst (ack_task true tid s db) in
          snd (ack_task true tid s db) = Ok tt
          /\ Forall2 (fun t t' => same_task t t'
                                  /\ status t' = (if id t =? tid then lower s else status t))
                     (tasks db) (tasks db1)
          /\ servers db1 = servers db /\ heartbeats db1 = heartbeats db
          /\ ack_task true tid s db1 = (db1, Ok tt)
          /\ ack_task false tid s db = (db, Raise SQLAlchemyError))).
Proof.
  intros Hnd. split; [|split].
  - unfold ack_task. now rewrite PyFacts.lower_idempotent.
  - intros H1 H2. unfold ack_task.
    apply String.eqb_neq in H1. apply String.eqb_neq in H2. now rewrite H1, H2.
  - intros Hs.
    assert (String.eqb (lower s) "done" || String.eqb (lower s) "failed" = true) as G.
    { destruct Hs as [-> | ->]; reflexivity. }
    split.
    + intros Hno. unfold ack_task. rewrite G. cbn [negb].
      rewrite CentralQueue.filter_no_hit; [reflexivity|].
      intros x Hx. apply Z.eqb_neq. intros E. apply Hno. rewrite <- E. now apply in_map.
    + intros Hin. cbv zeta. apply in_map_iff in Hin as (t & Ht & Hin).
      set (g := fun u : ServerTask => if id u =? tid then set_status (lower s) u else u).
      assert (Hone : filter (fun u => id u =? tid) (tasks db) = [t]).
      { apply CentralQueue.filter_unique_hit; [exact Hin | now apply Z.eqb_eq|].
        now apply CentralPull.filter_id_unique. }
      assert (Hg : forall u, id (g u) = id u).
      { intros u. unfold g. now destruct (id u =? tid). }
      assert (Hone' : filter (fun u => id u =? tid) (map g (tasks db)) = [g t]).
      { change [g t] with (map g [t]). rewrite <- Hone.
        clear - Hg. induction (tasks db) as [|u l IH]; cbn [map filter]; [reflexivity|].
        rewrite Hg. destruct (id u =? tid); cbn [map]; now rewrite IH. }
      assert (E1 : ack_task true tid s db
                   = (mkDb (servers db) (heartbeats db) (map g (tasks db)), Ok tt)).
      { unfold ack_task. rewrite G. cbn [negb]. now rewrite Hone. }
      assert (E0 : ack_task false tid s db = (db, Raise SQLAlchemyError)).
      { unfold ack_task. rewrite G. cbn [negb]. now rewrite Hone. }
      rewrite E1. cbn [fst snd servers heartbeats tasks].
      split; [reflexivity|]. split; [|split; [reflexivity|split; [reflexivity|split; [|exact E0]]]].
      * clear. induction (tasks db) as [|u l IH]; cbn [map]; constructor; [|exact IH].
        unfold g. destruct (id u =? tid); repeat split.
      * unfold ack_task. rewrite G. cbn [negb tasks servers heartbeats].
        change (fun t0 : ServerTask => if id t0 =? tid then set_status (lower s) t0 else t0) with g.
        rewrite Hone'. cbn [scalar_one_or_none]. f_equal. f_equal.
        rewrite map_map. apply map_ext. intros u. unfold g.
        destruct (id u =? tid) eqn:E; [|now rewrite E].
        cbn [set_status id]. now rewrite E.
Qed.

End Ack.

Lemma ack_task_contract_witness :
  ack_task true 1 "DONE" Samples.sample_db = ack_task true 1 "done" Samples.sample_db
  /\ ack_task true 9 "done" Samples.sample_db = (Samples.sample_db, Raise (HTTPException 404)).
Proof.
  assert (Hnd : NoDup (map id (tasks Samples.sample_db))).
  { repeat constructor. intros []. }
  destruct (ack_task_contract string true 1 "DONE" Samples.sample_db Hnd) as (H1 & _).
  destruct (ack_task_contract string true 9 "done" Samples.sample_db Hnd) as (_ & _ & H3).
  split; [exact H1|]. apply (H3 (or_introl eq_refl)).
  cbn. intros [H | []]. discriminate.
Defined.

End CentralAck.

(** ** From the control plane's queue to the listeners of the node *)
Module EndToEnd.
Import Py Central.

Lemma rstrip_idempotent s : rstrip (rstrip s) = rstrip s.
Proof.
  induction s as [|c s IH]; cbn [rstrip]; [reflexivity|].
  destruct (rstrip s) as [|d r] eqn:E.
  - destruct (isspace c) eqn:Ec; cbn [rstrip]; [reflexivity | now rewrite Ec].
  - change (rstrip (String c (String d r)) = String c (String d r)).
    cbn [rstrip]. cbn [rstrip] in IH. now rewrite IH.
Qed.

Lemma lstrip_fixed s : lstrip (rstrip (lstrip s)) = rstrip (lstrip s).
Proof.
  induction s as [|c s IH]; cbn [lstrip]; [reflexivity|].
  destruct (isspace c) eqn:Ec; [exact IH|].
  rewrite (PyFacts.rstrip_cons_nonspace c s Ec). cbn [lstrip]. now rewrite Ec.
Qed.

Lemma strip_idempotent s : strip (strip s) = strip s.
Proof. unfold strip. now rewrite lstrip_fixed, rstrip_idempotent. Qed.

Lemma chosen_key_stripped custom fresh :
  strip fresh = fresh -> fresh <> "" ->
  strip (chosen_key custom fresh) = chosen_key custom fresh /\ chosen_key custom fresh <> "".
Proof.
  intros Hf Hne. unfold chosen_key. destruct custom as [c|]; [|auto].
  destruct (String.length c =? 0)%nat; cbn [negb andb]; [auto|].
  destruct (strip c) as [|x r] eqn:E; cbn [String.length Nat.eqb negb]; [auto|].
  rewrite <- E. split; [apply strip_idempotent | rewrite E; discriminate].
Qed.

Lemma fold_max_ge l : forall a, a <= fold_left Z.max l a /\ forall x, In x l -> x <= fold_left Z.max l a.
Proof.
  induction l as [|y l IH]; intros a; cbn [fold_left In].
  - split; [lia | tauto].
  - destruct (IH (Z.max a y)) as [H1 H2]. split; [lia|].
    intros x [<- | Hx]; [lia | now apply H2].
Qed.

Lemma next_id_fresh ids x : In x ids -> x < next_id ids.
Proof. intros H. unfold next_id. pose proof (proj2 (fold_max_ge ids 0) x H). lia. Qed.

Lemma insert_by_id_last t l :
  (forall u, In u l -> id u <= id t) -> insert_by_id t l = l ++ [t].
Proof.
  induction l as [|u l IH]; cbn [insert_by_id app]; intros H; [reflexivity|].
  rewrite (proj2 (Z.leb_le _ _) (H u (or_introl eq_refl))).
  rewrite IH; [reflexivity|]. intros v Hv. apply H. now right.
Qed.

Lemma order_by_id_snoc l t :
  (forall u, In u l -> id u <= id t) -> order_by_id (l ++ [t]) = order_by_id l ++ [t].
Proof.
  intros H. unfold order_by_id. rewrite fold_left_app. cbn [fold_left].
  apply insert_by_id_last. intros u Hu. apply H.
  apply (Permutation_in u (proj2 (CentralPull.order_by_id_spec l))). exact Hu.
Qed.

(** The pull that follows the creation of a task returns it last. *)
Lemma pull_after_create {datetime : Type} (db : database datetime) sid kind key mail :
  sid <> "" ->
  let new := mkTask (next_id (map id (tasks db))) sid kind key mail "pending" in
  exists olds,
    snd (get_tasks true (Some sid) (mkDb (servers db) (heartbeats db) (tasks db ++ [new])))
    = Ok (map task_json olds ++ [task_json new]).
Proof.
  intros Hsid new. unfold get_tasks. rewrite (AgentConfig.string_nonempty _ Hsid).
  cbn [snd tasks]. rewrite filter_app. cbn [filter].
  replace (String.eqb (server_id new) sid && String.eqb (status new) "pending") with true
    by (cbn; now rewrite String.eqb_refl).
  eexists. rewrite order_by_id_snoc, map_app; [reflexivity|].
  intros u Hu. apply filter_In in Hu as [Hu _].
  apply Z.lt_le_incl. apply next_id_fresh. now apply in_map.
Qed.

Lemma mutate_unchanged_clients tasks : forall cfg,
  snd (Agent.mutate tasks cfg) = false ->
  Agent.vless_clients (fst (Agent.mutate tasks cfg)) = Agent.vless_clients cfg.
Proof.
  induction tasks as [|t ts IH]; intros cfg H.
  - apply AgentConfig.mutate_nil.
  - rewrite AgentConfig.mutate_cons in *. cbn [fst snd] in *.
    apply orb_false_iff in H as [H1 H2]. rewrite (IH _ H2).
    destruct (AgentConfig.mutate_single t cfg) as [E1 E2]. rewrite E1.
    rewrite E2 in H1. now apply AgentConfig.task_changes_false_iff.
Qed.

(** The configuration a pull leaves behind when the file is readable and
    writable: the user lists are those of the mutated configuration. *)
Lemma pull_step_clients central token sid t ts w cfg :
  central <> "" -> token <> "" ->
  Agent.config_file w = Some cfg -> Agent.write_ok w = true ->
  exists cfg',
    Agent.config_file (fst (Agent.pull_step central token sid (Agent.RespList (t :: ts)) w)) = Some cfg'
    /\ Agent.vless_clients cfg'
       = map (fun l => fold_left (fun l t => Agent.task_step t l) (t :: ts) l) (Agent.vless_clients cfg).
Proof.
  intros Hc Ht Hcfg Hw. unfold Agent.pull_step.
  rewrite (AgentConfig.string_nonempty _ Hc), (AgentConfig.string_nonempty _ Ht). cbn [negb andb].
  pose proof (AgentConfig.mutate_clients (t :: ts) cfg) as Hm.
  pose proof (mutate_unchanged_clients (t :: ts) cfg) as Hu.
  unfold Agent.apply_tasks. rewrite Hcfg, Hw.
  destruct (Agent.mutate (t :: ts) cfg) as [cfg' ch]. cbn [fst snd] in Hm, Hu.
  destruct ch.
  - exists cfg'. split; [|exact Hm].
    destruct (Agent.reload_rc w) as [rc|]; [destruct (negb (rc =? 0))|]; reflexivity.
  - exists cfg. cbn [fst]. split; [exact Hcfg|]. rewrite <- Hm. symmetry. exact (Hu eq_refl).
Qed.

Lemma ack_posted central token sid l1 t w :
  central <> "" -> token <> "" ->
  In (Agent.HttpPost (Agent.ack_url central (id t)) [("status", VStr "done")])
     (snd (Agent.pull_step central token sid (Agent.RespList (l1 ++ [task_json t])) w)).
Proof.
  intros Hc Ht. unfold Agent.pull_step.
  rewrite (AgentConfig.string_nonempty _ Hc), (AgentConfig.string_nonempty _ Ht). cbn [negb andb].
  assert (In (id t) (Agent.done_ids (l1 ++ [task_json t]))) as Hin.
  { unfold Agent.done_ids. rewrite flat_map_app. apply in_or_app. right. now left. }
  destruct (l1 ++ [task_json t]) as [|x xs] eqn:E; [destruct l1; discriminate|].
  destruct (Agent.apply_tasks (x :: xs) w) as [w1 evs1]. cbn [snd].
  right. apply in_or_app. right.
  destruct (Agent.done_ids (x :: xs)) as [|i ids]; [destruct Hin|].
  unfold Agent.ack_tasks. apply in_map_iff. now exists (id t).
Qed.

Lemma task_json_read t :
  Agent.task_action (task_json t) = strip (type t)
  /\ Agent.task_user_id (task_json t) = strip (key_id t)
  /\ dict_get (task_json t) "task_id" = Some (VInt (id t)).
Proof. repeat split. Qed.

Section Keys.

Variable datetime : Type.
Variable uuid_valid : string -> bool.

Lemma add_key_created fresh sid mail custom (db db1 : database datetime) created :
  add_key uuid_valid true fresh sid mail custom db = (db1, Ok created) ->
  let K := chosen_key custom fresh in
  let new := mkTask (next_id (map id (tasks db))) sid "add_key" K (Some (strip mail)) "pending" in
  db1 = mkDb (servers db) (heartbeats db) (tasks db ++ [new]) /\ created = mkCreated (id new) K.
Proof.
  unfold add_key, create_task. intros H.
  destruct (scalar_one_or_none (filter _ (servers db))) as [[server|]|e];
    [| discriminate | destruct e; discriminate].
  destruct (negb (is_active server)); [discriminate|].
  destruct (negb (uuid_valid _)); [discriminate|].
  destruct (scalar_one_or_none (filter _ (tasks db))) as [[x|]|e];
    [discriminate | | destruct e; discriminate].
  cbn [reraise_http] in H. injection H as <- <-. split; reflexivity.
Qed.

Lemma remove_key_created sid key (db db1 : database datetime) created :
  remove_key uuid_valid true sid key db = (db1, Ok created) ->
  let new := mkTask (next_id (map id (tasks db))) sid "del_key" key None "pending" in
  db1 = mkDb (servers db) (heartbeats db) (tasks db ++ [new]) /\ created = mkCreated (id new) key.
Proof.
  unfold remove_key, create_task. intros H.
  destruct (scalar_one_or_none (filter _ (servers db))) as [[server|]|e];
    [| discriminate | destruct e; discriminate].
  destruct (negb (uuid_valid _)); [discriminate|].
  destruct (scalar_one_or_none (filter _ (tasks db))) as [[x|]|e];
    [discriminate | | destruct e; discriminate].
  cbn [reraise_http] in H. injection H as <- <-. split; reflexivity.
Qed.

(** X16. From the operator's request to the listeners of the node. When
    [add_key] accepts a request (the generated key being, as
    [str(uuid.uuid4())] is, a non-empty text without blanks around it),
    the next pull of that server returns the new task; an agent that
    applies the pulled batch to a readable and writable configuration
    ends with at least one entry for the key on every vless listener,
    whatever older tasks the batch carried, and posts the acknowledgment
    of the new task as done. *)
Theorem added_key_reaches_listeners (fresh sid mail : string) (custom : option string)
  (db db1 : database datetime) (created : TaskCreated)
  (central token : string) (w : Agent.world) (cfg : Agent.config) :
  add_key uuid_valid true fresh sid mail custom db = (db1, Ok created) ->
  strip fresh = fresh -> fresh <> "" ->
  sid <> "" -> central <> "" -> token <> "" ->
  Agent.config_file w = Some cfg -> Agent.write_ok w = true ->
  exists l,
    snd (get_tasks true (Some sid) db1) = Ok l
    /\ (exists cfg',
           Agent.config_file (fst (Agent.pull_step central token sid (Agent.RespList l) w))
           = Some cfg'
           /\ Forall (fun cl => (1 <= Agent.count_id (created_key_id created) cl)%nat)
                     (Agent.vless_clients cfg'))
    /\ In (Agent.HttpPost (Agent.ack_url central (created_task_id created))
                          [("status", VStr "done")])
          (snd (Agent.pull_step central token sid (Agent.RespList l) w)).
Proof.
  intros Hadd Hf Hne Hsid Hc Ht Hcfg Hw.
  destruct (add_key_created _ _ _ _ _ _ _ Hadd) as [-> ->]. clear Hadd.
  destruct (chosen_key_stripped custom fresh Hf Hne) as [HK HKne].
  set (K := chosen_key custom fresh) in *.
  destruct (pull_after_create db sid "add_key" K (Some (strip mail)) Hsid) as [olds Hpull].
  cbv zeta in Hpull.
  set (new := mkTask (next_id (map id (tasks db))) sid "add_key" K (Some (strip mail)) "pending") in *.
  exists (map task_json olds ++ [task_json new]). split; [exact Hpull|]. split.
  - destruct (map task_json olds ++ [task_json new]) as [|x xs] eqn:E;
      [destruct olds; discriminate|].
    destruct (pull_step_clients central token sid x xs w cfg Hc Ht Hcfg Hw) as (cfg' & H1 & H2).
    exists cfg'. split; [exact H1|]. rewrite H2, <- E. apply Forall_forall.
    intros cl Hcl. apply in_map_iff in Hcl as (cl0 & <- & _).
    rewrite fold_left_app. cbn [fold_left created_key_id].
    unfold Agent.task_step.
    replace (Agent.task_user_id (task_json new)) with K by (symmetry; exact HK).
    replace (Agent.task_action (task_json new)) with "add_key" by reflexivity.
    rewrite (AgentConfig.string_nonempty _ HKne), AgentConfig.count_id_add. lia.
  - apply (ack_posted central token sid (map task_json olds) new w Hc Ht).
Qed.

(** X17. The same for a removal. When [remove_key] accepts a request for
    a key written without blanks around it, the next pull of that server
    returns the new task last, and an agent that applies the pulled batch
    to a readable and writable configuration ends with no entry for the
    key on any vless listener, and posts the acknowledgment of the new
    task as done. *)
Theorem removed_key_leaves_listeners (sid key : string)
  (db db1 : database datetime) (created : TaskCreated)
  (central token : string) (w : Agent.world) (cfg : Agent.config) :
  remove_key uuid_valid true sid key db = (db1, Ok created) ->
  strip key = key -> key <> "" ->
  sid <> "" -> central <> "" -> token <> "" ->
  Agent.config_file w = Some cfg -> Agent.write_ok w = true ->
  exists l,
    snd (get_tasks true (Some sid) db1) = Ok l
    /\ (exists cfg',
           Agent.config_file (fst (Agent.pull_step central token sid (Agent.RespList l) w))
           = Some cfg'
           /\ Forall (fun cl => Agent.count_id key cl = 0%nat) (Agent.vless_clients cfg'))
    /\ In (Agent.HttpPost (Agent.ack_url central (created_task_id created))
                          [("status", VStr "done")])
          (snd (Agent.pull_step central token sid (Agent.RespList l) w)).
Proof.
  intros Hdel HK HKne Hsid Hc Ht Hcfg Hw.
  destruct (remove_key_created _ _ _ _ _ Hdel) as [-> ->]. clear Hdel.
  destruct (pull_after_create db sid "del_key" key None Hsid) as [olds Hpull].
  cbv zeta in Hpull.
  set (new := mkTask (next_id (map id (tasks db))) sid "del_key" key None "pending") in *.
  exists (map task_json olds ++ [task_json new]). split; [exact Hpull|]. split.
  - destruct (map task_json olds ++ [task_json new]) as [|x xs] eqn:E;
      [destruct olds; discriminate|].
    destruct (pull_step_clients central token sid x xs w cfg Hc Ht Hcfg Hw) as (cfg' & H1 & H2).
    exists cfg'. split; [exact H1|]. rewrite H2, <- E. apply Forall_forall.
    intros cl Hcl. apply in_map_iff in Hcl as (cl0 & <- & _).
    rewrite fold_left_app. cbn [fold_left].
    rewrite (AgentBatch.task_step_del (task_json new) key _ eq_refl HK HKne).
    apply AgentConfig.count_id_filter_negb.
  - apply (ack_posted central token sid (map task_json olds) new w Hc Ht).
Qed.

End Keys.

Lemma added_key_reaches_listeners_witness :
  exists l,
    snd (get_tasks true (Some "srv1")
           (fst (add_key Samples.canonical_uuid true Samples.key2 "srv1" "b@example.org" None
                         Samples.sample_db))) = Ok l
    /\ (exists cfg',
           Agent.config_file (fst (Agent.pull_step "http://c" "tok" "srv1" (Agent.RespList l)
                                                   Samples.sample_world)) = Some cfg'
           /\ Forall (fun cl => (1 <= Agent.count_id Samples.key2 cl)%nat)
                     (Agent.vless_clients cfg'))
    /\ In (Agent.HttpPost (Agent.ack_url "http://c" 2) [("status", VStr "done")])
          (snd (Agent.pull_step "http://c" "tok" "srv1" (Agent.RespList l) Samples.sample_world)).
Proof.
  apply (added_key_reaches_listeners string Samples.canonical_uuid Samples.key2 "srv1"
           "b@example.org" None Samples.sample_db _ (mkCreated 2 Samples.key2)
           "http://c" "tok" Samples.sample_world Samples.sample_config);
    try reflexivity; discriminate.
Defined.

Lemma removed_key_leaves_listeners_witness :
  exists l,
    snd (get_tasks true (Some "srv1")
           (fst (remove_key Samples.canonical_uuid true "srv1" Samples.key1 Samples.sample_db)))
    = Ok l
    /\ (exists cfg',
           Agent.config_file (fst (Agent.pull_step "http://c" "tok" "srv1" (Agent.RespList l)
                                                   Samples.sample_world)) = Some cfg'
           /\ Forall (fun cl => Agent.count_id Samples.key1 cl = 0%nat)
                     (Agent.vless_clients cfg'))
    /\ In (Agent.HttpPost (Agent.ack_url "http://c" 2) [("status", VStr "done")])
          (snd (Agent.pull_step "http://c" "tok" "srv1" (Agent.RespList l) Samples.sample_world)).
Proof.
  apply (removed_key_leaves_listeners string Samples.canonical_uuid "srv1" Samples.key1
           Samples.sample_db _ (mkCreated 2 Samples.key1)
           "http://c" "tok" Samples.sample_world Samples.sample_config);
    try reflexivity; discriminate.
Defined.

End EndToEnd.

(** ** Registration of a server by its heartbeat *)
Module CentralRegistry.
Import Py Central.

Section Registry.

Variable datetime : Type.
Variable fromisoformat : string -> option datetime.
Variable uuid_valid : string -> bool.

Lemma update_server_cases ok (db : database datetime) sid :
  let db' := update_server_last_heartbeat ok db sid in
  tasks db' = tasks db /\ heartbeats db' = heartbeats db
  /\ (servers db' = servers db
      \/ (servers db' = servers db ++ [mkServer sid true]
          /\ filter (fun v => String.eqb (vs_server_id v) sid) (servers db) = []))
  /\ (ok = true ->
      filter (fun v => String.eqb (vs_server_id v) sid) (servers db') <> []).
Proof.
  cbv zeta. unfold update_server_last_heartbeat.
  destruct (filter (fun v => String.eqb (vs_server_id v) sid) (servers db)) as [|v [|v' l]] eqn:E;
    cbn [scalar_one_or_none].
  - destruct ok; cbn [tasks heartbeats servers]; repeat split; auto; try discriminate.
    intros _. rewrite filter_app, E. cbn. now rewrite String.eqb_refl.
  - repeat split; auto. rewrite E. discriminate.
  - repeat split; auto. rewrite E. discriminate.
Qed.

(** X18. What a heartbeat does to the registry. It never touches the task
    queue. The server table is left as it was or gains one row, active,
    for a server id that had none: a known server keeps its row as it is
    (a deactivated one stays deactivated), and a unique server id stays
    unique. A refused heartbeat (always a 500) leaves the whole database
    as it was. After an accepted heartbeat whose registry commit went
    through, the server is known: [add_key] and [remove_key] for it are
    no longer answered with 404. *)
Theorem heartbeat_registers_server (commit_ok server_commit_ok : bool)
  (req : HeartbeatRequest) (db : database datetime) :
  let out := receive_heartbeat fromisoformat commit_ok server_commit_ok req db in
  tasks (fst out) = tasks db
  /\ (servers (fst out) = servers db
      \/ (servers (fst out) = servers db ++ [mkServer (req_server_id req) true]
          /\ forall v, In v (servers db) -> vs_server_id v <> req_server_id req))
  /\ (servers_unique db -> servers_unique (fst out))
  /\ (forall e, snd out = Raise e -> fst out = db /\ e = HTTPException 500)
  /\ (forall resp, snd out = Ok resp -> server_commit_ok = true ->
      forall ok fresh mail custom key,
        http_status (snd (add_key uuid_valid ok fresh (req_server_id req) mail custom (fst out)))
        <> 404
        /\ http_status (snd (remove_key uuid_valid ok (req_server_id req) key (fst out))) <> 404).
Proof.
  cbv zeta. unfold receive_heartbeat, receive_heartbeat_body.
  destruct (match (g <- parse_timestamp fromisoformat (req_generated_at req) ;;
                   r <- parse_timestamp fromisoformat (req_ready_at req) ;; Ok (g, r)) with
            | Raise ValueError => Raise (HTTPException 400)
            | other => other
            end) as [[g r]|e].
  2: { cbn [fst snd]. repeat split; auto; try discriminate. congruence. }
  destruct commit_ok.
  2: { cbn [fst snd]. repeat split; auto; try discriminate. congruence. }
  cbn [fst snd].
  set (db1 := mkDb (servers db) (heartbeats db ++ _) (tasks db)).
  destruct (update_server_cases server_commit_ok db1 (req_server_id req))
    as (Ht & _ & Hs & Hk).
  change (servers db1) with (servers db) in Hs.
  split; [exact Ht|]. split; [|split; [|split]].
  - destruct Hs as [Hs | [Hs Hnone]]; [now left | right]. split; [exact Hs|].
    intros v Hv E. apply String.eqb_eq in E.
    assert (In v (filter (fun v => String.eqb (vs_server_id v) (req_server_id req)) (servers db)))
      as Hin by (apply filter_In; auto).
    rewrite Hnone in Hin. destruct Hin.
  - intros Hu sid. destruct Hs as [-> | [-> Hnone]]; [apply Hu|].
    rewrite filter_app, length_app. cbn [filter vs_server_id].
    destruct (String.eqb (req_server_id req) sid) eqn:E; cbn [List.length].
    + apply String.eqb_eq in E. subst sid. rewrite Hnone. cbn. lia.
    + specialize (Hu sid). lia.
  - discriminate.
  - intros resp _ Hok ok fresh mail custom key. specialize (Hk Hok).
    unfold add_key, remove_key.
    destruct (filter _ (servers (update_server_last_heartbeat _ db1 _))) as [|v [|v' l]];
      [congruence | |]; cbn [scalar_one_or_none reraise_http snd http_status].
    + split.
      * destruct (negb (is_active v)); [cbn; discriminate|].
        destruct (negb (uuid_valid _)); [cbn; discriminate|].
        unfold create_task. destruct (filter (open_task _ _ _) _) as [|x [|y l']];
          [destruct ok; cbn; discriminate | cbn; discriminate | cbn; discriminate].
      * destruct (negb (uuid_valid _)); [cbn; discriminate|].
        unfold create_task. destruct (filter (open_task _ _ _) _) as [|x [|y l']];
          [destruct ok; cbn; discriminate | cbn; discriminate | cbn; discriminate].
    + split; discriminate.
Qed.

End Registry.

Lemma heartbeat_registers_server_witness :
  http_status
    (snd (add_key Samples.canonical_uuid true Samples.key2 "srv1" "a@example.org" None
            (fst (receive_heartbeat Samples.iso_seconds true true
                    (Samples.heartbeat_request "2024-05-01T12:00:00Z" "2024-05-01T12:00:06+00:00")
                    Samples.empty_db)))) <> 404
  /\ http_status
       (snd (add_key Samples.canonical_uuid true Samples.key2 "srv1" "a@example.org" None
               Samples.empty_db)) = 404.
Proof.
  split; [|reflexivity].
  destruct (heartbeat_registers_server string Samples.iso_seconds Samples.canonical_uuid true true
              (Samples.heartbeat_request "2024-05-01T12:00:00Z" "2024-05-01T12:00:06+00:00")
              Samples.empty_db) as (_ & _ & _ & _ & H).
  apply (H (mkHeartbeatResponse true "Heartbeat received successfully" (Some 1)) eq_refl eq_refl
           true Samples.key2 "a@example.org" None Samples.key2).
Defined.

End CentralRegistry.

(** ** Task ids *)
Module CentralIds.
Import Py Central.

Section Ids.

Variable datetime : Type.
Variable uuid_valid : string -> bool.

Lemma create_task_ids ok sid key kind mail (db : database datetime) :
  map id (tasks (fst (create_task ok sid key kind mail db))) = map id (tasks db)
  \/ map id (tasks (fst (create_task ok sid key kind mail db)))
     = map id (tasks db) ++ [next_id (map id (tasks db))].
Proof.
  unfold create_task. destruct (scalar_one_or_none _) as [[x|]|e]; cbn [fst]; auto.
  destruct ok; cbn [fst tasks]; auto. right. now rewrite map_app.
Qed.

Lemma wrapped_ids (db : database datetime) (r : database datetime * result TaskCreated) :
  (map id (tasks (fst r)) = map id (tasks db)
   \/ map id (tasks (fst r)) = map id (tasks db) ++ [next_id (map id (tasks db))]) ->
  map id (tasks (fst (reraise_http db r))) = map id (tasks db)
  \/ map id (tasks (fst (reraise_http db r))) = map id (tasks db) ++ [next_id (map id (tasks db))].
Proof.
  destruct r as [db' [a|e]]; cbn [reraise_http fst]; [auto|].
  destruct e; cbn [fst]; auto.
Qed.

(** X19. The ids of the queue. No request removes a task or changes an
    id: a request leaves the list of ids as it was, or (an accepted
    creation) appends one id, greater than every id in the queue. So ids
    that are distinct stay distinct, which is what [ack_task] relies on
    to find one task. *)
Theorem handle_keeps_ids (r : request) (db : database datetime) :
  (map id (tasks (handle uuid_valid r db)) = map id (tasks db)
   \/ exists n, map id (tasks (handle uuid_valid r db)) = map id (tasks db) ++ [n]
                /\ forall i, In i (map id (tasks db)) -> i < n)
  /\ (NoDup (map id (tasks db)) -> NoDup (map id (tasks (handle uuid_valid r db)))).
Proof.
  assert (H : map id (tasks (handle uuid_valid r db)) = map id (tasks db)
              \/ map id (tasks (handle uuid_valid r db))
                 = map id (tasks db) ++ [next_id (map id (tasks db))]).
  { destruct r as [ok fresh sid mail custom | ok sid key | ok sid | ok tid s]; cbn [handle].
    - unfold add_key. apply wrapped_ids.
      destruct (scalar_one_or_none _) as [[server|]|e]; cbn [fst]; auto.
      destruct (negb (is_active server)); cbn [fst]; auto.
      destruct (negb (uuid_valid _)); cbn [fst]; auto. apply create_task_ids.
    - unfold remove_key. apply wrapped_ids.
      destruct (scalar_one_or_none _) as [[server|]|e]; cbn [fst]; auto.
      destruct (negb (uuid_valid _)); cbn [fst]; auto. apply create_task_ids.
    - left. unfold get_tasks. destruct sid as [sid|]; cbn [fst]; auto.
      destruct (Nat.eqb _ _); cbn [fst]; auto. destruct ok; cbn [fst tasks]; auto.
      rewrite map_map. apply map_ext. intros t. now destruct (_ && _).
    - left. unfold ack_task. destruct (negb _); cbn [fst]; auto.
      destruct (scalar_one_or_none _) as [[t|]|e]; cbn [fst]; auto.
      destruct ok; cbn [fst tasks]; auto.
      rewrite map_map. apply map_ext. intros t'. now destruct (id t' =? tid). }
  split.
  - destruct H as [H | H]; [now left | right].
    exists (next_id (map id (tasks db))). split; [exact H|].
    intros i Hi. now apply EndToEnd.next_id_fresh.
  - intros Hnd. destruct H as [-> | ->]; [exact Hnd|].
    apply NoDup_app; [exact Hnd | repeat constructor; intros [] |].
    intros i Hi [<- | []]. apply EndToEnd.next_id_fresh in Hi. lia.
Qed.

End Ids.

Lemma handle_keeps_ids_witness :
  NoDup (map id (tasks (handle Samples.canonical_uuid (RemoveKey true "srv1" Samples.key1)
                               Samples.sample_db))).
Proof.
  apply (proj2 (handle_keeps_ids string Samples.canonical_uuid
                  (RemoveKey true "srv1" Samples.key1) Samples.sample_db)).
  repeat constructor. intros [].
Defined.

End CentralIds.

(** ** The interface counters *)
Module AgentCounters.
Import Py Agent.

Lemma index_nth (nums : list Z) (i : nat) :
  (i < List.length nums)%nat -> index nums i = Ok (nth i nums 0).
Proof.
  intros H. unfold index. now rewrite (nth_error_nth' nums 0 H).
Qed.

Lemma find_iface_single iface line :
  hd_error (re_split dev_sep (strip line)) = Some iface ->
  forall rest,
    find_iface iface (line :: rest)
    = (nums <- map_result int_of_str (tl (re_split dev_sep (strip line))) ;;
       n0 <- index nums 0 ;; n1 <- index nums 1 ;;
       n2 <- index nums 2 ;; n3 <- index nums 3 ;;
       n8 <- index nums 8 ;; n9 <- index nums 9 ;;
       n10 <- index nums 10 ;; n11 <- index nums 11 ;;
       Ok (n0, n1, n2, n3, n8, n9, n10, n11)).
Proof.
  intros H rest. cbn [find_iface].
  destruct (re_split dev_sep (strip line)) as [|p0 ps]; [discriminate|].
  cbn [hd_error] in H. injection H as ->. now rewrite String.eqb_refl.
Qed.

(** X20. [read_dev_counters] takes the first line of the table whose name
    field is the interface, whatever stands in the lines before it (a
    malformed line of another interface does no harm) and after it. From
    that line it returns the fields 0 to 3 (received bytes, packets,
    errors, drops) and 8 to 11 (the same, transmitted) when the line has
    at least twelve integer fields; a field that is no integer makes it
    raise. Without a line for the interface every counter is 0. *)
Theorem find_iface_first_match (iface : string) (before : list string) (line : string)
  (rest : list string) :
  (forall l, In l before -> hd_error (re_split dev_sep (strip l)) <> Some iface) ->
  hd_error (re_split dev_sep (strip line)) = Some iface ->
  find_iface iface before = Ok (0, 0, 0, 0, 0, 0, 0, 0)
  /\ find_iface iface (before ++ line :: rest) = find_iface iface [line]
  /\ (forall nums,
         map_result int_of_str (tl (re_split dev_sep (strip line))) = Ok nums ->
         (12 <= List.length nums)%nat ->
         find_iface iface (before ++ line :: rest)
         = Ok (nth 0 nums 0, nth 1 nums 0, nth 2 nums 0, nth 3 nums 0,
               nth 8 nums 0, nth 9 nums 0, nth 10 nums 0, nth 11 nums 0))
  /\ (forall e,
         map_result int_of_str (tl (re_split dev_sep (strip line))) = Raise e ->
         find_iface iface (before ++ line :: rest) = Raise e).
Proof.
  intros Hb Hl.
  assert (Hskip : forall tail, find_iface iface (before ++ tail) = find_iface iface tail).
  { intros tail. induction before as [|l before IH]; [reflexivity|].
    cbn [app find_iface].
    pose proof (Hb l (or_introl eq_refl)) as Hne.
    assert (find_iface iface (before ++ tail) = find_iface iface tail) as IH'.
    { apply IH. intros l' Hl'. apply Hb. now right. }
    destruct (re_split dev_sep (strip l)) as [|p0 ps]; [exact IH'|].
    destruct (String.eqb p0 iface) eqn:E; [|exact IH'].
    apply String.eqb_eq in E. subst p0. now destruct Hne. }
  split; [|split; [|split]].
  - rewrite <- (app_nil_r before). apply (Hskip []).
  - rewrite Hskip. now rewrite !(find_iface_single iface line Hl).
  - intros nums Hn Hlen. rewrite Hskip, (find_iface_single iface line Hl), Hn. cbn [bind].
    rewrite !index_nth by lia. reflexivity.
  - intros e He. rewrite Hskip, (find_iface_single iface line Hl), He. reflexivity.
Qed.

Lemma find_iface_first_match_witness :
  find_iface "eth0" (["lo: 1 2 x"; "garbage"]
                       ++ "  eth0: 10 11 12 13 14 15 16 17 20 21 22 23 24 25 26 27"
                       :: ["eth0: 1 1 1 1 1 1 1 1 1 1 1 1"])
  = Ok (10, 11, 12, 13, 20, 21, 22, 23).
Proof.
  assert (Hb : forall l, In l ["lo: 1 2 x"; "garbage"] ->
                         hd_error (re_split dev_sep (strip l)) <> Some "eth0").
  { intros l [<- | [<- | []]]; vm_compute; discriminate. }
  destruct (find_iface_first_match "eth0" ["lo: 1 2 x"; "garbage"]
              "  eth0: 10 11 12 13 14 15 16 17 20 21 22 23 24 25 26 27"
              ["eth0: 1 1 1 1 1 1 1 1 1 1 1 1"] Hb eq_refl) as (_ & _ & H & _).
  apply (H [10; 11; 12; 13; 14; 15; 16; 17; 20; 21; 22; 23; 24; 25; 26; 27]);
    [reflexivity | cbn; lia].
Defined.

End AgentCounters.

(** ** Ranges of the probe and of the CPU figures *)
Module AgentBounds.
Import Py Agent.

Lemma round_half_even_mono x y : (x <= y)%Q -> round_half_even x <= round_half_even y.
Proof.
  intros Hxy. unfold round_half_even.
  pose proof (Qfloor_resp_le x y Hxy) as Hf.
  pose proof (Qfloor_le x) as Hx1. pose proof (Qlt_floor x) as Hx2.
  pose proof (Qfloor_le y) as Hy1. pose proof (Qlt_floor y) as Hy2.
  destruct (Z.eq_dec (Qfloor x) (Qfloor y)) as [E | N].
  - rewrite <- E in *. set (f := Qfloor x) in *.
    destruct (Qcompare (x - inject_Z f) (1 # 2)) eqn:Cx;
      destruct (Qcompare (y - inject_Z f) (1 # 2)) eqn:Cy;
      try (destruct (Z.even f)); try lia;
      repeat match goal with
             | H : Qcompare _ _ = Eq |- _ => apply Qeq_alt in H
             | H : Qcompare _ _ = Lt |- _ => apply Qlt_alt in H
             | H : Qcompare _ _ = Gt |- _ => apply Qgt_alt in H
             end;
      exfalso; lra.
  - assert (Qfloor x + 1 <= Qfloor y) by lia.
    destruct (Qcompare (x - inject_Z (Qfloor x)) (1 # 2));
      destruct (Qcompare (y - inject_Z (Qfloor y)) (1 # 2));
      try (destruct (Z.even (Qfloor x))); try (destruct (Z.even (Qfloor y))); lia.
Qed.

Lemma round_half_even_Z z : round_half_even (inject_Z z) = z.
Proof.
  unfold round_half_even. rewrite Qfloor_Z.
  assert ((inject_Z z - inject_Z z ?= 1 # 2)%Q = Lt) as ->; [|reflexivity].
  apply (proj1 (Qlt_alt _ _)). lra.
Qed.

Lemma sorted_nth (l : list Q) : Sorted Qle l ->
  forall i j, (i <= j)%nat -> (j < List.length l)%nat -> (nth i l 0 <= nth j l 0)%Q.
Proof.
  intros Hs. apply Sorted_StronglySorted in Hs; [|exact Qle_trans].
  induction Hs as [|a l Hs IH Ha]; intros i j Hij Hj; [cbn in Hj; lia|].
  destruct j as [|j]; [replace i with O by lia; apply Qle_refl|].
  cbn [List.length] in Hj. destruct i as [|i]; cbn [nth].
  - rewrite Forall_forall in Ha. apply Ha. apply nth_In. lia.
  - apply IH; lia.
Qed.

(** X21. The two latencies [measure_ping] reports are ordered, the median
    not above the 95th percentile, and when the probe succeeded and its
    output shows round-trip times, each of the two is one of the times
    shown. *)
Theorem measure_ping_ordered (o : process_outcome) :
  (fst (fst (measure_ping o)) <= snd (fst (measure_ping o)))%Q
  /\ (forall out err, o = Exited 0 out err -> parse_times out <> [] ->
      In (fst (fst (measure_ping o))) (parse_times out)
      /\ In (snd (fst (measure_ping o))) (parse_times out)).
Proof.
  assert (Hpct : forall times p q, times <> [] -> Sorted Qle times ->
                   (0 <= p)%Q -> (p <= q)%Q ->
                   (pct times p <= pct times q)%Q /\ In (pct times p) times).
  { intros times p q Hne Hs Hp Hpq. unfold pct.
    destruct times as [|t ts] eqn:E; [congruence|]. rewrite <- E in *.
    assert (0 < Z.of_nat (List.length times)) as Hn by (rewrite E; cbn [List.length]; lia).
    set (n := Z.of_nat (List.length times)) in *.
    assert (round_half_even (inject_Z (n - 1) * p) <= round_half_even (inject_Z (n - 1) * q)) as Hm.
    { apply round_half_even_mono.
      assert (0 <= inject_Z (n - 1))%Q as H0
          by (change (inject_Z 0 <= inject_Z (n - 1))%Q; rewrite <- Zle_Qle; lia).
      rewrite !(Qmult_comm (inject_Z (n - 1))). now apply Qmult_le_compat_r. }
    split.
    - apply sorted_nth; [exact Hs | lia | lia].
    - apply nth_In. lia. }
  unfold measure_ping. destruct o as [rc out err | | reason]; cbn [run_cmd].
  2, 3: cbn; split; [apply Qle_refl | discriminate].
  destruct (rc =? 0) eqn:Erc; cbn [negb].
  2: { cbn [fst snd]. split; [apply Qle_refl|]. intros out' err' H. injection H as -> _ _.
       discriminate. }
  destruct (AgentProbe.sort_spec (parse_times out)) as [Hs Hperm].
  destruct (parse_times out) as [|t ts] eqn:Et.
  - cbn [fst snd]. split; [apply Qle_refl|]. intros out' err' H Hne.
    injection H as _ <- _. congruence.
  - rewrite <- Et in *. cbn [fst snd].
    assert (sort (parse_times out) <> []) as Hne.
    { intros H. rewrite H in Hperm. apply Permutation_nil in Hperm. congruence. }
    destruct (Hpct _ (1 # 2)%Q (95 # 100)%Q Hne Hs) as [H1 H2]; [lra | lra |].
    destruct (Hpct _ (95 # 100)%Q (95 # 100)%Q Hne Hs) as [_ H3]; [lra | lra |].
    split; [exact H1|]. intros out' err' H _. injection H as _ <- _.
    split; eapply Permutation_in; eauto.
Qed.

Lemma measure_ping_ordered_witness :
  In (fst (fst (measure_ping (Exited 0 Samples.ping_output ""))))
     (parse_times Samples.ping_output)
  /\ In (snd (fst (measure_ping (Exited 0 Samples.ping_output ""))))
        (parse_times Samples.ping_output).
Proof.
  apply (proj2 (measure_ping_ordered (Exited 0 Samples.ping_output "")) Samples.ping_output "");
    [reflexivity | vm_compute; discriminate].
Defined.


Lemma fold_add_shift l : forall a, fold_left Z.add l a = a + sum l.
Proof.
  unfold sum. induction l as [|x l IH]; intros a; cbn [fold_left]; [lia|].
  rewrite (IH (a + x)), (IH (0 + x)). lia.
Qed.

Lemma sum_le (a b : list Z) : Forall2 Z.le a b -> sum a <= sum b.
Proof.
  induction 1 as [|x y a b Hxy _ IH]; [reflexivity|].
  unfold sum. cbn [fold_left]. rewrite (fold_add_shift a), (fold_add_shift b). lia.
Qed.

(** Binary floating point: the rounding error. *)
Lemma pow2_pos e : (0 < pow2 e)%Q.
Proof. apply Qpower_0_lt. reflexivity. Qed.

Lemma pow2_Z n : 0 <= n -> (pow2 n == inject_Z (2 ^ n))%Q.
Proof. intros H. unfold pow2. now rewrite (Zpower_Qpower 2 n H). Qed.

Lemma pow2_add a b : (pow2 (a + b) == pow2 a * pow2 b)%Q.
Proof. unfold pow2. apply Qpower_plus. discriminate. Qed.

Lemma pow2_inv e : (pow2 e * pow2 (- e) == 1)%Q.
Proof. rewrite <- pow2_add. now replace (e + - e) with 0 by lia. Qed.

Lemma pow2_le a b : a <= b -> (pow2 a <= pow2 b)%Q.
Proof. intros H. apply Qpower_le_compat_l; [exact H | discriminate]. Qed.

Lemma log2_floor_le x : (0 < x)%Q -> (pow2 (log2_floor x) <= x)%Q.
Proof.
  intros Hx. unfold log2_floor.
  set (k := Z.log2 (Qnum x) - Z.log2 (Z.pos (Qden x))).
  destruct (Qle_bool (pow2 k) x) eqn:E; [now apply Qle_bool_iff|].
  destruct x as [n d]. cbn [Qnum Qden] in *.
  assert (0 < n) as Hn by (unfold Qlt in Hx; cbn in Hx; lia).
  pose proof (Z.log2_spec n Hn) as [Hn1 _].
  pose proof (Z.log2_spec (Z.pos d) (Pos2Z.is_pos d)) as [_ Hd2].
  pose proof (Z.log2_nonneg n). pose proof (Z.log2_nonneg (Z.pos d)).
  replace (k - 1) with (Z.log2 n + - (Z.log2 (Z.pos d) + 1)) by (subst k; lia).
  rewrite pow2_add.
  pose proof (pow2_inv (Z.log2 (Z.pos d) + 1)) as Hinv.
  pose proof (pow2_pos (- (Z.log2 (Z.pos d) + 1))) as Hp.
  rewrite (pow2_Z (Z.log2 n)) by lia.
  rewrite (pow2_Z (Z.log2 (Z.pos d) + 1)) in Hinv by lia.
  set (P := pow2 (- (Z.log2 (Z.pos d) + 1))) in *.
  set (A := 2 ^ Z.log2 n) in *. set (B := 2 ^ (Z.log2 (Z.pos d) + 1)) in *.
  (* A * P <= n / d,  with B * P == 1, A <= n, d < B *)
  assert (inject_Z A <= inject_Z n)%Q as HA by (rewrite <- Zle_Qle; lia).
  assert (inject_Z (Z.pos d) <= inject_Z B)%Q as HB by (rewrite <- Zle_Qle; lia).
  assert (0 < inject_Z (Z.pos d))%Q as Hd0 by (rewrite <- (Zlt_Qlt 0); lia).
  assert (0 <= inject_Z A)%Q as HA0 by (rewrite <- (Zle_Qle 0); subst A; apply Z.pow_nonneg; lia).
  rewrite (Qmake_Qdiv n d).
  apply Qle_shift_div_l; [exact Hd0|].
  (* A P d <= n *)
  assert (P * inject_Z (Z.pos d) <= 1)%Q as H1.
  { rewrite <- Hinv. rewrite (Qmult_comm (inject_Z B)). apply Qmult_le_l; [exact Hp | exact HB]. }
  nra.
Qed.

Lemma binary64_nonneg x : (0 <= x)%Q -> (0 <= binary64 x)%Q.
Proof.
  intros Hx. unfold binary64. destruct (Qeq_bool x 0); [apply Qle_refl|].
  set (e := Z.max _ _).
  assert (0 <= round_half_even (x * pow2 (- e))) as Hm.
  { rewrite <- (round_half_even_Z 0). apply round_half_even_mono.
    pose proof (pow2_pos (- e)). change (inject_Z 0) with 0%Q. nra. }
  pose proof (pow2_pos e).
  assert (0 <= inject_Z (round_half_even (x * pow2 (- e))))%Q by (unfold Qle; cbn; lia).
  nra.
Qed.

Lemma binary64_error x :
  (0 <= x)%Q ->
  (binary64 x <= x + (x * pow2 (-53) + pow2 (-1075)))%Q
  /\ (x - (x * pow2 (-53) + pow2 (-1075)) <= binary64 x)%Q.
Proof.
  intros Hx. pose proof (pow2_pos (-53)) as H53. pose proof (pow2_pos (-1075)) as H1075.
  unfold binary64. destruct (Qeq_bool x 0) eqn:E0.
  - apply Qeq_bool_eq in E0. split; nra.
  - assert (0 < x)%Q as Hx0.
    { destruct (Qlt_le_dec 0 x) as [H | H]; [exact H | exfalso].
      assert (x == 0)%Q as H0 by lra. apply Qeq_eq_bool in H0. congruence. }
    assert (Qabs x == x)%Q as Habs by (apply Qabs_pos; lra).
    set (L := log2_floor (Qabs x)).
    assert (pow2 L <= x)%Q as HL.
    { apply Qle_trans with (Qabs x); [|rewrite Habs; apply Qle_refl].
      apply log2_floor_le. rewrite Habs. exact Hx0. }
    set (e := Z.max (L - 52) (-1074)).
    set (m := round_half_even (x * pow2 (- e))).
    pose proof (AgentProbe.round_half_even_nearest (x * pow2 (- e))) as [N1 N2]. fold m in N1, N2.
    pose proof (pow2_pos e) as He. pose proof (pow2_inv e) as Hinv.
    assert (pow2 e <= 2 * (x * pow2 (-53) + pow2 (-1075)))%Q as Hpe.
    { destruct (Z.max_spec (L - 52) (-1074)) as [[_ Em] | [_ Em]]; fold e in Em; rewrite Em.
      - assert (pow2 (-1074) == 2 * pow2 (-1075))%Q as ->.
        { replace (-1074) with (1 + -1075) by lia. rewrite pow2_add. reflexivity. }
        nra.
      - assert (pow2 (L - 52) == 2 * (pow2 L * pow2 (-53)))%Q as ->.
        { replace (L - 52) with (1 + (L + -53)) by lia. rewrite !pow2_add. reflexivity. }
        nra. }
    set (P := pow2 e) in *. set (S := pow2 (- e)) in *.
    assert (0 < S)%Q as HS by apply pow2_pos.
    (* m - 1/2 <= x S <= m + 1/2, P S = 1 *)
    assert (inject_Z m * P - x <= (1 # 2) * P)%Q as U1.
    { setoid_replace x with (x * S * P)%Q at 1 by (rewrite <- Qmult_assoc, (Qmult_comm S P), Hinv; ring).
      nra. }
    assert (x - inject_Z m * P <= (1 # 2) * P)%Q as U2.
    { setoid_replace x with (x * S * P)%Q at 1 by (rewrite <- Qmult_assoc, (Qmult_comm S P), Hinv; ring).
      nra. }
    split; lra.
Qed.

Lemma eps53 : (pow2 (-53) <= 1 # 1000000)%Q /\ (pow2 (-1075) <= 1 # 1000000)%Q.
Proof. split; unfold Qle; vm_compute; discriminate. Qed.

Lemma binary64_bounds x :
  (0 <= x)%Q ->
  (0 <= binary64 x)%Q
  /\ (binary64 x <= (1000001 # 1000000) * x + (1 # 1000000))%Q
  /\ ((999999 # 1000000) * x - (1 # 1000000) <= binary64 x)%Q.
Proof.
  intros Hx. destruct (binary64_error x Hx) as [H1 H2]. destruct eps53 as [E1 E2].
  pose proof (pow2_pos (-53)). pose proof (pow2_pos (-1075)).
  split; [now apply binary64_nonneg|]. split; nra.
Qed.

(** A share of a positive total, in percent. *)
Lemma round1_share (part total : Z) :
  0 < total -> 0 <= part <= total ->
  (0 <= percent part total)%Q /\ (percent part total <= 100)%Q.
Proof.
  intros Ht Hp. unfold percent.
  assert (0 <= inject_Z part)%Q as Hp0 by (unfold Qle; cbn; lia).
  assert (inject_Z part <= inject_Z total)%Q as Hpt by (rewrite <- Zle_Qle; lia).
  assert (1 <= inject_Z total)%Q as Ht1 by (unfold Qle; cbn; lia).
  destruct (binary64_bounds (inject_Z part) Hp0) as (B0 & B1 & _).
  set (B := binary64 (inject_Z part)) in *.
  assert (0 <= B * (100 # 1))%Q as HB100 by nra.
  destruct (binary64_bounds _ HB100) as (P0 & P1 & _).
  set (P := binary64 (B * (100 # 1))) in *.
  destruct (binary64_bounds (inject_Z total) ltac:(lra)) as (T0 & _ & T2).
  set (T := binary64 (inject_Z total)) in *.
  assert (0 < T)%Q as HT by lra.
  assert (0 <= P / T)%Q as HR0.
  { apply Qle_shift_div_l; [exact HT | lra]. }
  assert (P / T <= 100001 # 1000)%Q as HR1.
  { apply Qle_shift_div_r; [exact HT | lra]. }
  destruct (binary64_bounds _ HR0) as (Q0 & Q1 & _).
  set (R := binary64 (P / T)) in *.
  unfold round1.
  assert (0 <= round_half_even (R * (10 # 1))) as M0.
  { rewrite <- (round_half_even_Z 0). apply round_half_even_mono. change (inject_Z 0) with 0%Q. lra. }
  assert (round_half_even (R * (10 # 1)) <= 1000) as M1.
  { change 1000 with (round_half_even (20009 # 20)). apply round_half_even_mono. lra. }
  unfold Qle. cbn [Qnum Qden]. lia.
Qed.

(** X22. The CPU figures. When both reads of the tick table succeed, show
    at least seven buckets and no bucket has decreased between them,
    [cpu_sample] returns, and both percentages lie between 0 and 100.
    When the two reads are identical (no tick in between) the total is
    taken as 1 and the reported load is 100.0, not 0. *)
Theorem cpu_sample_bounds (fs_a fs_b : filesystem) (a b : list Z) :
  read_cpu fs_a = Ok a -> read_cpu fs_b = Ok b ->
  (7 <= List.length a)%nat -> Forall2 Z.le a b ->
  exists cpu soft,
    cpu_sample fs_a fs_b = Ok (cpu, soft)
    /\ (0 <= cpu)%Q /\ (cpu <= 100)%Q /\ (0 <= soft)%Q /\ (soft <= 100)%Q
    /\ (b = a -> cpu = (1000 # 10)%Q /\ soft = (0 # 10)%Q).
Proof.
  intros Ha Hb Hlen Hle. unfold cpu_sample. rewrite Ha, Hb. cbn [bind].
  destruct a as [|a0 [|a1 [|a2 [|a3 [|a4 [|a5 [|a6 ra]]]]]]]; cbn [List.length] in Hlen; try lia.
  inversion Hle as [|? b0 ? l0 H0 Hle0]; subst. inversion Hle0 as [|? b1 ? l1 H1 Hle1]; subst.
  inversion Hle1 as [|? b2 ? l2 H2 Hle2]; subst. inversion Hle2 as [|? b3 ? l3 H3 Hle3]; subst.
  inversion Hle3 as [|? b4 ? l4 H4 Hle4]; subst. inversion Hle4 as [|? b5 ? l5 H5 Hle5]; subst.
  inversion Hle5 as [|? b6 ? rb H6 Hle6]; subst.
  cbn [index nth_error bind].
  pose proof (sum_le _ _ Hle6) as Hr.
  assert (Hsa : sum (a0 :: a1 :: a2 :: a3 :: a4 :: a5 :: a6 :: ra)
                = a0 + a1 + a2 + a3 + a4 + a5 + a6 + sum ra).
  { unfold sum at 1. cbn [fold_left]. rewrite fold_add_shift. lia. }
  assert (Hsb : sum (b0 :: b1 :: b2 :: b3 :: b4 :: b5 :: b6 :: rb)
                = b0 + b1 + b2 + b3 + b4 + b5 + b6 + sum rb).
  { unfold sum at 1. cbn [fold_left]. rewrite fold_add_shift. lia. }
  set (sa := sum (a0 :: a1 :: a2 :: a3 :: a4 :: a5 :: a6 :: ra)) in *.
  set (sb := sum (b0 :: b1 :: b2 :: b3 :: b4 :: b5 :: b6 :: rb)) in *.
  eexists. eexists. split; [reflexivity|].
  destruct (round1_share (Z.max 1 (sb - sa) - (b3 + b4 - (a3 + a4))) (Z.max 1 (sb - sa)))
    as [C1 C2]; [lia | lia |].
  destruct (round1_share (b6 - a6) (Z.max 1 (sb - sa))) as [S1 S2]; [lia | lia |].
  split; [exact C1|]. split; [exact C2|]. split; [exact S1|]. split; [exact S2|].
  intros E. injection E as -> -> -> -> -> -> -> ->.
  replace (sb - sa) with 0 by (subst sa sb; lia).
  replace (a3 + a4 - (a3 + a4)) with 0 by lia. replace (a6 - a6) with 0 by lia.
  split; reflexivity.
Qed.

Lemma cpu_sample_bounds_witness :
  exists cpu soft,
    cpu_sample Samples.proc_files Samples.proc_files = Ok (cpu, soft)
    /\ (0 <= cpu)%Q /\ (cpu <= 100)%Q /\ (0 <= soft)%Q /\ (soft <= 100)%Q.
Proof.
  destruct (read_cpu Samples.proc_files) as [a|e] eqn:E; [|vm_compute in E; discriminate].
  assert (7 <= List.length a)%nat as Hlen.
  { vm_compute in E. injection E as <-. cbn. lia. }
  assert (Forall2 Z.le a a) as Hle.
  { clear. induction a; constructor; [lia | assumption]. }
  destruct (cpu_sample_bounds Samples.proc_files Samples.proc_files a a E E Hlen Hle)
    as (cpu & soft & H1 & H2 & H3 & H4 & H5 & _).
  exists cpu, soft. auto.
Defined.

End AgentBounds.


(** ** Rates through binary floating point *)
Module AgentFloat.
Import Py Agent AgentBounds.

Lemma int_of_float_floor v k :
  (inject_Z k <= v)%Q -> (v < inject_Z (k + 1))%Q -> 0 <= k -> int_of_float v = k.
Proof.
  intros H1 H2 Hk. unfold int_of_float.
  assert (0 <= Qnum v) as Hn.
  { assert (0 <= v)%Q as H0 by (apply Qle_trans with (inject_Z k); [rewrite <- (Zle_Qle 0); lia | exact H1]).
    unfold Qle in H0. cbn in H0. lia. }
  rewrite Z.quot_div_nonneg by lia.
  pose proof (Qfloor_le v) as F1. pose proof (Qlt_floor v) as F2.
  replace (Qnum v / Z.pos (Qden v)) with (Qfloor v) by (now destruct v).
  assert (Qfloor v < k + 1) by (rewrite Zlt_Qlt; eapply Qle_lt_trans; eauto).
  assert (k < Qfloor v + 1) by (rewrite Zlt_Qlt; eapply Qle_lt_trans; eauto).
  lia.
Qed.

Lemma per_second_exact delta dt :
  0 <= delta < 2 ^ 53 -> 0 < dt < 2 ^ 53 -> per_second delta dt = delta / dt.
Proof.
  intros [Ha0 Ha] [Hb0 Hb]. unfold per_second.
  pose proof (Z.div_pos delta dt Ha0 Hb0) as Hk0.
  enough (int_of_float (binary64 (inject_Z delta / inject_Z dt)) = delta / dt) as -> by lia.
  set (q := (inject_Z delta / inject_Z dt)%Q).
  assert (0 < inject_Z dt)%Q as Hbq by (rewrite <- (Zlt_Qlt 0); lia).
  assert (q * inject_Z dt == inject_Z delta)%Q as Hq.
  { subst q. field. intros H. rewrite H in Hbq. now apply Qlt_irrefl in Hbq. }
  unfold binary64. destruct (Qeq_bool q 0) eqn:E0.
  - apply Qeq_bool_eq in E0. rewrite E0 in Hq.
    assert (delta = 0) as ->.
    { apply inject_Z_injective. rewrite <- Hq. ring. }
    now rewrite Z.div_0_l by lia.
  - assert (0 < delta) as Ha1.
    { destruct (Z.eq_dec delta 0) as [-> | N]; [|lia].
      exfalso. assert (q == 0)%Q as H by (subst q; field; intros H; rewrite H in Hbq; now apply Qlt_irrefl in Hbq).
      apply Qeq_eq_bool in H. congruence. }
    assert (0 < inject_Z delta)%Q as Haq by (rewrite <- (Zlt_Qlt 0); lia).
    assert (0 < q)%Q as Hq0.
    { subst q. apply Qlt_shift_div_l; [exact Hbq | lra]. }
    assert (Qabs q == q)%Q as Habs by (apply Qabs_pos; lra).
    set (L := log2_floor (Qabs q)).
    assert (pow2 L <= q)%Q as HL.
    { apply Qle_trans with (Qabs q); [|rewrite Habs; apply Qle_refl].
      apply log2_floor_le. rewrite Habs. exact Hq0. }
    assert (inject_Z delta < inject_Z (2 ^ 53))%Q as Ha53 by (rewrite <- Zlt_Qlt; lia).
    assert (inject_Z 1 <= inject_Z dt)%Q as Hb1 by (rewrite <- Zle_Qle; lia).
    assert (q <= inject_Z delta)%Q as Hqa.
    { change (inject_Z 1) with 1%Q in Hb1. nra. }
    assert (L <= 52) as HL52.
    { destruct (Z_le_gt_dec L 52) as [H | H]; [exact H | exfalso].
      pose proof (pow2_le 53 L ltac:(lia)) as H53. rewrite (pow2_Z 53) in H53 by lia. lra. }
    set (e := Z.max (L - 52) (-1074)).
    assert (e <= 0) as He by (subst e; lia).
    set (S := 2 ^ (- e)).
    assert (0 < S) as HS0 by (subst S; apply Z.pow_pos_nonneg; lia).
    assert (pow2 (- e) == inject_Z S)%Q as HS by (apply pow2_Z; lia).
    assert (inject_Z dt < inject_Z (2 * S))%Q as HbS.
    { destruct (Z_le_gt_dec L 0) as [HL0 | HL0].
      - rewrite <- Zlt_Qlt. assert (2 ^ 52 <= S).
        { subst S. apply Z.pow_le_mono_r; lia. }
        change (2 ^ 53) with (2 * 2 ^ 52) in Hb. lia.
      - assert (e = L - 52) as Ee by (subst e; lia).
        assert (pow2 L * inject_Z (2 * S) == inject_Z (2 ^ 53))%Q as HLS.
        { rewrite (pow2_Z L) by lia. rewrite <- inject_Z_mult.
          assert (2 ^ L * (2 * S) = 2 ^ 53) as ->; [|reflexivity].
          subst S. rewrite Ee. replace (- (L - 52)) with (52 - L) by lia.
          replace (2 ^ 53) with (2 ^ (L + 1 + (52 - L))) by (f_equal; lia).
          rewrite !Z.pow_add_r by lia. change (2 ^ 1) with 2. ring. }
        pose proof (pow2_pos L) as HpL.
        assert (pow2 L * inject_Z dt < pow2 L * inject_Z (2 * S))%Q as Hlt.
        { rewrite HLS. apply Qle_lt_trans with (inject_Z delta); [|exact Ha53].
          rewrite <- Hq. apply Qmult_le_compat_r; [exact HL | lra]. }
        apply Qmult_lt_l in Hlt; [exact Hlt | exact HpL]. }
    set (x := (q * pow2 (- e))%Q).
    set (m := round_half_even x).
    set (k := delta / dt).
    pose proof (Z.mul_div_le delta dt Hb0) as Hk1.
    pose proof (Z.mul_succ_div_gt delta dt Hb0) as Hk2. fold k in Hk1, Hk2.
    assert (x * inject_Z dt == inject_Z delta * inject_Z S)%Q as Hx.
    { subst x. rewrite HS. rewrite <- Hq. ring. }
    assert (0 < inject_Z S)%Q as HSq by (rewrite <- (Zlt_Qlt 0); lia).
    assert (inject_Z (dt * k) <= inject_Z delta)%Q as Hk1q by (rewrite <- Zle_Qle; lia).
    assert (inject_Z delta + 1 <= inject_Z (dt * (k + 1)))%Q as Hk2q.
    { change 1%Q with (inject_Z 1). rewrite <- inject_Z_plus, <- Zle_Qle. lia. }
    rewrite inject_Z_mult in Hk1q, Hk2q, HbS.
    rewrite inject_Z_plus in Hk2q. change (inject_Z 1) with 1%Q in Hk2q.
    change (inject_Z 2) with 2%Q in HbS.
    assert (k * S <= m) as Hm1.
    { rewrite <- (AgentBounds.round_half_even_Z (k * S)). apply AgentBounds.round_half_even_mono.
      rewrite inject_Z_mult.
      apply Qmult_le_r with (z := inject_Z dt); [exact Hbq|]. rewrite Hx. nra. }
    assert (m < (k + 1) * S) as Hm2.
    { rewrite Zlt_Qlt. apply Qle_lt_trans with (x + (1 # 2))%Q.
      - pose proof (AgentProbe.round_half_even_nearest x) as [Hn _]. fold m in Hn. lra.
      - rewrite inject_Z_mult, inject_Z_plus. change (inject_Z 1) with 1%Q.
        apply Qmult_lt_r with (z := inject_Z dt); [exact Hbq|].
        setoid_replace ((x + (1 # 2)) * inject_Z dt)%Q
          with (inject_Z delta * inject_Z S + (1 # 2) * inject_Z dt)%Q by (rewrite <- Hx; ring).
        nra. }
    apply int_of_float_floor; [| |exact Hk0].
    + apply Qmult_le_r with (z := inject_Z S); [exact HSq|].
      rewrite <- Qmult_assoc. rewrite <- HS at 2. rewrite pow2_inv, Qmult_1_r.
      rewrite <- inject_Z_mult, <- Zle_Qle. exact Hm1.
    + apply Qmult_lt_r with (z := inject_Z S); [exact HSq|].
      rewrite <- Qmult_assoc. rewrite <- HS at 1. rewrite pow2_inv, Qmult_1_r.
      rewrite <- inject_Z_mult, <- Zlt_Qlt. exact Hm2.
Qed.

Lemma per_second_reset delta dt : delta < 0 -> 0 < dt -> per_second delta dt = 0.
Proof.
  intros Hd Hdt. unfold per_second.
  enough (int_of_float (binary64 (inject_Z delta / inject_Z dt)) <= 0) by lia.
  set (q := (inject_Z delta / inject_Z dt)%Q).
  assert (q <= 0)%Q as Hq.
  { subst q. unfold Qdiv.
    assert (0 < / inject_Z dt)%Q as Hi by (apply Qinv_lt_0_compat; rewrite <- (Zlt_Qlt 0); lia).
    assert (inject_Z delta <= 0)%Q as Hn by (unfold Qle; cbn; lia).
    nra. }
  unfold binary64. destruct (Qeq_bool q 0); [cbn; lia|].
  set (e := Z.max (log2_floor (Qabs q) - 52) (-1074)).
  set (m := round_half_even (q * pow2 (- e))).
  assert (m <= 0) as Hm.
  { rewrite <- (AgentBounds.round_half_even_Z 0). apply AgentBounds.round_half_even_mono.
    pose proof (pow2_pos (- e)). change (inject_Z 0) with 0%Q. nra. }
  pose proof (pow2_pos e) as Hp. unfold Qlt in Hp. cbn [Qnum Qden] in Hp.
  unfold int_of_float. cbn [Qmult Qnum Qden inject_Z].
  set (n := Qnum (pow2 e)) in *. set (d := (1 * Qden (pow2 e))%positive).
  assert (0 < n) as Hn by lia.
  assert (0 <= - (m * n)) as H0 by nia.
  pose proof (Z.quot_pos (- (m * n)) (Z.pos d) H0 (Pos2Z.is_pos d)) as Hq'.
  rewrite Z.quot_opp_l in Hq' by lia. lia.
Qed.

(** X1. The packet rates and the connection rate, with a previous sample
    taken [now - last_ts > 0] seconds earlier, an interface configured,
    and the elapsed seconds and the counter differences below 2^53 in
    magnitude: none of the three is negative; the received-packet rate is
    the integer quotient of the counter difference by the elapsed seconds
    when the counter has not decreased (the division through a binary64
    number loses nothing there), and 0 after a reset; likewise for the
    transmitted packets and for the sum of the two connection counters. *)
Theorem packet_rates_clamped (st : loop_state) (now : Z) (net_iface : string)
  (rxb txb rxp txp ao po : Z) :
  0 < last_ts st -> last_ts st < now -> now - last_ts st < 2 ^ 53 -> net_iface <> "" ->
  Z.abs (rxp - last_rx_pkts st) < 2 ^ 53 ->
  Z.abs (txp - last_tx_pkts st) < 2 ^ 53 ->
  Z.abs ((ao - last_active_opens st) + (po - last_passive_opens st)) < 2 ^ 53 ->
  let r := estimate_rates st now net_iface rxb txb rxp txp ao po in
  let dt := now - last_ts st in
  (0 <= r_pps_rx r /\ 0 <= r_pps_tx r /\ 0 <= r_conn_est_rate r)
  /\ (last_rx_pkts st <= rxp -> r_pps_rx r = (rxp - last_rx_pkts st) / dt)
  /\ (rxp < last_rx_pkts st -> r_pps_rx r = 0)
  /\ (last_tx_pkts st <= txp -> r_pps_tx r = (txp - last_tx_pkts st) / dt)
  /\ (txp < last_tx_pkts st -> r_pps_tx r = 0)
  /\ (0 <= (ao - last_active_opens st) + (po - last_passive_opens st) ->
      r_conn_est_rate r = ((ao - last_active_opens st) + (po - last_passive_opens st)) / dt)
  /\ ((ao - last_active_opens st) + (po - last_passive_opens st) < 0 -> r_conn_est_rate r = 0).
Proof.
  intros H0 H1 Hdt Hi Brx Btx Bc r dt. subst r. unfold estimate_rates.
  apply Z.ltb_lt in H0 as H0b. apply Z.ltb_lt in H1 as H1b.
  rewrite H0b, H1b, (AgentConfig.string_nonempty _ Hi). cbn [andb negb].
  cbn [r_pps_rx r_pps_tx r_conn_est_rate].
  replace (Z.max 1 (now - last_ts st)) with dt by (subst dt; lia).
  assert (0 < dt < 2 ^ 53) by (subst dt; lia).
  repeat split; try apply AgentRates.per_second_nonneg; intros;
    (apply per_second_exact || apply per_second_reset); lia.
Qed.

Lemma packet_rates_clamped_witness :
  r_pps_rx (estimate_rates (mkState 1000 0 0 9000 100 5 5) 1010 "eth0" 0 0 2000 4000 20 30) = 0
  /\ r_pps_tx (estimate_rates (mkState 1000 0 0 9000 100 5 5) 1010 "eth0" 0 0 2000 4000 20 30)
     = 3900 / 10
  /\ r_conn_est_rate (estimate_rates (mkState 1000 0 0 9000 100 5 5) 1010 "eth0" 0 0 2000 4000 20 30)
     = 40 / 10.
Proof.
  destruct (packet_rates_clamped (mkState 1000 0 0 9000 100 5 5) 1010 "eth0" 0 0 2000 4000 20 30
              ltac:(cbn; lia) ltac:(cbn; lia) ltac:(cbn; lia) ltac:(discriminate)
              ltac:(cbn; lia) ltac:(cbn; lia) ltac:(cbn; lia))
    as (_ & _ & Hrx & Htx & _ & Hc & _).
  split; [apply Hrx; cbn; lia|]. split; [apply Htx; cbn; lia | apply Hc; cbn; lia].
Defined.

End AgentFloat.

(** ** Timestamps *)
Module CentralTime.
Import Py Central.

Lemma replace_Z_app a b : replace_Z (a ++ b) = (replace_Z a ++ replace_Z b)%string.
Proof.
  induction a as [|c a IH]; cbn [append replace_Z]; [reflexivity|].
  destruct (Nat.eqb _ 90); rewrite IH; [|reflexivity].
  cbn [append]. reflexivity.
Qed.

Lemma replace_Z_idempotent s : replace_Z (replace_Z s) = replace_Z s.
Proof.
  induction s as [|c s IH]; cbn [replace_Z]; [reflexivity|].
  destruct (Nat.eqb (nat_of_ascii c) 90) eqn:E.
  - rewrite replace_Z_app, IH. reflexivity.
  - cbn [replace_Z]. now rewrite E, IH.
Qed.

Section Time.

Variable datetime : Type.
Variable fromisoformat : string -> option datetime.

(** X23. [parse_timestamp] reads a text ending in the letter Z as it
    reads the same text ending in the offset +00:00; more generally it
    reads a text as it reads the text with every capital Z spelled out
    as that offset, whatever the library's parser makes of it. *)
Theorem parse_timestamp_zulu (s : string) :
  parse_timestamp fromisoformat (s ++ "Z") = parse_timestamp fromisoformat (s ++ "+00:00")
  /\ parse_timestamp fromisoformat s = parse_timestamp fromisoformat (replace_Z s).
Proof.
  unfold parse_timestamp. split.
  - now rewrite !replace_Z_app.
  - now rewrite replace_Z_idempotent.
Qed.

End Time.

Lemma parse_timestamp_zulu_witness :
  parse_timestamp Samples.iso_seconds "2024-05-01T12:00:00Z" = Ok "2024-05-01T12:00:00+00:00".
Proof.
  change "2024-05-01T12:00:00Z" with ("2024-05-01T12:00:00" ++ "Z")%string.
  rewrite (proj1 (parse_timestamp_zulu string Samples.iso_seconds "2024-05-01T12:00:00")).
  reflexivity.
Defined.

End CentralTime.
